(** * Recurring-event resolver of the calendar service

    A shallow embedding of [src/services/calendarService.js]
    ([extractTimezone], [parseIcsDate], [processEvent], [parseIcsContent])
    and of the projector [generateNext5FromEvents] of the pricing route,
    followed by the properties of the specification that concern them.
    The downloads and the cache of the service, the selection and display
    code of the timeline route, [formatDateForApi] and
    [fetchPackagesByPublication] of [apiService.js] and the publications
    service are embedded as well, with properties read off the code.

    Conventions of the embedding:
    - a JavaScript string is a [string] of 8-bit characters;
    - a JavaScript number holding an integer is a [Z]; where the code can
      see [NaN] the number is an [option Z] whose [None] is [NaN];
    - an object property that may be [undefined] is an [option];
    - an exception is the [Throw] case of [Completion];
    - Luxon's zone database is a parameter ([Luxon]): every zone has a
      constant UTC offset, so daylight-saving transitions are outside the
      model. *)

From Stdlib Require Import ZArith List String Ascii Bool Lia.
From Stdlib Require Import Numbers.DecimalString.
Import ListNotations.

Open Scope string_scope.
Open Scope Z_scope.

(** ** JavaScript string primitives *)

Module JS.

Definition LF : ascii := "010"%char.
Definition CR : ascii := "013"%char.

(** [s.startsWith(p)] *)
Definition startsWith (p s : string) : bool := String.prefix p s.

(** [s.substring(a, b)] for [a <= b]. *)
Definition substring (a b : nat) (s : string) : string :=
  String.substring a (b - a) s.

(** [s.substring(a)] *)
Fixpoint drop (n : nat) (s : string) : string :=
  match n, s with
  | O, _ => s
  | S n', EmptyString => EmptyString
  | S n', String _ s' => drop n' s'
  end.

(** [s.indexOf(p)]: position of the leftmost occurrence. *)
Fixpoint indexOf (p s : string) : option nat :=
  if startsWith p s then Some O
  else match s with
       | EmptyString => None
       | String _ s' => option_map S (indexOf p s')
       end.

(** [s.includes(p)] *)
Definition includes (p s : string) : bool :=
  match indexOf p s with Some _ => true | None => false end.

(** [s.endsWith(p)] *)
Fixpoint endsWith (p s : string) : bool :=
  String.eqb p s ||
  match s with
  | EmptyString => false
  | String _ s' => endsWith p s'
  end.

(** [s.split(sep)] for a non-empty separator. [skip] counts the characters
    of a separator that was just recognised and is still to be dropped,
    [acc] is the piece being collected. *)
Fixpoint splitAux (sep : string) (skip : nat) (acc : string) (s : string)
  : list string :=
  match s with
  | EmptyString => [acc]
  | String c s' =>
      match skip with
      | S k => splitAux sep k acc s'
      | O =>
          if startsWith sep s
          then acc :: splitAux sep (String.length sep - 1) EmptyString s'
          else splitAux sep O (acc ++ String c EmptyString) s'
      end
  end.

Definition split (sep s : string) : list string :=
  splitAux sep O EmptyString s.

(** [parts.join(sep)] *)
Fixpoint join (sep : string) (parts : list string) : string :=
  match parts with
  | [] => EmptyString
  | [p] => p
  | p :: rest => p ++ sep ++ join sep rest
  end.

(** [s.replace(p, r)] with a string pattern: the first occurrence only. *)
Definition replace (p r s : string) : string :=
  match indexOf p s with
  | Some i => String.substring 0 i s ++ r ++ drop (i + String.length p) s
  | None => s
  end.

(** [s.replace(/-/g, ' ')]-style replacement of every occurrence of one
    character. *)
Fixpoint replaceAllChar (c r : ascii) (s : string) : string :=
  match s with
  | EmptyString => EmptyString
  | String a s' =>
      String (if Ascii.eqb a c then r else a) (replaceAllChar c r s')
  end.

(** White space of [trim] and of [parseInt] among 8-bit characters. *)
Definition isWhiteSpace (c : ascii) : bool :=
  let n := nat_of_ascii c in
  ((9 <=? n) && (n <=? 13))%nat || (n =? 32)%nat || (n =? 160)%nat.

Fixpoint trimStart (s : string) : string :=
  match s with
  | String c s' => if isWhiteSpace c then trimStart s' else s
  | EmptyString => EmptyString
  end.

Fixpoint rev (s : string) : string :=
  match s with
  | EmptyString => EmptyString
  | String c s' => rev s' ++ String c EmptyString
  end.

(** [s.trim()] *)
Definition trim (s : string) : string := rev (trimStart (rev (trimStart s))).

(** [c.toUpperCase()] on one character. *)
Definition toUpperCase (c : ascii) : ascii :=
  let n := nat_of_ascii c in
  if ((97 <=? n) && (n <=? 122))%nat then ascii_of_nat (n - 32) else c.

(** [word.charAt(0).toUpperCase() + word.slice(1)] *)
Definition capitalize (word : string) : string :=
  match word with
  | EmptyString => EmptyString
  | String c rest => String (toUpperCase c) rest
  end.

(** The longest prefix of [s] made of characters that are not [stop], and
    what follows it. *)
Fixpoint span (stop : ascii -> bool) (s : string) : string * string :=
  match s with
  | EmptyString => (EmptyString, EmptyString)
  | String c s' =>
      if stop c then (EmptyString, s)
      else let (run, rest) := span stop s' in (String c run, rest)
  end.

(** [s.match(/TAG([^stop]+)/)] and, with [term = Some t],
    [s.match(/TAG([^t]+)t/)] where [stop] recognises exactly [t]: the first
    capture group of the leftmost match. The class is negated and greedy, so
    at a given position the group is the whole run of non-[stop] characters
    after the tag; when a terminator is required, a shorter run would be
    followed by a non-terminator and cannot match either. *)
Fixpoint matchTagRun (tag : string) (stop : ascii -> bool)
  (term : option ascii) (s : string) : option string :=
  let here :=
    if startsWith tag s then
      let (run, rest) := span stop (drop (String.length tag) s) in
      match run with
      | EmptyString => None
      | _ =>
          match term with
          | None => Some run
          | Some t =>
              match rest with
              | String c _ => if Ascii.eqb c t then Some run else None
              | EmptyString => None
              end
          end
      end
    else None in
  match here with
  | Some run => Some run
  | None =>
      match s with
      | EmptyString => None
      | String _ s' => matchTagRun tag stop term s'
      end
  end.

Definition isLineBreak (c : ascii) : bool := Ascii.eqb c CR || Ascii.eqb c LF.

(** Value of a digit in radix 10 or 16. *)
Definition digitValue (radix : Z) (c : ascii) : option Z :=
  let n := Z.of_nat (nat_of_ascii c) in
  let v :=
    if (48 <=? n) && (n <=? 57) then Some (n - 48)
    else if (97 <=? n) && (n <=? 122) then Some (n - 87)
    else if (65 <=? n) && (n <=? 90) then Some (n - 55)
    else None in
  match v with
  | Some d => if d <? radix then Some d else None
  | None => None
  end.

(** Reads the longest run of digits; [None] when there is none. *)
Fixpoint readDigits (radix : Z) (acc : option Z) (s : string) : option Z :=
  match s with
  | EmptyString => acc
  | String c s' =>
      match digitValue radix c with
      | Some d =>
          readDigits radix
            (Some (match acc with Some a => a * radix + d | None => d end)) s'
      | None => acc
      end
  end.

(** [parseInt(s)] without a radix argument: leading white space, a sign, an
    optional [0x] prefix selecting radix 16, then digits. [None] is [NaN]. *)
Definition parseInt (s : string) : option Z :=
  let s1 := trimStart s in
  let (neg, s2) :=
    match s1 with
    | String "-"%char r => (true, r)
    | String "+"%char r => (false, r)
    | _ => (false, s1)
    end in
  let (radix, s3) :=
    match s2 with
    | String "0"%char (String "x"%char r) => (16, r)
    | String "0"%char (String "X"%char r) => (16, r)
    | _ => (10, s2)
    end in
  match readDigits radix None s3 with
  | Some n => Some (if neg then - n else n)
  | None => None
  end.

(** [`${n}`] for a number. *)
Definition numberToString (n : option Z) : string :=
  match n with
  | Some z => NilEmpty.string_of_int (Z.to_int z)
  | None => "NaN"
  end.

(** [s.padStart(2, '0')] *)
Definition padStart2 (s : string) : string :=
  match String.length s with
  | O => "00"
  | S O => "0" ++ s
  | _ => s
  end.

(** [x || d] on strings: the empty string and [undefined] are falsy. *)
Definition orElse (x : option string) (d : string) : string :=
  match x with
  | Some EmptyString | None => d
  | Some s => s
  end.

(** Truthiness of a possibly undefined string. *)
Definition truthy (x : option string) : bool :=
  match x with
  | Some EmptyString | None => false
  | Some _ => true
  end.

(** [`${x}`] for a possibly undefined string. *)
Definition show (x : option string) : string :=
  match x with Some s => s | None => "undefined" end.

End JS.

(** ** Completions *)

(** The exceptions the modelled code can raise. *)
Inductive JSError : Type :=
| TypeError (msg : string)
| InvalidArgumentError (msg : string).

(** The outcome of evaluating JavaScript code: a value, or an exception
    that propagates to the caller. *)
Inductive Completion (A : Type) : Type :=
| Normal (a : A)
| Throw (e : JSError).

Arguments Normal {A} a.
Arguments Throw {A} e.

Definition bind {A B : Type} (c : Completion A) (k : A -> Completion B)
  : Completion B :=
  match c with
  | Normal a => k a
  | Throw e => Throw e
  end.

Notation "x <- c ;; k" := (bind c (fun x => k))
  (at level 61, c at next level, right associativity).

(** [try { c } catch (error) { h }] *)
Definition tryCatch {A : Type} (c : Completion A) (h : A) : A :=
  match c with
  | Normal a => a
  | Throw _ => h
  end.

(** ** The Luxon operations the service calls *)

(** A Luxon [DateTime]: an instant in epoch milliseconds together with the
    IANA zone it is displayed in, or an invalid value. *)
Inductive DateTime : Type :=
| DT (ts : Z) (zone : string)
| InvalidDT.

(** What Luxon takes from its environment: the UTC offset of a zone in
    minutes, the short name of that offset at an instant ("EST", "EDT"), its
    ISO-8601 parser on arbitrary text, and the system zone. *)
Record Luxon : Type := {
  offsetOf : string -> Z;
  offsetNameShort : string -> Z -> string;
  fromISOText : string -> DateTime;
  systemZone : string
}.

Definition msPerDay : Z := 86400000.
Definition msPerHour : Z := 3600000.
Definition msPerMinute : Z := 60000.

Section LuxonModel.

Variable L : Luxon.

(** Wall-clock milliseconds since 1970-01-01T00:00 in the zone. *)
Definition localMillis (ts : Z) (zone : string) : Z :=
  ts + offsetOf L zone * msPerMinute.

Definition ofLocal (local : Z) (zone : string) : DateTime :=
  DT (local - offsetOf L zone * msPerMinute) zone.

(** [dt.valueOf()], [dt.toMillis()] *)
Definition valueOf (dt : DateTime) : option Z :=
  match dt with DT ts _ => Some ts | InvalidDT => None end.

Definition isValid (dt : DateTime) : bool :=
  match dt with DT _ _ => true | InvalidDT => false end.

Definition localOf (dt : DateTime) : option Z :=
  match dt with DT ts z => Some (localMillis ts z) | InvalidDT => None end.

(** Calendar day in the zone, counted from 1970-01-01. *)
Definition dayNumber (dt : DateTime) : option Z :=
  option_map (fun l => l / msPerDay) (localOf dt).

(** [dt.hour], [dt.minute], [dt.second], [dt.millisecond] *)
Definition hour (dt : DateTime) : option Z :=
  option_map (fun l => (l mod msPerDay) / msPerHour) (localOf dt).
Definition minute (dt : DateTime) : option Z :=
  option_map (fun l => (l mod msPerHour) / msPerMinute) (localOf dt).
Definition second (dt : DateTime) : option Z :=
  option_map (fun l => (l mod msPerMinute) / 1000) (localOf dt).
Definition millisecond (dt : DateTime) : option Z :=
  option_map (fun l => l mod 1000) (localOf dt).

(** [dt.weekday]: 1 is Monday, 7 is Sunday; day 0 was a Thursday. *)
Definition weekdayOfDay (d : Z) : Z := (d + 3) mod 7 + 1.
Definition weekday (dt : DateTime) : option Z :=
  option_map weekdayOfDay (dayNumber dt).

(** [dt.setZone(zone)] *)
Definition setZone (zone : string) (dt : DateTime) : DateTime :=
  match dt with DT ts _ => DT ts zone | InvalidDT => InvalidDT end.

(** [DateTime.now()] at instant [now]. *)
Definition nowDT (now : Z) : DateTime := DT now (systemZone L).

(** [dt.startOf('day')] *)
Definition startOfDay (dt : DateTime) : DateTime :=
  match dt with
  | DT ts z => let l := localMillis ts z in ofLocal (l - l mod msPerDay) z
  | InvalidDT => InvalidDT
  end.

(** [dt.plus({ days: n })] and [dt.minus({ days: n })] *)
Definition plusDays (n : Z) (dt : DateTime) : DateTime :=
  match dt with
  | DT ts z => ofLocal (localMillis ts z + n * msPerDay) z
  | InvalidDT => InvalidDT
  end.
Definition minusDays (n : Z) (dt : DateTime) : DateTime := plusDays (- n) dt.

(** [dt.set({ hour: h, minute: m, second: s })]: the date and the
    millisecond are kept. *)
Definition setHMS (h m s : Z) (dt : DateTime) : DateTime :=
  match dt with
  | DT ts z =>
      let l := localMillis ts z in
      ofLocal (l / msPerDay * msPerDay + h * msPerHour + m * msPerMinute
               + s * 1000 + l mod 1000) z
  | InvalidDT => InvalidDT
  end.

(** [dt.set({ hour: h, minute: m, second: s, millisecond: ms })] *)
Definition setHMSm (h m s ms : Z) (dt : DateTime) : DateTime :=
  match dt with
  | DT ts z =>
      let l := localMillis ts z in
      ofLocal (l / msPerDay * msPerDay + h * msPerHour + m * msPerMinute
               + s * 1000 + ms) z
  | InvalidDT => InvalidDT
  end.

(** [a.diff(b)]: a duration in milliseconds, invalid ([None]) when either
    side is. *)
Definition diff (a b : DateTime) : option Z :=
  match a, b with
  | DT ta _, DT tb _ => Some (ta - tb)
  | _, _ => None
  end.

(** [dt.plus(duration)]. Luxon rebuilds the duration from its unit values
    and rejects [NaN] ones, which is what an invalid duration holds. *)
Definition plusDuration (d : option Z) (dt : DateTime) : Completion DateTime :=
  match dt with
  | InvalidDT => Normal InvalidDT
  | DT ts z =>
      match d with
      | Some ms => Normal (DT (ts + ms) z)
      | None => Throw (InvalidArgumentError "Invalid unit value NaN")
      end
  end.

(** [a < b] and [a > b] on DateTimes compare [valueOf]; a comparison with
    [NaN] is false. *)
Definition ltDT (a b : DateTime) : bool :=
  match valueOf a, valueOf b with
  | Some x, Some y => x <? y
  | _, _ => false
  end.
Definition gtDT (a b : DateTime) : bool := ltDT b a.

(** [DateTime.max(a, b)]: the fold keeps [a] only when
    [Math.max(a.valueOf(), b.valueOf()) === a.valueOf()]. *)
Definition maxDT (a b : DateTime) : DateTime :=
  match valueOf a, valueOf b with
  | Some x, Some y => if y <=? x then a else b
  | _, _ => b
  end.

Definition isLeapYear (y : Z) : bool :=
  (y mod 4 =? 0) && (negb (y mod 100 =? 0) || (y mod 400 =? 0)).

Definition daysInMonth (y m : Z) : Z :=
  if m =? 2 then (if isLeapYear y then 29 else 28)
  else if (m =? 4) || (m =? 6) || (m =? 9) || (m =? 11) then 30
  else 31.

(** Days from 1970-01-01 to the given date of the proleptic Gregorian
    calendar. *)
Definition daysFromCivil (y m d : Z) : Z :=
  let y' := if m <=? 2 then y - 1 else y in
  let era := y' / 400 in
  let yoe := y' - era * 400 in
  let doy := (153 * (if 2 <? m then m - 3 else m + 9) + 2) / 5 + d - 1 in
  let doe := yoe * 365 + yoe / 4 - yoe / 100 + doy in
  era * 146097 + doe - 719468.

(** The units given to [DateTime.fromObject]; each may be [NaN]. *)
Record DateObject : Type := {
  o_year : option Z; o_month : option Z; o_day : option Z;
  o_hour : option Z; o_minute : option Z; o_second : option Z
}.

(** [DateTime.fromObject(obj, { zone })]: a [NaN] unit is rejected with an
    exception; units out of range give an invalid DateTime. *)
Definition fromObject (o : DateObject) (zone : string) : Completion DateTime :=
  match o_year o, o_month o, o_day o, o_hour o, o_minute o, o_second o with
  | Some y, Some m, Some d, Some h, Some mi, Some s =>
      let validDate :=
        (1 <=? m) && (m <=? 12) && (1 <=? d) && (d <=? daysInMonth y m) in
      let validTime :=
        (((0 <=? h) && (h <=? 23)) || ((h =? 24) && (mi =? 0) && (s =? 0)))
        && (0 <=? mi) && (mi <=? 59) && (0 <=? s) && (s <=? 59) in
      if validDate && validTime
      then Normal (ofLocal (daysFromCivil y m d * msPerDay + h * msPerHour
                            + mi * msPerMinute + s * 1000) zone)
      else Normal InvalidDT
  | _, _, _, _, _, _ => Throw (InvalidArgumentError "Invalid unit value NaN")
  end.

(** An ISO-8601 string with an offset, as [toISO] writes it, denotes an
    instant; it is modelled by that instant, and [null] by [None]. *)
Definition ISO : Type := option Z.

(** [dt.toISO()] *)
Definition toISO (dt : DateTime) : ISO := valueOf dt.

(** [DateTime.fromISO(iso)] on a string written by [toISO]. *)
Definition fromISO (iso : ISO) : DateTime :=
  match iso with
  | Some ts => DT ts (systemZone L)
  | None => InvalidDT
  end.

End LuxonModel.

(** ** JavaScript [Map] with string keys *)

(** A [Map] keeps its entries in insertion order, which [Array.from] of its
    values exposes; it is an association list without duplicate keys. *)
Definition JSMap (V : Type) : Type := list (string * V).

Fixpoint mapGet {V : Type} (k : string) (m : JSMap V) : option V :=
  match m with
  | [] => None
  | (k', v) :: m' => if String.eqb k k' then Some v else mapGet k m'
  end.

Definition mapHas {V : Type} (k : string) (m : JSMap V) : bool :=
  match mapGet k m with Some _ => true | None => false end.

(** [m.set(k, v)]: an existing key keeps its position. *)
Fixpoint mapSet {V : Type} (k : string) (v : V) (m : JSMap V) : JSMap V :=
  match m with
  | [] => [(k, v)]
  | (k', v') :: m' =>
      if String.eqb k k' then (k, v) :: m' else (k', v') :: mapSet k v m'
  end.

(** [Array.from(m.values())] *)
Definition mapValues {V : Type} (m : JSMap V) : list V := map snd m.

(** ** The event objects *)

(** [currentEvent]: the object filled while one VEVENT block is scanned.
    Every property starts out [undefined]. *)
Module Raw.

Record Event : Type := {
  startDate : option DateTime;
  startTimezone : option string;
  endDate : option DateTime;
  endTimezone : option string;
  summary : option string;
  description : option string;
  location : option string;
  uid : option string;
  status : option string;
  rrule : option string;
  categories : option string;
  created : option DateTime;
  lastModified : option DateTime;
  deadlineOffset : option Z;
  otherProperties : option (list (string * string))
}.

(** [{}] *)
Definition empty : Event :=
  {| startDate := None; startTimezone := None; endDate := None;
     endTimezone := None; summary := None; description := None;
     location := None; uid := None; status := None; rrule := None;
     categories := None; created := None; lastModified := None;
     deadlineOffset := None; otherProperties := None |}.

Definition isSome {A : Type} (x : option A) : bool :=
  match x with Some _ => true | None => false end.

(** [Object.keys(e).length > 0] *)
Definition hasKeys (e : Event) : bool :=
  isSome (startDate e) || isSome (startTimezone e) || isSome (endDate e)
  || isSome (endTimezone e) || isSome (summary e) || isSome (description e)
  || isSome (location e) || isSome (uid e) || isSome (status e)
  || isSome (rrule e) || isSome (categories e) || isSome (created e)
  || isSome (lastModified e) || isSome (deadlineOffset e)
  || isSome (otherProperties e).

Definition setStart (d : DateTime) (tz : string) (e : Event) : Event :=
  {| startDate := Some d; startTimezone := Some tz; endDate := endDate e;
     endTimezone := endTimezone e; summary := summary e;
     description := description e; location := location e; uid := uid e;
     status := status e; rrule := rrule e; categories := categories e;
     created := created e; lastModified := lastModified e;
     deadlineOffset := deadlineOffset e;
     otherProperties := otherProperties e |}.

Definition setEnd (d : DateTime) (tz : string) (e : Event) : Event :=
  {| startDate := startDate e; startTimezone := startTimezone e;
     endDate := Some d; endTimezone := Some tz; summary := summary e;
     description := description e; location := location e; uid := uid e;
     status := status e; rrule := rrule e; categories := categories e;
     created := created e; lastModified := lastModified e;
     deadlineOffset := deadlineOffset e;
     otherProperties := otherProperties e |}.

Definition setSummary (v : string) (e : Event) : Event :=
  {| startDate := startDate e; startTimezone := startTimezone e;
     endDate := endDate e; endTimezone := endTimezone e; summary := Some v;
     description := description e; location := location e; uid := uid e;
     status := status e; rrule := rrule e; categories := categories e;
     created := created e; lastModified := lastModified e;
     deadlineOffset := deadlineOffset e;
     otherProperties := otherProperties e |}.

Definition setDescription (v : string) (e : Event) : Event :=
  {| startDate := startDate e; startTimezone := startTimezone e;
     endDate := endDate e; endTimezone := endTimezone e;
     summary := summary e; description := Some v; location := location e;
     uid := uid e; status := status e; rrule := rrule e;
     categories := categories e; created := created e;
     lastModified := lastModified e; deadlineOffset := deadlineOffset e;
     otherProperties := otherProperties e |}.

Definition setLocation (v : string) (e : Event) : Event :=
  {| startDate := startDate e; startTimezone := startTimezone e;
     endDate := endDate e; endTimezone := endTimezone e;
     summary := summary e; description := description e;
     location := Some v; uid := uid e; status := status e; rrule := rrule e;
     categories := categories e; created := created e;
     lastModified := lastModified e; deadlineOffset := deadlineOffset e;
     otherProperties := otherProperties e |}.

Definition setUid (v : string) (e : Event) : Event :=
  {| startDate := startDate e; startTimezone := startTimezone e;
     endDate := endDate e; endTimezone := endTimezone e;
     summary := summary e; description := description e;
     location := location e; uid := Some v; status := status e;
     rrule := rrule e; categories := categories e; created := created e;
     lastModified := lastModified e; deadlineOffset := deadlineOffset e;
     otherProperties := otherProperties e |}.

Definition setStatus (v : string) (e : Event) : Event :=
  {| startDate := startDate e; startTimezone := startTimezone e;
     endDate := endDate e; endTimezone := endTimezone e;
     summary := summary e; description := description e;
     location := location e; uid := uid e; status := Some v;
     rrule := rrule e; categories := categories e; created := created e;
     lastModified := lastModified e; deadlineOffset := deadlineOffset e;
     otherProperties := otherProperties e |}.

Definition setRrule (v : string) (e : Event) : Event :=
  {| startDate := startDate e; startTimezone := startTimezone e;
     endDate := endDate e; endTimezone := endTimezone e;
     summary := summary e; description := description e;
     location := location e; uid := uid e; status := status e;
     rrule := Some v; categories := categories e; created := created e;
     lastModified := lastModified e; deadlineOffset := deadlineOffset e;
     otherProperties := otherProperties e |}.

Definition setCategories (v : string) (e : Event) : Event :=
  {| startDate := startDate e; startTimezone := startTimezone e;
     endDate := endDate e; endTimezone := endTimezone e;
     summary := summary e; description := description e;
     location := location e; uid := uid e; status := status e;
     rrule := rrule e; categories := Some v; created := created e;
     lastModified := lastModified e; deadlineOffset := deadlineOffset e;
     otherProperties := otherProperties e |}.

Definition setCreated (d : DateTime) (e : Event) : Event :=
  {| startDate := startDate e; startTimezone := startTimezone e;
     endDate := endDate e; endTimezone := endTimezone e;
     summary := summary e; description := description e;
     location := location e; uid := uid e; status := status e;
     rrule := rrule e; categories := categories e; created := Some d;
     lastModified := lastModified e; deadlineOffset := deadlineOffset e;
     otherProperties := otherProperties e |}.

Definition setLastModified (d : DateTime) (e : Event) : Event :=
  {| startDate := startDate e; startTimezone := startTimezone e;
     endDate := endDate e; endTimezone := endTimezone e;
     summary := summary e; description := description e;
     location := location e; uid := uid e; status := status e;
     rrule := rrule e; categories := categories e; created := created e;
     lastModified := Some d; deadlineOffset := deadlineOffset e;
     otherProperties := otherProperties e |}.

Definition setDeadlineOffset (n : Z) (e : Event) : Event :=
  {| startDate := startDate e; startTimezone := startTimezone e;
     endDate := endDate e; endTimezone := endTimezone e;
     summary := summary e; description := description e;
     location := location e; uid := uid e; status := status e;
     rrule := rrule e; categories := categories e; created := created e;
     lastModified := lastModified e; deadlineOffset := Some n;
     otherProperties := otherProperties e |}.

(** [if (!e.otherProperties) e.otherProperties = {};
     e.otherProperties[property] = value] *)
Definition setOther (property value : string) (e : Event) : Event :=
  {| startDate := startDate e; startTimezone := startTimezone e;
     endDate := endDate e; endTimezone := endTimezone e;
     summary := summary e; description := description e;
     location := location e; uid := uid e; status := status e;
     rrule := rrule e; categories := categories e; created := created e;
     lastModified := lastModified e; deadlineOffset := deadlineOffset e;
     otherProperties :=
       Some (mapSet property value
               (match otherProperties e with Some o => o | None => [] end)) |}.

End Raw.

(** [{ dateTime, timeZone }] *)
Record TimePoint : Type := {
  dateTime : ISO;
  timeZone : string
}.

(** [parsedEvent]: what [processEvent] stores and the projector reads. The
    projector tests [recurrence] and [deadlineOffset] for presence, so both
    are optional here. *)
Record ParsedEvent : Type := {
  summary : string;
  description : string;
  start : TimePoint;
  end_ : TimePoint;
  recurrence : option (list string);
  source : string;
  originalUid : option string;
  sessionId : string;
  isRecurring : bool;
  deadlineOffset : option Z;
  startDate : ISO;
  endDate : ISO;
  uid : option string
}.

(** ** calendarService.js *)

Definition defaultZone : string := "America/New_York".

(** [extractTimezone(dateValue)] *)
Definition extractTimezone (dateValue : string) : string :=
  if JS.includes "TZID=" dateValue then
    match JS.matchTagRun "TZID=" (Ascii.eqb ":") (Some ":"%char) dateValue with
    | Some tz => tz
    | None => defaultZone
    end
  else if JS.endsWith "Z" dateValue then "UTC" else defaultZone.

(** [dayNames] of [processEvent]; the position is the JavaScript weekday. *)
Definition dayNames : list string := ["SU"; "MO"; "TU"; "WE"; "TH"; "FR"; "SA"].

(** [dayNames.indexOf(day)]; [None] is [-1]. *)
Fixpoint indexOfName (names : list string) (day : string) : option Z :=
  match names with
  | [] => None
  | n :: rest =>
      if String.eqb n day then Some 0
      else option_map Z.succ (indexOfName rest day)
  end.

Definition dayIndexOf (day : option string) : option Z :=
  match day with
  | Some d => indexOfName dayNames d
  | None => None
  end.

(** [uid ? uid.split('--')[0] : ''] *)
Definition baseUidOf (uid : option string) : string :=
  match uid with
  | Some u => if JS.truthy uid then hd "" (JS.split "--" u) else ""
  | None => ""
  end.

(** [(eventDayOfWeek - todayDayOfWeek + 7) % 7], a result of 0 replaced
    by 7. *)
Definition daysToAdd (eventDayOfWeek todayDayOfWeek : Z) : Z :=
  let d := Z.rem (eventDayOfWeek - todayDayOfWeek + 7) 7 in
  if d =? 0 then 7 else d.

Definition newline : string := String JS.LF EmptyString.

Section Service.

Variable L : Luxon.

(** The instant at which the code runs: every [DateTime.now()]. *)
Variable now : Z.

(** [parseIcsDate(icsDate, timezone)] *)
Definition parseIcsDate (icsDate : string) (timezone : option string)
  : DateTime :=
  tryCatch
    (let zone :=
       if JS.truthy timezone then JS.show timezone
       else if JS.endsWith "Z" icsDate then "UTC" else defaultZone in
     if (String.length icsDate =? 8)%nat then
       let year := JS.parseInt (JS.substring 0 4 icsDate) in
       let month := JS.parseInt (JS.substring 4 6 icsDate) in
       let day := JS.parseInt (JS.substring 6 8 icsDate) in
       fromObject L {| o_year := year; o_month := month; o_day := day;
                       o_hour := Some 0; o_minute := Some 0;
                       o_second := Some 0 |} zone
     else if JS.includes "T" icsDate then
       let dateTimeParts := JS.split "T" (JS.replace "Z" "" icsDate) in
       let datePart := hd "" dateTimeParts in
       let timePart := JS.orElse (nth_error dateTimeParts 1) "000000" in
       let year := JS.parseInt (JS.substring 0 4 datePart) in
       let month := JS.parseInt (JS.substring 4 6 datePart) in
       let day := JS.parseInt (JS.substring 6 8 datePart) in
       let hour := JS.parseInt (JS.substring 0 2 timePart) in
       let minute := JS.parseInt (JS.substring 2 4 timePart) in
       let second := JS.parseInt (JS.substring 4 6 timePart) in
       let finalZone := if JS.endsWith "Z" icsDate then "UTC" else zone in
       fromObject L {| o_year := year; o_month := month; o_day := day;
                       o_hour := hour; o_minute := minute;
                       o_second := second |} finalZone
     else
       let parsed := fromISOText L icsDate in
       Normal (match timezone with
               | Some tz => if JS.truthy timezone then setZone tz parsed
                            else parsed
               | None => parsed
               end))
    (setZone (JS.orElse timezone defaultZone) (nowDT L now)).

(** [nextOccurrence] of [processEvent]: today plus [daysToAdd], at the
    hour, minute and second of the event. The caller has found
    [eventStartTime < todayInEventTz], so both are valid and the last case
    is not reached. *)
Definition nextOccurrence (eventStartTime todayInEventTz : DateTime)
  : DateTime :=
  match weekday L eventStartTime, weekday L todayInEventTz,
        hour L eventStartTime, minute L eventStartTime,
        second L eventStartTime with
  | Some eventDayOfWeek, Some todayDayOfWeek, Some h, Some m, Some s =>
      setHMS L h m s
        (plusDays L (daysToAdd eventDayOfWeek todayDayOfWeek) todayInEventTz)
  | _, _, _, _, _ => InvalidDT
  end.

(** Lines 210-230 of [processEvent]: the start and end after the stale-date
    adjustment. *)
Definition adjustToFuture (isRecurringEvent : bool)
  (eventStartTime eventEndTime todayInEventTz : DateTime)
  : Completion (DateTime * DateTime) :=
  if isRecurringEvent && ltDT eventStartTime todayInEventTz then
    let next := nextOccurrence eventStartTime todayInEventTz in
    let duration := diff eventEndTime eventStartTime in
    nextEndTime <- plusDuration duration next ;;
    Normal (next, nextEndTime)
  else Normal (eventStartTime, eventEndTime).

(** [eventSource] of [processEvent] *)
Definition eventSourceOf (currentEvent : Raw.Event)
  (defaultSourceName : string) : string :=
  match Raw.categories currentEvent with
  | Some c =>
      if JS.truthy (Some c)
      then JS.join " " (map JS.capitalize (JS.split "-" c))
      else defaultSourceName
  | None => defaultSourceName
  end.

(** The object literal [parsedEvent], shared by both branches; [recurrence]
    and [isRecurring] are what distinguishes them. *)
Definition mkParsedEvent (currentEvent : Raw.Event)
  (eventSource sessionId eventTimezone : string)
  (eventStartTime eventEndTime : DateTime)
  (recurrence : option (list string)) (isRecurring : bool) : ParsedEvent :=
  {| summary := JS.orElse (Raw.summary currentEvent) "Untitled Event";
     description :=
       JS.orElse (Raw.description currentEvent) "" ++ newline ++ newline
       ++ "Source: " ++ eventSource ++ newline
       ++ "originalUuid: " ++ JS.show (Raw.uid currentEvent) ++ newline
       ++ "sessionId: " ++ sessionId;
     start := {| dateTime := toISO eventStartTime;
                 timeZone := eventTimezone |};
     end_ := {| dateTime := toISO eventEndTime;
                timeZone := JS.orElse (Raw.endTimezone currentEvent)
                              eventTimezone |};
     recurrence := recurrence;
     source := eventSource;
     originalUid := Raw.uid currentEvent;
     sessionId := sessionId;
     isRecurring := isRecurring;
     deadlineOffset :=
       Some (match Raw.deadlineOffset currentEvent with
             | Some n => n
             | None => 2
             end);
     startDate := toISO eventStartTime;
     endDate := toISO eventEndTime;
     uid := Raw.uid currentEvent |}.

(** [daysInRule] of [processEvent]; an element is [undefined] when the
    start is invalid and [dayNames] is read at [NaN]. *)
Definition daysInRule (rawRrule : option string) (eventStartTime : DateTime)
  : list (option string) :=
  let fromRule :=
    match rawRrule with
    | Some r =>
        if JS.truthy rawRrule && JS.includes "BYDAY=" r then
          match JS.matchTagRun "BYDAY=" (Ascii.eqb ";") None r with
          | Some days => map Some (JS.split "," days)
          | None => []
          end
        else []
    | None => []
    end in
  match fromRule with
  | [] =>
      [match weekday L eventStartTime with
       | Some w => nth_error dayNames (Z.to_nat (if w =? 7 then 0 else w))
       | None => None
       end]
  | _ => fromRule
  end.

(** [timeKey]:
    [`${eventStartTime.hour}:${eventStartTime.minute.toString().padStart(2, '0')}`] *)
Definition timeKeyOf (eventStartTime : DateTime) : string :=
  JS.numberToString (hour L eventStartTime) ++ ":"
  ++ JS.padStart2 (JS.numberToString (minute L eventStartTime)).

(** [oneTimeKey]: [`${currentEvent.uid}_${eventStartTime.toMillis()}`] *)
Definition oneTimeKeyOf (uid : option string) (eventStartTime : DateTime)
  : string :=
  JS.show uid ++ "_" ++ JS.numberToString (valueOf eventStartTime).

(** [`${baseUid}_${dayIndex}_${timeKey}`] *)
Definition dayPatternKey (baseUid : string) (dayIndex : Z) (timeKey : string)
  : string :=
  baseUid ++ "_" ++ JS.numberToString (Some dayIndex) ++ "_" ++ timeKey.

(** The loop [for (const day of daysInRule)] of [processEvent]. *)
Fixpoint addDayEvents (currentEvent : Raw.Event)
  (eventSource sessionId eventTimezone : string)
  (eventStartTime eventEndTime : DateTime) (baseUid timeKey : string)
  (days : list (option string)) (eventsByDayPattern : JSMap ParsedEvent)
  : JSMap ParsedEvent :=
  match days with
  | [] => eventsByDayPattern
  | day :: rest =>
      let continue_ := addDayEvents currentEvent eventSource sessionId
                         eventTimezone eventStartTime eventEndTime baseUid
                         timeKey rest in
      match dayIndexOf day with
      | None => continue_ eventsByDayPattern
      | Some dayIndex =>
          let key := dayPatternKey baseUid dayIndex timeKey in
          if negb (mapHas key eventsByDayPattern) then
            let singleDayRrule := "RRULE:FREQ=WEEKLY;BYDAY=" ++ JS.show day in
            continue_
              (mapSet key
                 (mkParsedEvent currentEvent eventSource sessionId
                    eventTimezone eventStartTime eventEndTime
                    (Some [singleDayRrule]) true)
                 eventsByDayPattern)
          else continue_ eventsByDayPattern
      end
  end.

(** [processEvent(currentEvent, rawRrule, isRecurringEvent, today,
    eventsByDayPattern, defaultSourceName, sessionId)]; the result is the
    map after the call. Only the truthiness of [isRecurringEvent] is used.
    With [startDate] undefined the stale-date test is false and reading
    [eventStartTime.hour] raises. *)
Definition processEvent (currentEvent : Raw.Event) (rawRrule : option string)
  (isRecurringEvent : bool) (today : DateTime)
  (eventsByDayPattern : JSMap ParsedEvent)
  (defaultSourceName sessionId : string) : Completion (JSMap ParsedEvent) :=
  let eventSource := eventSourceOf currentEvent defaultSourceName in
  let eventTimezone := JS.orElse (Raw.startTimezone currentEvent) defaultZone in
  let todayInEventTz := setZone eventTimezone today in
  match Raw.startDate currentEvent with
  | None =>
      Throw (TypeError "Cannot read properties of undefined (reading 'hour')")
  | Some startDate0 =>
      let endDate0 :=
        match Raw.endDate currentEvent with
        | Some e => e
        | None => startDate0
        end in
      times <- adjustToFuture isRecurringEvent startDate0 endDate0
                 todayInEventTz ;;
      let eventStartTime := fst times in
      let eventEndTime := snd times in
      let timeKey := timeKeyOf eventStartTime in
      let baseUid := baseUidOf (Raw.uid currentEvent) in
      if isRecurringEvent then
        Normal (addDayEvents currentEvent eventSource sessionId eventTimezone
                  eventStartTime eventEndTime baseUid timeKey
                  (daysInRule rawRrule eventStartTime) eventsByDayPattern)
      else
        let oneTimeKey := oneTimeKeyOf (Raw.uid currentEvent) eventStartTime in
        if negb (mapHas oneTimeKey eventsByDayPattern) then
          Normal (mapSet oneTimeKey
                    (mkParsedEvent currentEvent eventSource sessionId
                       eventTimezone eventStartTime eventEndTime None false)
                    eventsByDayPattern)
        else Normal eventsByDayPattern
  end.

End Service.

(** The first pass of [parseIcsContent]: the side table from the base UID
    of a block to its RRULE. *)
Definition rruleMapStep (rruleMap : JSMap string) (block : string)
  : JSMap string :=
  if JS.includes "UID:" block && JS.includes "RRULE:" block then
    match JS.matchTagRun "UID:" JS.isLineBreak None block,
          JS.matchTagRun "RRULE:" JS.isLineBreak None block with
    | Some uidMatch, Some rruleMatch =>
        let fullUid := JS.trim uidMatch in
        let baseUid := hd "" (JS.split "--" fullUid) in
        mapSet baseUid (JS.trim rruleMatch) rruleMap
    | _, _ => rruleMap
    end
  else rruleMap.

Definition buildRruleMap (icsContent : string) : JSMap string :=
  fold_left rruleMapStep (JS.split "BEGIN:VEVENT" icsContent) [].

(** [sourceName] of [parseIcsContent] *)
Definition sourceNameOf (sourceUrl : string) : string :=
  let urlParts := JS.split "/" sourceUrl in
  let filename := last urlParts "" in
  JS.join " "
    (map JS.capitalize
       (JS.split " "
          (JS.replaceAllChar "-"%char " "%char (JS.replace ".ics" "" filename)))).

(** The variables of the scanning loop of [parseIcsContent]. *)
Record ParseState : Type := {
  currentEvent : option Raw.Event;
  inEvent : bool;
  eventsByDayPattern : JSMap ParsedEvent;
  totalProcessed : Z;
  futureEvents : Z;
  pastEvents : Z
}.

Definition initialState : ParseState :=
  {| currentEvent := None; inEvent := false; eventsByDayPattern := [];
     totalProcessed := 0; futureEvents := 0; pastEvents := 0 |}.

Section Parser.

Variable L : Luxon.
Variable now : Z.

(** The property dispatch of the scanning loop, for a line [line] cut at
    its first colon into [property] and [value]. *)
Definition assignProperty (line property value : string) (e : Raw.Event)
  : Raw.Event :=
  if JS.startsWith "DTSTART" property then
    let timezone := extractTimezone line in
    Raw.setStart (parseIcsDate L now value (Some timezone)) timezone e
  else if JS.startsWith "DTEND" property then
    let timezone := extractTimezone line in
    Raw.setEnd (parseIcsDate L now value (Some timezone)) timezone e
  else if String.eqb property "SUMMARY" then Raw.setSummary value e
  else if String.eqb property "DESCRIPTION" then Raw.setDescription value e
  else if String.eqb property "LOCATION" then Raw.setLocation value e
  else if String.eqb property "UID" then Raw.setUid value e
  else if String.eqb property "STATUS" then Raw.setStatus value e
  else if String.eqb property "RRULE" then Raw.setRrule value e
  else if String.eqb property "CATEGORIES" then Raw.setCategories value e
  else if String.eqb property "CREATED" then
    Raw.setCreated (parseIcsDate L now value (Some "UTC")) e
  else if String.eqb property "LAST-MODIFIED" then
    Raw.setLastModified (parseIcsDate L now value (Some "UTC")) e
  else if String.eqb property "X-PUB-DEADLINE-OFFSET" then
    Raw.setDeadlineOffset
      (match JS.parseInt value with
       | Some n => n          (* [n || 0] is [n], also for [n = 0] *)
       | None => 0            (* [NaN || 0] *)
       end) e
  else Raw.setOther property value e.

(** [rruleMap.get(currentEvent.uid) || rruleMap.get(baseUid)] *)
Definition rawRruleOf (rruleMap : JSMap string) (e : Raw.Event)
  : option string :=
  let byUid :=
    match Raw.uid e with
    | Some u => mapGet u rruleMap
    | None => None
    end in
  if JS.truthy byUid then byUid
  else mapGet (baseUidOf (Raw.uid e)) rruleMap.

(** The [END:VEVENT] case for a current event that has properties. *)
Definition finishEvent (rruleMap : JSMap string) (today : DateTime)
  (sourceName sessionId : string) (e : Raw.Event) (st : ParseState)
  : Completion ParseState :=
  let rawRrule := rawRruleOf rruleMap e in
  let isRecurringEvent := JS.truthy rawRrule || JS.truthy (Raw.rrule e) in
  let isPast :=
    match Raw.startDate e with
    | Some startDate =>
        negb isRecurringEvent
        && ltDT startDate
             (setZone (JS.orElse (Raw.startTimezone e) defaultZone) today)
    | None => false
    end in
  if isPast then
    Normal {| currentEvent := None; inEvent := false;
              eventsByDayPattern := eventsByDayPattern st;
              totalProcessed := totalProcessed st + 1;
              futureEvents := futureEvents st;
              pastEvents := pastEvents st + 1 |}
  else
    events <- processEvent L e rawRrule isRecurringEvent today
                (eventsByDayPattern st) sourceName sessionId ;;
    Normal {| currentEvent := None; inEvent := false;
              eventsByDayPattern := events;
              totalProcessed := totalProcessed st + 1;
              futureEvents := futureEvents st + 1;
              pastEvents := pastEvents st |}.

(** One iteration of the scanning loop. *)
Definition parseLine (rruleMap : JSMap string) (today : DateTime)
  (sourceName sessionId : string) (st : ParseState) (line : string)
  : Completion ParseState :=
  if String.eqb line "BEGIN:VEVENT" then
    Normal {| currentEvent := Some Raw.empty; inEvent := true;
              eventsByDayPattern := eventsByDayPattern st;
              totalProcessed := totalProcessed st;
              futureEvents := futureEvents st;
              pastEvents := pastEvents st |}
  else if String.eqb line "END:VEVENT" && inEvent st then
    match currentEvent st with
    | Some e =>
        if Raw.hasKeys e
        then finishEvent rruleMap today sourceName sessionId e st
        else Normal {| currentEvent := None; inEvent := false;
                       eventsByDayPattern := eventsByDayPattern st;
                       totalProcessed := totalProcessed st;
                       futureEvents := futureEvents st;
                       pastEvents := pastEvents st |}
    | None =>
        Normal {| currentEvent := None; inEvent := false;
                  eventsByDayPattern := eventsByDayPattern st;
                  totalProcessed := totalProcessed st;
                  futureEvents := futureEvents st;
                  pastEvents := pastEvents st |}
    end
  else if inEvent st && JS.includes ":" line then
    match JS.indexOf ":" line, currentEvent st with
    | Some colonIndex, Some e =>
        let property := JS.substring 0 colonIndex line in
        let value := JS.drop (colonIndex + 1) line in
        Normal {| currentEvent := Some (assignProperty line property value e);
                  inEvent := inEvent st;
                  eventsByDayPattern := eventsByDayPattern st;
                  totalProcessed := totalProcessed st;
                  futureEvents := futureEvents st;
                  pastEvents := pastEvents st |}
    | _, _ =>
        (* [inEvent] is true only between a BEGIN, which sets
           [currentEvent], and the END that clears both *)
        Throw (TypeError "Cannot set properties of null")
    end
  else Normal st.

(** The scanning loop: an exception leaves it at once. *)
Fixpoint parseLines (rruleMap : JSMap string) (today : DateTime)
  (sourceName sessionId : string) (lines : list string) (st : ParseState)
  : Completion ParseState :=
  match lines with
  | [] => Normal st
  | line :: rest =>
      st' <- parseLine rruleMap today sourceName sessionId st line ;;
      parseLines rruleMap today sourceName sessionId rest st'
  end.

(** [parseIcsContent(icsContent, sourceUrl)]. [sessionId], a label the code
    builds from the clock, is an argument. *)
Definition parseIcsContent (sessionId : string)
  (icsContent sourceUrl : string) : Completion (list ParsedEvent) :=
  let rruleMap := buildRruleMap icsContent in
  let sourceName := sourceNameOf sourceUrl in
  let today := startOfDay L (nowDT L now) in
  let lines := map JS.trim (JS.split (String JS.LF EmptyString) icsContent) in
  st <- parseLines rruleMap today sourceName sessionId lines initialState ;;
  Normal (mapValues (eventsByDayPattern st)).

End Parser.

(** ** The projector of the pricing route *)

(** An element of [dates]. *)
Module Occ.

Record t : Type := {
  runDate : DateTime;
  submissionDate : DateTime;
  timezone : string;
  timezoneAbbr : option string;
  deadlineOffset : Z
}.

End Occ.

(** [dayMap] of [generateNext5FromEvents], in the order of its keys. *)
Definition dayMap : list (string * Z) :=
  [("MO", 1); ("TU", 2); ("WE", 3); ("TH", 4); ("FR", 5); ("SA", 6);
   ("SU", 7)].

(** [Object.keys(dayMap).find(key => dayMap[key] === weekday)];
    [None] is [undefined]. *)
Definition dayAbbrOf (weekday : option Z) : option string :=
  match weekday with
  | Some w => option_map fst (find (fun kv => snd kv =? w) dayMap)
  | None => None
  end.

(** [recurringDays.has(dayAbbr)] for a [Set] of strings kept as a list. *)
Definition setHas (x : option string) (s : list string) : bool :=
  match x with
  | Some d => existsb (String.eqb d) s
  | None => false
  end.

(** [recurringDays.add(dayAbbr)] *)
Definition setAdd (d : string) (s : list string) : list string :=
  if existsb (String.eqb d) s then s else s ++ [d].

(** The body of [events.forEach] in [generateNext5FromEvents], on the pair
    [(recurringDays, dayToDeadlineOffset)]. *)
Definition collectDay (acc : list string * JSMap Z) (event : ParsedEvent)
  : list string * JSMap Z :=
  match recurrence event with
  | Some (rrule :: _) =>
      if JS.truthy (Some rrule) then
        match JS.matchTagRun "BYDAY=" (Ascii.eqb ";") None rrule with
        | Some dayAbbr =>
            let deadlineOffset :=
              match deadlineOffset event with
              | Some n => n
              | None => 2
              end in
            (setAdd dayAbbr (fst acc), mapSet dayAbbr deadlineOffset (snd acc))
        | None => acc
        end
      else acc
  | _ => acc
  end.

(** The variables the [while] loop updates. *)
Record LoopState : Type := {
  currentDate : DateTime;
  count : Z;
  dates : list Occ.t
}.

Section Projector.

Variable L : Luxon.
Variable now : Z.

(** [getTimezoneAbbreviation(timezone, date)] for [date = dt.toJSDate()] *)
Definition getTimezoneAbbreviation (timezone : string) (dt : DateTime)
  : option string :=
  option_map (offsetNameShort L timezone) (valueOf dt).

(** One iteration of [while (count < 5)]. *)
Definition loopBody (timezone : string) (recurringDays : list string)
  (dayToDeadlineOffset : JSMap Z) (nowTz : DateTime) (st : LoopState)
  : LoopState :=
  let weekday := weekday L (currentDate st) in
  let dayAbbr := dayAbbrOf weekday in
  let next := plusDays L 1 (currentDate st) in
  if setHas dayAbbr recurringDays then
    let runDate := setHMSm L 12 0 0 0 (currentDate st) in
    let offsetValue := mapGet (JS.show dayAbbr) dayToDeadlineOffset in
    let deadlineOffset :=
      match offsetValue with Some n => n | None => 2 end in
    let submissionDate := minusDays L deadlineOffset runDate in
    if gtDT submissionDate nowTz then
      {| currentDate := next;
         count := count st + 1;
         dates := dates st ++
                  [{| Occ.runDate := runDate;
                      Occ.submissionDate := submissionDate;
                      Occ.timezone := timezone;
                      Occ.timezoneAbbr :=
                        getTimezoneAbbreviation timezone runDate;
                      Occ.deadlineOffset := deadlineOffset |}] |}
    else {| currentDate := next; count := count st; dates := dates st |}
  else {| currentDate := next; count := count st; dates := dates st |}.

(** [while (count < 5) { ... }] run for at most [fuel] iterations; [None]
    when the condition still holds after them. *)
Fixpoint whileCount (fuel : nat) (timezone : string)
  (recurringDays : list string) (dayToDeadlineOffset : JSMap Z)
  (nowTz : DateTime) (st : LoopState) : option LoopState :=
  if count st <? 5 then
    match fuel with
    | O => None
    | S fuel' =>
        whileCount fuel' timezone recurringDays dayToDeadlineOffset nowTz
          (loopBody timezone recurringDays dayToDeadlineOffset nowTz st)
    end
  else Some st.

(** The state in which [generateNext5FromEvents] enters its loop, with the
    loop's constants: [(timezone, recurringDays, dayToDeadlineOffset, now,
    state)]. Reading [events[0].start] of an empty array raises. *)
Definition loopEntry (events : list ParsedEvent)
  : Completion (string * list string * JSMap Z * DateTime * LoopState) :=
  match events with
  | [] =>
      Throw (TypeError "Cannot read properties of undefined (reading 'start')")
  | first :: _ =>
      let eventStartDate :=
        setZone (timeZone (start first)) (fromISO L (dateTime (start first))) in
      let timezone := timeZone (start first) in
      let collected := fold_left collectDay events ([], []) in
      let nowTz := setZone timezone (nowDT L now) in
      let currentDate :=
        maxDT (startOfDay L nowTz) (startOfDay L eventStartDate) in
      Normal (timezone, fst collected, snd collected, nowTz,
              {| currentDate := currentDate; count := 0; dates := [] |})
  end.

(** [generateNext5FromEvents(events)] with its loop bounded by [fuel]:
    [None] when the loop is still running after [fuel] iterations. *)
Definition generateNext5FromEvents (fuel : nat) (events : list ParsedEvent)
  : option (Completion (list Occ.t)) :=
  match loopEntry events with
  | Throw e => Some (Throw e)
  | Normal (timezone, recurringDays, dayToDeadlineOffset, nowTz, st0) =>
      match whileCount fuel timezone recurringDays dayToDeadlineOffset
              nowTz st0 with
      | Some st => Some (Normal (dates st))
      | None => None
      end
  end.

End Projector.

(** ** Notions used in the statements *)

(** The zone a DateTime is displayed in. *)
Definition zoneOf (dt : DateTime) : option string :=
  match dt with DT _ z => Some z | InvalidDT => None end.

(** The characters of [s] all fail [stop]. *)
Fixpoint noneIs (stop : ascii -> bool) (s : string) : bool :=
  match s with
  | EmptyString => true
  | String c s' => negb (stop c) && noneIs stop s'
  end.

(** The zone [parseIcsDate] hands to [DateTime.fromObject] for a value in
    one of its two literal forms, when the caller passes the zone
    [timezone]: a date-time value ending in "Z" is read in UTC. *)
Definition zoneUsed (value timezone : string) : string :=
  if negb (String.length value =? 8)%nat && JS.endsWith "Z" value
  then "UTC" else timezone.

(** [m'] is [m] followed by new entries whose values all satisfy [P]:
    nothing that was in [m] has been touched. *)
Definition appended (P : ParsedEvent -> Prop)
  (m m' : JSMap ParsedEvent) : Prop :=
  exists added, m' = (m ++ added)%list /\ Forall (fun kv => P (snd kv)) added.

(** A value built by the object literal of [processEvent] from the record
    [e]. *)
Definition builtFrom (e : Raw.Event) (v : ParsedEvent) : Prop :=
  exists src sid tz s en rec r, v = mkParsedEvent e src sid tz s en rec r.

(** The deadline offset a stored event carries, read as the projector
    reads it. *)
Definition offsetOr2 (o : option Z) : Z :=
  match o with Some n => n | None => 2 end.

(** The keys under which [processEvent] looks a record up, for the start
    time it has settled on: one per weekday of the rule that [dayNames]
    knows for a recurring record, [oneTimeKey] otherwise. *)
Definition dedupKeys (L : Luxon) (currentEvent : Raw.Event)
  (rawRrule : option string) (isRecurringEvent : bool)
  (eventStartTime : DateTime) : list string :=
  if isRecurringEvent then
    flat_map
      (fun day =>
         match dayIndexOf day with
         | Some dayIndex =>
             [dayPatternKey (baseUidOf (Raw.uid currentEvent)) dayIndex
                (timeKeyOf L eventStartTime)]
         | None => []
         end)
      (daysInRule L rawRrule eventStartTime)
  else [oneTimeKeyOf (Raw.uid currentEvent) eventStartTime].

(** A DateTime is displayed in [tz] unless it is invalid. *)
Definition inZone (tz : string) (dt : DateTime) : Prop :=
  dt = InvalidDT \/ zoneOf dt = Some tz.

(** Invariant of the projector loop: it keeps the cursor in the zone, and every occurrence it pushes
    is labelled with [tz] and has its run date and deadline displayed in
    the zone of the cursor. *)
Definition zoneInv (tz : string) (st : LoopState) : Prop :=
  inZone tz (currentDate st) /\
  Forall (fun o => Occ.timezone o = tz /\
                   zoneOf (Occ.runDate o) = Some tz /\
                   zoneOf (Occ.submissionDate o) = Some tz) (dates st).

(** The start and end [processEvent] settles on for a record: the parsed
    ones, moved forward when the record is recurring and stale. *)
Definition settledTimes (L : Luxon) (currentEvent : Raw.Event)
  (isRecurringEvent : bool) (today : DateTime)
  : Completion (DateTime * DateTime) :=
  match Raw.startDate currentEvent with
  | None =>
      Throw (TypeError "Cannot read properties of undefined (reading 'hour')")
  | Some startDate0 =>
      adjustToFuture L isRecurringEvent startDate0
        (match Raw.endDate currentEvent with
         | Some e => e
         | None => startDate0
         end)
        (setZone (JS.orElse (Raw.startTimezone currentEvent) defaultZone)
           today)
  end.

(** The dedup keys of a record on the day [today]; none when
    [processEvent] raises. *)
Definition recordKeys (L : Luxon) (currentEvent : Raw.Event)
  (rawRrule : option string) (isRecurringEvent : bool) (today : DateTime)
  : list string :=
  match settledTimes L currentEvent isRecurringEvent today with
  | Normal (eventStartTime, _) =>
      dedupKeys L currentEvent rawRrule isRecurringEvent eventStartTime
  | Throw _ => []
  end.

(** The weekdays among [days] that [dayNames] knows and [seen] does not
    hold, each once, in the order of their first appearance. *)
Fixpoint listedDays (seen : list string) (days : list (option string))
  : list string :=
  match days with
  | [] => []
  | Some d :: rest =>
      match indexOfName dayNames d with
      | Some _ =>
          if existsb (String.eqb d) seen then listedDays seen rest
          else d :: listedDays (d :: seen) rest
      | None => listedDays seen rest
      end
  | None :: rest => listedDays seen rest
  end.

(** The event stored for the weekday [day] of a recurring record: its
    recurrence names that weekday alone. *)
Definition weeklyEvent (currentEvent : Raw.Event)
  (eventSource sessionId eventTimezone : string)
  (eventStartTime eventEndTime : DateTime) (day : string) : ParsedEvent :=
  mkParsedEvent currentEvent eventSource sessionId eventTimezone
    eventStartTime eventEndTime
    (Some ["RRULE:FREQ=WEEKLY;BYDAY=" ++ day]) true.

(** [d] is the first day from [from] on whose weekday is [w]. *)
Definition firstDayFrom (from : Z) (w : option Z) (d : Z) : Prop :=
  from <= d /\ Some (weekdayOfDay d) = w /\
  forall d', from <= d' < d -> Some (weekdayOfDay d') <> w.

(** The projector in the words of the specification. On the calendar day
    [d] of the zone [tz], if the weekday is governed, the candidate runs at
    noon of that day; its deadline is the run timestamp minus the offset of
    the weekday in days, 2 when none was recorded; the candidate is accepted
    only if the deadline is strictly after [now]. *)
Definition specCandidate (L : Luxon) (now : Z) (tz : string)
  (recurringDays : list string) (dayToDeadlineOffset : JSMap Z) (d : Z)
  : option Occ.t :=
  match dayAbbrOf (Some (weekdayOfDay d)) with
  | Some abbr =>
      if existsb (String.eqb abbr) recurringDays then
        let offset := offsetOr2 (mapGet abbr dayToDeadlineOffset) in
        let run := ofLocal L (d * msPerDay + 12 * msPerHour) tz in
        let deadline := ofLocal L (d * msPerDay + 12 * msPerHour
                                   - offset * msPerDay) tz in
        if gtDT deadline (DT now tz) then
          Some {| Occ.runDate := run;
                  Occ.submissionDate := deadline;
                  Occ.timezone := tz;
                  Occ.timezoneAbbr := getTimezoneAbbreviation L tz run;
                  Occ.deadlineOffset := offset |}
        else None
      else None
  | None => None
  end.

Definition toList {A : Type} (o : option A) : list A :=
  match o with Some a => [a] | None => [] end.

(** The accepted candidates of the [n] days from [d] on, in order: a
    rejected day is passed over and the walk goes on. *)
Fixpoint specWalk (L : Luxon) (now : Z) (tz : string)
  (recurringDays : list string) (dayToDeadlineOffset : JSMap Z)
  (d : Z) (n : nat) : list Occ.t :=
  match n with
  | O => []
  | S n' =>
      (toList (specCandidate L now tz recurringDays dayToDeadlineOffset d)
       ++ specWalk L now tz recurringDays dayToDeadlineOffset (d + 1) n')%list
  end.

(** [n] iterations of the loop body, whatever [count] is. *)
Fixpoint iterBody (L : Luxon) (timezone : string)
  (recurringDays : list string) (dayToDeadlineOffset : JSMap Z)
  (nowTz : DateTime) (n : nat) (st : LoopState) : LoopState :=
  match n with
  | O => st
  | S n' =>
      iterBody L timezone recurringDays dayToDeadlineOffset nowTz n'
        (loopBody L timezone recurringDays dayToDeadlineOffset nowTz st)
  end.

(** The loop state whose cursor is the start of day [d] in [tz]. *)
Definition atDay (L : Luxon) (tz : string) (d : Z) (c : Z)
  (ds : list Occ.t) : LoopState :=
  {| currentDate := ofLocal L (d * msPerDay) tz; count := c; dates := ds |}.

(** The day on which [generateNext5FromEvents] starts its walk: today or
    the day of the first event's start, whichever is later, both read in the
    first event's zone. *)
Definition startDay (L : Luxon) (now : Z) (first : ParsedEvent)
  : option Z :=
  match dateTime (start first) with
  | Some ts =>
      Some (Z.max (localMillis L now (timeZone (start first)) / msPerDay)
                  (localMillis L ts (timeZone (start first)) / msPerDay))
  | None => None
  end.

(** A zone table for the concrete evaluations: New York at its standard
    offset, Paris at its own, every other name at UTC. *)
Definition sampleLuxon : Luxon :=
  {| offsetOf := fun z =>
       if String.eqb z "America/New_York" then -300
       else if String.eqb z "Europe/Paris" then 60 else 0;
     offsetNameShort := fun z _ =>
       if String.eqb z "America/New_York" then "EST"
       else if String.eqb z "Europe/Paris" then "GMT+1" else "UTC";
     fromISOText := fun _ => InvalidDT;
     systemZone := "UTC" |}.

(** 2025-01-13 (a Monday) at 10:00 UTC. *)
Definition sampleNow : Z := 1736762400000.

(** A stored weekly event for the weekday [day], starting at the instant
    [ts] and displayed in [zone], as [processEvent] builds it for a record
    with UID [pub--1] and no other property. *)
Definition sampleWeekly (day : string) (ts : Z) (zone : string)
  : ParsedEvent :=
  mkParsedEvent
    (Raw.setUid "pub--1" (Raw.setStart (DT ts zone) zone Raw.empty))
    "" "session" zone (DT ts zone) (DT ts zone)
    (Some ["RRULE:FREQ=WEEKLY;BYDAY=" ++ day]) true.

(** A raw record with UID [pub--1] that starts on Monday 2025-01-06 at
    10:00 UTC and lasts an hour, and the start of Monday 2025-01-13 in
    UTC. *)
Definition sampleRecord : Raw.Event :=
  Raw.setUid "pub--1"
    (Raw.setEnd (DT 1736161200000 "UTC") "UTC"
       (Raw.setStart (DT 1736157600000 "UTC") "UTC" Raw.empty)).

Definition sampleToday : DateTime := DT 1736726400000 "UTC".

(** Calendar text from its lines. *)
Definition text (lines : list string) : string := JS.join newline lines.

(** A weekly block for Monday, Wednesday and Friday at noon New York
    time, first held on Monday 2025-01-06, with the given summary and
    extra lines. *)
Definition weeklyBlock (summary : string) (extra : list string)
  : list string :=
  (["BEGIN:VEVENT"; "UID:pub--1";
    "DTSTART;TZID=America/New_York:20250106T120000";
    "DTEND;TZID=America/New_York:20250106T130000";
    "RRULE:FREQ=WEEKLY;BYDAY=MO,WE,FR"; ("SUMMARY:" ++ summary)%string]
   ++ extra ++ ["END:VEVENT"])%list.

(** A stored one-time event. *)
Definition sampleOneTime (ts : Z) (zone : string) : ParsedEvent :=
  mkParsedEvent
    (Raw.setUid "pub--2" (Raw.setStart (DT ts zone) zone Raw.empty))
    "" "session" zone (DT ts zone) (DT ts zone) None false.

(** ** The route: selecting a publication and showing its dates *)

(** [c] is matched by [/[a-zA-Z0-9]/]. *)
Definition isAlphaNum (c : ascii) : bool :=
  let n := nat_of_ascii c in
  (((48 <=? n) && (n <=? 57)) || ((65 <=? n) && (n <=? 90))
   || ((97 <=? n) && (n <=? 122)))%nat.

(** [c.toLowerCase()] on one ASCII character. *)
Definition lowerAscii (c : ascii) : ascii :=
  let n := nat_of_ascii c in
  if ((65 <=? n) && (n <=? 90))%nat then ascii_of_nat (n + 32) else c.

(** [name.replace(/[^a-zA-Z0-9]/g, '-').toLowerCase()]: after the
    replacement only ASCII letters, digits and dashes are left, so the
    lower-casing concerns ASCII letters alone. *)
Fixpoint slug (name : string) : string :=
  match name with
  | EmptyString => EmptyString
  | String c rest =>
      String (lowerAscii (if isAlphaNum c then c else "-"%char)) (slug rest)
  end.

(** The [id] of a list item:
    [`uuid__${pub.uuid}|${pub.publisher_name.replace(...).toLowerCase()}`] *)
Definition listItemId (uuid publisher_name : string) : string :=
  "uuid__" ++ uuid ++ "|" ++ slug publisher_name.

(** What the route reads back from the [component_id] of a submitted item:
    [id = component_id.split('__')[1]], then
    [(id.split('|')[0], id.split('|')[1])]. Without a double underscore [id]
    is [undefined] and [id.split] raises. *)
Definition selectionOf (component_id : string)
  : Completion (string * option string) :=
  match nth_error (JS.split "__" component_id) 1 with
  | Some id =>
      let selectedUuid := hd "" (JS.split "|" id) in
      let publisherName := nth_error (JS.split "|" id) 1 in
      Normal (selectedUuid, publisherName)
  | None =>
      Throw (TypeError "Cannot read properties of undefined (reading 'split')")
  end.

(** [icsUrl] of the route *)
Definition icsUrlOf (publisherName : option string) : string :=
  "https://s3.amazonaws.com/obituary.datastore/prod/static/calendar/"
  ++ JS.show publisherName ++ ".ics".

(** The callback of [calendarEvents.filter]: the part of the UID before
    its first "--" contains [selectedUuid]. *)
Definition matchesPublication (selectedUuid : string) (event : ParsedEvent)
  : bool :=
  match originalUid event with
  | Some u =>
      if JS.truthy (originalUid event)
      then JS.includes selectedUuid (hd "" (JS.split "--" u))
      else false
  | None => false
  end.

Definition filteredEvents (selectedUuid : string)
  (calendarEvents : list ParsedEvent) : list ParsedEvent :=
  filter (matchesPublication selectedUuid) calendarEvents.

(** [filteredEvents.slice(0, 50)] *)
Definition limitedEvents (selectedUuid : string)
  (calendarEvents : list ParsedEvent) : list ParsedEvent :=
  firstn 50 (filteredEvents selectedUuid calendarEvents).

(** The components of a canvas. *)
Module Canvas.

Inductive Component : Type :=
| Text (text style : string) (bottom_margin : option string)
| Spacer (size : string)
| Button (id label style : string).

End Canvas.

Section Display.

Variable L : Luxon.
Variable now : Z.

(** [dt.toFormat(fmt)] *)
Variable toFormat : DateTime -> string -> string.

Definition formatDate (luxonDate : DateTime) : string :=
  toFormat luxonDate "ccc M/d/yy".

Definition formatTime (luxonDate : DateTime) : string :=
  toFormat luxonDate "h:mm a".

(** The text [toISO] writes is the wall-clock time followed by the offset
    of the zone: two DateTimes give the same text exactly when they agree on
    the instant and on the offset. [None] is [null]. *)
Definition isoText (dt : DateTime) : option (Z * Z) :=
  match dt with
  | DT ts z => Some (ts, offsetOf L z)
  | InvalidDT => None
  end.

Definition sameText (a b : option (Z * Z)) : bool :=
  match a, b with
  | Some (t1, o1), Some (t2, o2) => (t1 =? t2) && (o1 =? o2)
  | None, None => true
  | _, _ => false
  end.

(** The two components pushed for one occurrence. *)
Definition dateComponents (dateInfo : Occ.t) : list Canvas.Component :=
  [Canvas.Text ("*" ++ formatDate (Occ.runDate dateInfo) ++ "*") "muted"
     (Some "none");
   Canvas.Text
     ("Submit by " ++ formatTime (Occ.submissionDate dateInfo) ++ " "
      ++ JS.show (Occ.timezoneAbbr dateInfo) ++ " on "
      ++ formatDate (Occ.submissionDate dateInfo))
     "paragraph" None].

(** The callback of [nextDates.forEach], on the pair
    [(processedDates, components)]. *)
Definition pushDate (acc : list (option (Z * Z)) * list Canvas.Component)
  (dateInfo : Occ.t) : list (option (Z * Z)) * list Canvas.Component :=
  let dateKey := isoText (Occ.runDate dateInfo) in
  if negb (existsb (sameText dateKey) (fst acc)) then
    ((fst acc ++ [dateKey])%list, (snd acc ++ dateComponents dateInfo)%list)
  else acc.

Definition paperDetails (publicationName : string)
  : list Canvas.Component :=
  [Canvas.Text "*Paper Details:*" "header" (Some "none");
   Canvas.Text publicationName "paragraph" (Some "none");
   Canvas.Spacer "s";
   Canvas.Text "*Next Available Run Dates:*" "header" (Some "none")].

Definition backButton : list Canvas.Component :=
  [Canvas.Spacer "s"; Canvas.Button "back-to-home" "Back to Home" "primary"].

(** The [components] of the success canvas, for the events selected; the
    loop of [generateNext5FromEvents] is bounded by [fuel]. *)
Definition detailComponents (fuel : nat) (publicationName : string)
  (limitedEvents : list ParsedEvent)
  : option (Completion (list Canvas.Component)) :=
  let components := paperDetails publicationName in
  match limitedEvents with
  | _ :: _ =>
      match generateNext5FromEvents L now fuel limitedEvents with
      | Some (Normal nextDates) =>
          Some (Normal
                  (snd (fold_left pushDate nextDates ([], components))
                   ++ backButton)%list)
      | Some (Throw e) => Some (Throw e)
      | None => None
      end
  | [] =>
      Some (Normal
              (components
               ++ [Canvas.Text
                     "No upcoming run dates found for this publication."
                     "muted" None]
               ++ backButton)%list)
  end.

End Display.

(** ** apiService.js *)

(** [formatDateForApi(inputDate)]; a part the destructuring does not find
    is [undefined]. With a "/" in the input there are at least two parts. *)
Definition formatDateForApi (inputDate : string) : string :=
  if JS.includes "/" inputDate then
    let parts := JS.split "/" inputDate in
    let month := hd "" parts in
    let day := nth 1 parts "" in
    let year := nth_error parts 2 in
    JS.show year ++ "-" ++ JS.padStart2 month ++ "-" ++ JS.padStart2 day
  else inputDate.

(** ** Further notions used in the statements *)

(** What the resolver stores is a weekly event on a single weekday that
    [dayNames] knows, or a one-time event without a recurrence. *)
Definition resolverShaped (v : ParsedEvent) : Prop :=
  (isRecurring v = true /\
   exists d, In d dayNames /\
             recurrence v = Some ["RRULE:FREQ=WEEKLY;BYDAY=" ++ d])
  \/ (isRecurring v = false /\ recurrence v = None).

(** The weekday an event governs in the projector, if any. *)
Definition governedDay (event : ParsedEvent) : option string :=
  match recurrence event with
  | Some (rrule :: _) =>
      if JS.truthy (Some rrule)
      then JS.matchTagRun "BYDAY=" (Ascii.eqb ";") None rrule
      else None
  | _ => None
  end.

(** The run dates fall on later and later calendar days. *)
Definition laterDay (L : Luxon) (a b : Occ.t) : Prop :=
  match dayNumber L (Occ.runDate a), dayNumber L (Occ.runDate b) with
  | Some x, Some y => x < y
  | _, _ => False
  end.

(** A lower-case ASCII letter, a digit or a dash. *)
Definition isSlugChar (c : ascii) : bool :=
  let n := nat_of_ascii c in
  (((48 <=? n) && (n <=? 57)) || ((97 <=? n) && (n <=? 122))
   || (n =? 45))%nat.

(** ** node-cache *)

(** The cache object of the [node-cache] package as the services use it:
    string keys, the default options apart from [stdTTL]. [data] maps a key
    to its value and the instant [t] at which it expires, 0 for never. The
    statistics the package keeps are left out. *)
Module NodeCache.

Section Cache.

Variable V : Type.

Record Entry : Type := { v : V; t : Z }.

Definition Data : Type := JSMap Entry.

(** [delete this.data[key]] *)
Definition remove (key : string) (data : Data) : Data :=
  filter (fun kv => negb (String.eqb key (fst kv))) data.

(** The expiry [_wrap] gives a value stored at [now] without a [ttl]
    argument. *)
Definition livetime (stdTTL now : Z) : Z :=
  if stdTTL =? 0 then 0 else now + stdTTL * 1000.

(** The test of [_check]: [data.t !== 0 && data.t < Date.now()]. *)
Definition expired (now : Z) (e : Entry) : bool :=
  negb (t e =? 0) && (t e <? now).

(** [cache.get(key)] at the instant [now]: an expired entry is deleted and
    [undefined] returned. *)
Definition get (now : Z) (key : string) (data : Data) : option V * Data :=
  match mapGet key data with
  | Some e =>
      if expired now e then (None, remove key data) else (Some (v e), data)
  | None => (None, data)
  end.

(** [cache.set(key, value)] at the instant [now] *)
Definition set (stdTTL now : Z) (key : string) (value : V) (data : Data)
  : Data :=
  mapSet key {| v := value; t := livetime stdTTL now |} data.

(** [cache.del(keys)]: the number of entries deleted, expired ones
    included. *)
Fixpoint del (keys : list string) (data : Data) : Z * Data :=
  match keys with
  | [] => (0, data)
  | key :: rest =>
      if mapHas key data then
        let (delCount, data') := del rest (remove key data) in
        (delCount + 1, data')
      else del rest data
  end.

(** [cache.keys()] *)
Definition keys (data : Data) : list string := map fst data.

End Cache.

Arguments v {V} e.
Arguments t {V} e.
Arguments remove {V} key data.
Arguments expired {V} now e.
Arguments get {V} now key data.
Arguments set {V} stdTTL now key value data.
Arguments del {V} keys data.
Arguments keys {V} data.

End NodeCache.

(** ** calendarService.js: downloads and the cache *)

(** What a promise of the service is rejected with: an exception of the
    synchronous code, or an [Error] with its message. *)
Inductive Failure : Type :=
| Thrown (e : JSError)
| Error (message : string).

(** A settled promise. *)
Inductive Outcome (A : Type) : Type :=
| Fulfilled (a : A)
| Rejected (e : Failure).

Arguments Fulfilled {A} a.
Arguments Rejected {A} e.

(** [calendarData] *)
Module Calendar.

Record Data : Type := {
  name : string;
  url : string;
  events : list ParsedEvent;
  eventCount : Z;
  fetchedAt : ISO;
  rawContent : string;
  recurringEvents : Z;
  oneTimeEvents : Z;
  sessionId : option string
}.

End Calendar.

(** The loop of [path.basename] skips the slashes at the end. *)
Fixpoint dropSlashes (s : string) : string :=
  match s with
  | String c s' => if Ascii.eqb c "/" then dropSlashes s' else s
  | EmptyString => EmptyString
  end.

(** [path.basename(p)] of the POSIX flavour: scanning from the end, the
    characters between the trailing slashes and the slash before them. *)
Definition basename (p : string) : string :=
  JS.rev (fst (JS.span (Ascii.eqb "/") (dropSlashes (JS.rev p)))).

(** [filename.replace(/\.ics$/i, '')] *)
Definition stripIcs (filename : string) : string :=
  match JS.rev filename with
  | String s (String c (String i (String dot rest))) =>
      if Ascii.eqb (lowerAscii s) "s" && Ascii.eqb (lowerAscii c) "c"
         && Ascii.eqb (lowerAscii i) "i" && Ascii.eqb dot "."
      then JS.rev rest
      else filename
  | _ => filename
  end.

(** The TTL of the calendar cache, in seconds. *)
Definition calendarTTL : Z := 86400.

Section CalendarCache.

Variable L : Luxon.

(** [new URL(url).pathname]; [None] when the constructor throws. *)
Variable urlPathname : string -> option string.

(** [axios.get(icsUrl, ...)]: the body of the response, or the error the
    request is rejected with. *)
Variable axiosGet : string -> Outcome string.

(** The session label [parseIcsContent] builds from the clock. *)
Variable sessionLabel : string.

(** [extractIcsName(url)] *)
Definition extractIcsName (url : string) : string :=
  match urlPathname url with
  | Some urlPath => stripIcs (basename urlPath)
  | None => "unknown"
  end.

(** [fetchAndParseIcs(icsUrl)], the response arriving at the instant
    [now]. *)
Definition fetchAndParseIcs (now : Z) (icsUrl : string)
  : Outcome Calendar.Data :=
  match axiosGet icsUrl with
  | Fulfilled data =>
      match parseIcsContent L now sessionLabel data icsUrl with
      | Normal events =>
          Fulfilled
            {| Calendar.name := extractIcsName icsUrl;
               Calendar.url := icsUrl;
               Calendar.events := events;
               Calendar.eventCount := Z.of_nat (List.length events);
               Calendar.fetchedAt := toISO (nowDT L now);
               Calendar.rawContent := data;
               Calendar.recurringEvents :=
                 Z.of_nat (List.length (filter isRecurring events));
               Calendar.oneTimeEvents :=
                 Z.of_nat
                   (List.length
                      (filter (fun e => negb (isRecurring e)) events));
               Calendar.sessionId :=
                 match events with
                 | first :: _ => Some (sessionId first)
                 | [] => None
                 end |}
      | Throw e => Rejected (Thrown e)
      end
  | Rejected error => Rejected error
  end.

(** [`calendar_${icsName}`] *)
Definition cacheKeyOf (icsUrl : string) : string :=
  "calendar_" ++ extractIcsName icsUrl.

(** [getCalendar(icsUrl)] on the cache [cache]: the outcome and the cache
    after the call. The cache is looked up at [now]; on a miss the response
    arrives at [fetched], and no other request touches the cache in
    between. *)
Definition getCalendar (now fetched : Z) (icsUrl : string)
  (cache : NodeCache.Data Calendar.Data)
  : Outcome Calendar.Data * NodeCache.Data Calendar.Data :=
  let cacheKey := cacheKeyOf icsUrl in
  let (cachedData, cache1) := NodeCache.get now cacheKey cache in
  match cachedData with
  | Some data => (Fulfilled data, cache1)
  | None =>
      match fetchAndParseIcs fetched icsUrl with
      | Fulfilled calendarData =>
          (Fulfilled calendarData,
           NodeCache.set calendarTTL fetched cacheKey calendarData cache1)
      | Rejected error => (Rejected error, cache1)
      end
  end.

(** [getCachedCalendar(icsUrl)]; [None] is [null]. *)
Definition getCachedCalendar (now : Z) (icsUrl : string)
  (cache : NodeCache.Data Calendar.Data)
  : option Calendar.Data * NodeCache.Data Calendar.Data :=
  NodeCache.get now (cacheKeyOf icsUrl) cache.

(** [clearCalendarCache(icsUrl)] *)
Definition clearCalendarCache (icsUrl : string)
  (cache : NodeCache.Data Calendar.Data)
  : bool * NodeCache.Data Calendar.Data :=
  let (delCount, cache1) := NodeCache.del [cacheKeyOf icsUrl] cache in
  (0 <? delCount, cache1).

(** [clearAllCalendars()] *)
Definition clearAllCalendars (cache : NodeCache.Data Calendar.Data)
  : list string * NodeCache.Data Calendar.Data :=
  let keys := NodeCache.keys cache in
  let calendarKeys := filter (JS.startsWith "calendar_") keys in
  (calendarKeys, snd (NodeCache.del calendarKeys cache)).

(** [retrieveAndParseIcs(icsUrl)] *)
Definition retrieveAndParseIcs (now fetched : Z) (icsUrl : option string)
  (cache : NodeCache.Data Calendar.Data)
  : Outcome (list ParsedEvent) * NodeCache.Data Calendar.Data :=
  if negb (JS.truthy icsUrl) then (Rejected (Error "ICS URL is required"), cache)
  else
    match getCalendar now fetched (JS.show icsUrl) cache with
    | (Fulfilled calendarData, cache1) =>
        (Fulfilled (Calendar.events calendarData), cache1)
    | (Rejected error, cache1) => (Rejected error, cache1)
    end.

End CalendarCache.

(** An extension [/\.ics$/i] matches. *)
Definition isIcsExt (ext : string) : bool :=
  match ext with
  | String dot (String i (String c (String s EmptyString))) =>
      Ascii.eqb dot "." && Ascii.eqb (lowerAscii i) "i"
      && Ascii.eqb (lowerAscii c) "c" && Ascii.eqb (lowerAscii s) "s"
  | _ => false
  end.

(** Two records agree on everything the end of a block reads: the start
    and end with their zones, the summary, the description, the UID, the
    categories, the deadline offset, and whether there is a rule. *)
Definition readAlike (e e' : Raw.Event) : Prop :=
  Raw.startDate e = Raw.startDate e' /\
  Raw.startTimezone e = Raw.startTimezone e' /\
  Raw.endDate e = Raw.endDate e' /\
  Raw.endTimezone e = Raw.endTimezone e' /\
  Raw.summary e = Raw.summary e' /\
  Raw.description e = Raw.description e' /\
  Raw.uid e = Raw.uid e' /\
  Raw.categories e = Raw.categories e' /\
  Raw.deadlineOffset e = Raw.deadlineOffset e' /\
  JS.truthy (Raw.rrule e) = JS.truthy (Raw.rrule e').

(** ** apiService.js and publicationsService.js *)

(** A publication as the services and the routes read it. *)
Module Publication.

Record t : Type := {
  uuid : string;
  name : string;
  description : string;
  type : string;
  affiliate_uid : string;
  image_uri : string;
  city_name : string;
  region_code : string;
  country_code : string;
  publisher_name : string;
  publication_link : string
}.

End Publication.

(** A package of a publication; the service reads its [type]. *)
Module Package.

Record t : Type := {
  uuid : string;
  type : string
}.

End Package.

Section Api.

(** [process.env.DOMAIN] and [process.env.API_KEY] *)
Variables (domain apiKey : option string).

(** [axios.get(url, ...)]: [response.data], or the error of the request. *)
Variable axiosPublications : string -> Outcome (list Publication.t).
Variable axiosPackages : string -> Outcome (list Package.t).

Definition configMissing : bool :=
  negb (JS.truthy domain) || negb (JS.truthy apiKey).

(** [apiService.fetchPublications()] *)
Definition apiFetchPublications : Outcome (list Publication.t) :=
  if configMissing then
    Rejected
      (Error "DOMAIN and API_KEY must be set in environment variables")
  else axiosPublications (JS.show domain ++ "/api/publications/by-region").

(** [apiService.fetchPackagesByPublication(publicationUuid)] *)
Definition fetchPackagesByPublication (publicationUuid : string)
  : Outcome Package.t :=
  if configMissing then
    Rejected
      (Error "DOMAIN and API_KEY must be set in environment variables")
  else
    match axiosPackages (JS.show domain ++ "/api/packages/by-publication/"
                         ++ publicationUuid) with
    | Fulfilled data =>
        let obituaryPackage :=
          match find (fun pkg => String.eqb (Package.type pkg) "OBITUARY")
                  data with
          | Some pkg => Some pkg
          | None => nth_error data 0
          end in
        match obituaryPackage with
        | Some pkg => Fulfilled pkg
        | None => Rejected (Error "No packages found for publication")
        end
    | Rejected error => Rejected error
    end.

End Api.

(** [static_one] of [fetchPublications] *)
Definition static_one : Publication.t :=
  {| Publication.uuid := "BRD-Bradenton Herald";
     Publication.name := "BRD-Bradenton Herald";
     Publication.description :=
       "Publishes daily (Saturday is an e-edition only)";
     Publication.type := "PRINT";
     Publication.affiliate_uid := "9999";
     Publication.image_uri := "";
     Publication.city_name := "";
     Publication.region_code := "";
     Publication.country_code := "US";
     Publication.publisher_name := "Spokesman-Review";
     Publication.publication_link := "BRD-Bradenton Herald" |}.

(** The TTL of the publications cache, in seconds, and its only key. *)
Definition publicationsTTL : Z := 8 * 60 * 60.
Definition publicationsKey : string := "publications_data".

Section Publications.

(** The outcome of [apiService.fetchPublications()] at the time of the
    call. *)
Variable apiPublications : Outcome (list Publication.t).

(** [publicationsService.fetchPublications()], the answer of the API
    arriving at [now]. *)
Definition fetchPublications (now : Z)
  (cache : NodeCache.Data (list Publication.t))
  : Outcome (list Publication.t) * NodeCache.Data (list Publication.t) :=
  match apiPublications with
  | Fulfilled listed =>
      let publications := (listed ++ [static_one])%list in
      (Fulfilled publications,
       NodeCache.set publicationsTTL now publicationsKey publications cache)
  | Rejected error => (Rejected error, cache)
  end.

(** [publicationsService.getPublications()]; an array is truthy, also
    when empty. [None] is [null]. *)
Definition getPublications (now : Z)
  (cache : NodeCache.Data (list Publication.t))
  : option (list Publication.t) * NodeCache.Data (list Publication.t) :=
  NodeCache.get now publicationsKey cache.

(** [getPublicationsWithFallback()]: the cache is read at [now], the
    answer of the API arrives at [fetched]. *)
Definition getPublicationsWithFallback (now fetched : Z)
  (cache : NodeCache.Data (list Publication.t))
  : Outcome (list Publication.t) * NodeCache.Data (list Publication.t) :=
  let (publications, cache1) := getPublications now cache in
  match publications with
  | Some cachedData => (Fulfilled cachedData, cache1)
  | None => fetchPublications fetched cache1
  end.

(** [clearCache()] *)
Definition clearCache (cache : NodeCache.Data (list Publication.t))
  : NodeCache.Data (list Publication.t) :=
  snd (NodeCache.del [publicationsKey] cache).

End Publications.

(** ** The pricing route *)

(** The [id] of a list item of the pricing route: [`uuid_${pub.uuid}`] *)
Definition pricingItemId (uuid : string) : string := "uuid_" ++ uuid.

(** [body.component_id.replace('uuid_', '')] *)
Definition pricingSelection (component_id : string) : string :=
  JS.replace "uuid_" "" component_id.

(** ** The search by date range *)

(** A JavaScript [Date] is modelled by its time value, [None] being an
    invalid date. *)
Definition JSDate : Type := option Z.

Section DateRange.

Variable L : Luxon.
Variable urlPathname : string -> option string.
Variable axiosGet : string -> Outcome string.
Variable sessionLabel : string.

(** [DateTime.fromJSDate(date)]: an invalid date gives an invalid
    [DateTime]. *)
Definition fromJSDate (date : JSDate) : DateTime :=
  match date with
  | Some ts => DT ts (systemZone L)
  | None => InvalidDT
  end.

(** [a >= b] and [a <= b] on [DateTime]s compare the results of [valueOf];
    a comparison with [NaN] is false. *)
Definition geDT (a b : DateTime) : bool :=
  match valueOf a, valueOf b with
  | Some x, Some y => y <=? x
  | _, _ => false
  end.
Definition leDT (a b : DateTime) : bool := geDT b a.

(** The callback of the filter of [findEventsByDateRange]; the bounds
    [startDate] and [endDate] of the range are written [rangeStartDate] and
    [rangeEndDate], apart from the fields of the event. *)
Definition inDateRange (rangeStartDate rangeEndDate : JSDate)
  (event : ParsedEvent) : bool :=
  match startDate event with
  | None => false
  | Some _ =>
      let eventStart := fromISO L (startDate event) in
      let rangeStart := fromJSDate rangeStartDate in
      let rangeEnd := fromJSDate rangeEndDate in
      geDT eventStart rangeStart && leDT eventStart rangeEnd
  end.

(** [findEventsByDateRange(icsUrl, startDate, endDate)] *)
Definition findEventsByDateRange (now fetched : Z) (icsUrl : string)
  (rangeStartDate rangeEndDate : JSDate)
  (cache : NodeCache.Data Calendar.Data)
  : Outcome (list ParsedEvent) * NodeCache.Data Calendar.Data :=
  match getCalendar L urlPathname axiosGet sessionLabel now fetched icsUrl
          cache with
  | (Fulfilled calendarData, cache1) =>
      (Fulfilled
         (filter (inDateRange rangeStartDate rangeEndDate)
            (Calendar.events calendarData)),
       cache1)
  | (Rejected error, cache1) => (Rejected error, cache1)
  end.

End DateRange.

(** ** Further values for the concrete evaluations *)

(** A stored weekly event as [sampleWeekly], of a record that carries the
    deadline offset [n]. *)
Definition sampleWeeklyOffset (day : string) (ts : Z) (zone : string) (n : Z)
  : ParsedEvent :=
  mkParsedEvent
    (Raw.setDeadlineOffset n
       (Raw.setUid "pub--1" (Raw.setStart (DT ts zone) zone Raw.empty)))
    "" "session" zone (DT ts zone) (DT ts zone)
    (Some ["RRULE:FREQ=WEEKLY;BYDAY=" ++ day]) true.

(** A one-time record on 2030-01-06 at noon UTC. *)
Definition sampleOneTimeRecord : Raw.Event :=
  Raw.setUid "pub--2"
    (Raw.setStart (DT 1893931200000 "UTC") "UTC" Raw.empty).

(** The paths of two URLs that end in the same file name, the extension
    written in two ways. *)
Definition samplePathname (url : string) : option string :=
  if String.eqb url "https://a.example/x/paper.ics" then Some "/x/paper.ics"
  else if String.eqb url "https://b.example/y/paper.ICS"
       then Some "/y/paper.ICS"
       else None.

(** A network that answers every request with a calendar of one weekly
    block, and one that is down. *)
Definition sampleAxios (url : string) : Outcome string :=
  Fulfilled (text (weeklyBlock "Run" [])).

Definition sampleAxiosDown (url : string) : Outcome string :=
  Rejected (Error "Network Error").

(** A formatter that writes the pattern itself. *)
Definition sampleFormat (dt : DateTime) (fmt : string) : string := fmt.

(** A calendar of one weekly block for Monday, Wednesday and Friday, and
    the events [parseIcsContent] returns for it on 2025-01-13. *)
Definition sampleCalendar : string := text (weeklyBlock "Run" []).

Definition sampleCalendarEvents : list ParsedEvent :=
  Eval vm_compute in
    match parseIcsContent sampleLuxon sampleNow "session" sampleCalendar "" with
    | Normal events => events
    | Throw _ => []
    end.

(** A weekly block whose DTSTART names the month 13, and the events
    [parseIcsContent] returns for it. *)
Definition sampleBrokenCalendar : string :=
  text ["BEGIN:VEVENT"; "UID:pub--1"; "DTSTART:20251301T120000Z";
        "RRULE:FREQ=WEEKLY;BYDAY=MO"; "END:VEVENT"].

Definition sampleBrokenEvents : list ParsedEvent :=
  Eval vm_compute in
    match parseIcsContent sampleLuxon sampleNow "session"
            sampleBrokenCalendar "" with
    | Normal events => events
    | Throw _ => []
    end.

(** * Properties *)

(** ** Maps *)

Lemma mapGet_app_l {V : Type} (k : string) (v : V) (m m2 : JSMap V) :
  mapGet k m = Some v -> mapGet k (m ++ m2)%list = Some v.
Proof.
  induction m as [|[k' v'] m IH]; simpl; [discriminate|].
  destruct (String.eqb k k'); auto.
Qed.

Lemma mapGet_app_r {V : Type} (k : string) (m m2 : JSMap V) :
  mapGet k m = None -> mapGet k (m ++ m2)%list = mapGet k m2.
Proof.
  induction m as [|[k' v'] m IH]; simpl; [reflexivity|].
  destruct (String.eqb k k'); [discriminate|auto].
Qed.

Lemma mapHas_false_get {V : Type} (k : string) (m : JSMap V) :
  mapHas k m = false -> mapGet k m = None.
Proof. unfold mapHas. destruct (mapGet k m); [discriminate|reflexivity]. Qed.

Lemma mapHas_true_get {V : Type} (k : string) (m : JSMap V) :
  mapHas k m = true -> exists v, mapGet k m = Some v.
Proof. unfold mapHas. destruct (mapGet k m) as [v|]; [eauto|discriminate]. Qed.

(** Setting a key the map does not hold appends the entry. *)
Lemma mapSet_absent {V : Type} (k : string) (v : V) (m : JSMap V) :
  mapHas k m = false -> mapSet k v m = (m ++ [(k, v)])%list.
Proof.
  intros H. apply mapHas_false_get in H.
  induction m as [|[k' v'] m IH]; simpl in *; [reflexivity|].
  destruct (String.eqb k k'); [discriminate|].
  now rewrite IH.
Qed.

Lemma mapHas_app {V : Type} (k : string) (m m2 : JSMap V) :
  mapHas k (m ++ m2)%list = mapHas k m || mapHas k m2.
Proof.
  unfold mapHas. destruct (mapGet k m) as [v|] eqn:E.
  - now rewrite (mapGet_app_l _ _ _ _ E).
  - now rewrite (mapGet_app_r _ _ _ E).
Qed.

Lemma mapHas_single {V : Type} (k k' : string) (v : V) :
  mapHas k [(k', v)] = String.eqb k k'.
Proof. unfold mapHas. simpl. now destruct (String.eqb k k'). Qed.

Lemma appended_refl (P : ParsedEvent -> Prop) (m : JSMap ParsedEvent) :
  appended P m m.
Proof. exists []. split; [now rewrite app_nil_r|constructor]. Qed.

Lemma appended_trans (P : ParsedEvent -> Prop) (m1 m2 m3 : JSMap ParsedEvent) :
  appended P m1 m2 -> appended P m2 m3 -> appended P m1 m3.
Proof.
  intros (a1 & -> & F1) (a2 & -> & F2). exists (a1 ++ a2)%list. split.
  - now rewrite app_assoc.
  - apply Forall_app; auto.
Qed.

Lemma appended_set (P : ParsedEvent -> Prop) (k : string) (v : ParsedEvent)
  (m : JSMap ParsedEvent) :
  mapHas k m = false -> P v -> appended P m (mapSet k v m).
Proof.
  intros H Hv. exists [(k, v)]. split; [now apply mapSet_absent|].
  constructor; [exact Hv|constructor].
Qed.

Lemma appended_weaken (P Q : ParsedEvent -> Prop) (m m' : JSMap ParsedEvent) :
  (forall v, P v -> Q v) -> appended P m m' -> appended Q m m'.
Proof.
  intros H (a & -> & F). exists a. split; [reflexivity|].
  eapply Forall_impl; [|exact F]. intros kv. apply H.
Qed.

(** ** What [processEvent] adds *)

Section ResolverFacts.

Variable L : Luxon.

Lemma addDayEvents_appended e src sid tz s en baseUid timeKey days m :
  appended (builtFrom e) m
    (addDayEvents e src sid tz s en baseUid timeKey days m).
Proof.
  revert m. induction days as [|day rest IH]; intros m; simpl.
  - apply appended_refl.
  - destruct (dayIndexOf day) as [i|]; [|apply IH].
    destruct (mapHas (dayPatternKey baseUid i timeKey) m) eqn:E; simpl;
      [apply IH|].
    eapply appended_trans; [|apply IH].
    apply appended_set; [exact E|]. unfold builtFrom. eauto 10.
Qed.

(** [processEvent] only appends: every entry already in the map stays as
    it is, and each new value is built from the record. *)
Lemma processEvent_appended e rawRrule isRec today m src sid m' :
  processEvent L e rawRrule isRec today m src sid = Normal m' ->
  appended (builtFrom e) m m'.
Proof.
  unfold processEvent. destruct (Raw.startDate e) as [s0|]; [|discriminate].
  destruct (adjustToFuture L isRec s0 _ _) as [[s en]|]; simpl;
    [|discriminate].
  destruct isRec.
  - intros H. injection H as <-. apply addDayEvents_appended.
  - destruct (mapHas (oneTimeKeyOf (Raw.uid e) s) m) eqn:E; simpl;
      intros H; injection H as <-.
    + apply appended_refl.
    + apply appended_set; [exact E|]. unfold builtFrom. eauto 10.
Qed.

Lemma builtFrom_offset e v :
  builtFrom e v -> deadlineOffset v = Some (offsetOr2 (Raw.deadlineOffset e)).
Proof. intros (src & sid & tz & s & en & rec & r & ->). reflexivity. Qed.

End ResolverFacts.

(** ** The deadline offset (C8, C10) *)

Section DeadlineOffset.

Variable L : Luxon.
Variable now : Z.

Lemma mapGet_mapSet_same {V : Type} (k : string) (v : V) (m : JSMap V) :
  mapGet k (mapSet k v m) = Some v.
Proof.
  induction m as [|[k' v'] m IH]; simpl.
  - now rewrite String.eqb_refl.
  - destruct (String.eqb k k') eqn:E; simpl.
    + now rewrite String.eqb_refl.
    + now rewrite E.
Qed.

(** Only the X-PUB-DEADLINE-OFFSET line writes [deadlineOffset]. *)
Lemma assignProperty_other_offset line property value e :
  property <> "X-PUB-DEADLINE-OFFSET" ->
  Raw.deadlineOffset (assignProperty L now line property value e)
  = Raw.deadlineOffset e.
Proof.
  intros Hp. unfold assignProperty.
  repeat match goal with
         | |- context [if ?b then _ else _] => destruct b eqn:?; try reflexivity
         end.
  exfalso. apply Hp. now apply String.eqb_eq.
Qed.

Lemma assignProperty_offset line value e :
  Raw.deadlineOffset
    (assignProperty L now line "X-PUB-DEADLINE-OFFSET" value e)
  = Some (match JS.parseInt value with Some n => n | None => 0 end).
Proof. reflexivity. Qed.

Lemma processEvent_offset e rawRrule isRec today m src sid m' :
  processEvent L e rawRrule isRec today m src sid = Normal m' ->
  appended
    (fun v => deadlineOffset v = Some (offsetOr2 (Raw.deadlineOffset e)))
    m m'.
Proof.
  intros H. apply processEvent_appended in H.
  eapply appended_weaken; [|exact H]. intros v. apply builtFrom_offset.
Qed.

Lemma plusDays_0 (dt : DateTime) : plusDays L 0 dt = dt.
Proof.
  destruct dt as [ts z|]; [|reflexivity].
  unfold plusDays, ofLocal, localMillis. f_equal. lia.
Qed.

(** What an accepted candidate looks like, for the weekday name [abbr] of
    the current day. *)
Lemma loopBody_pushed tz days offsets nowTz st o :
  dates (loopBody L tz days offsets nowTz st) = (dates st ++ [o])%list ->
  exists abbr,
    dayAbbrOf (weekday L (currentDate st)) = Some abbr /\
    setHas (Some abbr) days = true /\
    Occ.deadlineOffset o = offsetOr2 (mapGet abbr offsets) /\
    Occ.runDate o = setHMSm L 12 0 0 0 (currentDate st) /\
    Occ.submissionDate o = minusDays L (Occ.deadlineOffset o) (Occ.runDate o) /\
    Occ.timezone o = tz /\
    gtDT (Occ.submissionDate o) nowTz = true.
Proof.
  unfold loopBody.
  assert (Hno : dates st <> (dates st ++ [o])%list).
  { intros E. apply (f_equal (@List.length _)) in E.
    rewrite length_app in E. simpl in E. lia. }
  destruct (dayAbbrOf (weekday L (currentDate st))) as [abbr|] eqn:Ea;
    simpl; [|intros E; now elim Hno].
  destruct (existsb (String.eqb abbr) days) eqn:Eh;
    [|intros E; now elim Hno].
  match goal with
  | |- context [gtDT ?s nowTz] => destruct (gtDT s nowTz) eqn:Eg
  end; simpl; [|intros E; now elim Hno].
  intros E. apply app_inv_head in E. injection E as <-. simpl.
  exists abbr. repeat split; auto.
Qed.


(** C10. A value of X-PUB-DEADLINE-OFFSET that [parseInt] cannot read gives
    the record the offset 0, and the events stored for the record carry 0,
    not the default 2 of a record without the property. *)
Theorem deadline_offset_unparsable_is_0 :
  forall e line value rawRrule isRec today m src sid m',
    JS.parseInt value = None ->
    processEvent L
      (assignProperty L now line "X-PUB-DEADLINE-OFFSET" value e)
      rawRrule isRec today m src sid = Normal m' ->
    Raw.deadlineOffset
      (assignProperty L now line "X-PUB-DEADLINE-OFFSET" value e) = Some 0 /\
    appended (fun v => deadlineOffset v = Some 0 /\ deadlineOffset v <> Some 2)
      m m'.
Proof.
  intros e line value rawRrule isRec today m src sid m' Hp H.
  assert (E : Raw.deadlineOffset
                (assignProperty L now line "X-PUB-DEADLINE-OFFSET" value e)
              = Some 0).
  { rewrite assignProperty_offset, Hp. reflexivity. }
  split; [exact E|].
  apply processEvent_offset in H. rewrite E in H.
  eapply appended_weaken; [|exact H]. simpl.
  intros v Hv. split; [exact Hv|]. rewrite Hv. discriminate.
Qed.

End DeadlineOffset.

(** ** The zone of a parsed start or end (C4) *)

Section Timezone.

Variable L : Luxon.
Variable now : Z.

Lemma span_run (stop : ascii -> bool) (run : string) (c : ascii)
  (rest : string) :
  noneIs stop run = true -> stop c = true ->
  JS.span stop (run ++ String c rest) = (run, String c rest).
Proof.
  intros Hrun Hc. induction run as [|a run IH]; simpl in *.
  - now rewrite Hc.
  - apply andb_true_iff in Hrun as [Ha Hrun].
    apply negb_true_iff in Ha. rewrite Ha, (IH Hrun). reflexivity.
Qed.

Lemma startsWith_app (p s : string) : JS.startsWith p (p ++ s) = true.
Proof.
  unfold JS.startsWith. induction p as [|a p IH]; simpl.
  - now destruct s.
  - destruct (ascii_dec a a) as [_|n]; [exact IH|now elim n].
Qed.

Lemma drop_app (p s : string) : JS.drop (String.length p) (p ++ s) = s.
Proof. induction p as [|a p IH]; simpl; [now destruct s|exact IH]. Qed.

Lemma matchTagRun_here (tag : string) (stop : ascii -> bool) (t : ascii)
  (s run rest : string) :
  JS.startsWith tag s = true ->
  JS.span stop (JS.drop (String.length tag) s) = (run, String t rest) ->
  run <> "" ->
  JS.matchTagRun tag stop (Some t) s = Some run.
Proof.
  intros Hs Hspan Hne.
  destruct s as [|c s];
    cbn [JS.matchTagRun]; rewrite Hs, Hspan;
    (destruct run; [now elim Hne|now rewrite Ascii.eqb_refl]).
Qed.

Lemma matchTagRun_skip (tag : string) (stop : ascii -> bool)
  (term : option ascii) (c : ascii) (s : string) :
  JS.startsWith tag (String c s) = false ->
  JS.matchTagRun tag stop term (String c s) = JS.matchTagRun tag stop term s.
Proof. intros H. cbn [JS.matchTagRun]. now rewrite H. Qed.

Lemma indexOf_skip (p : string) (c : ascii) (s : string) :
  JS.startsWith p (String c s) = false ->
  JS.indexOf p (String c s) = option_map S (JS.indexOf p s).
Proof. intros H. cbn [JS.indexOf]. now rewrite H. Qed.

Lemma indexOf_here (p s : string) :
  JS.startsWith p s = true -> JS.indexOf p s = Some O.
Proof. intros H. destruct s; cbn [JS.indexOf]; now rewrite H. Qed.

(** The regular expression of [extractTimezone] at the position of the
    parameter. *)
Lemma matchTagRun_tzid (tz value : string) :
  tz <> "" -> noneIs (Ascii.eqb ":") tz = true ->
  JS.matchTagRun "TZID=" (Ascii.eqb ":") (Some ":"%char)
    ("TZID=" ++ tz ++ ":" ++ value) = Some tz.
Proof.
  intros Hne Hrun.
  apply matchTagRun_here with (rest := value); [apply startsWith_app| |exact Hne].
  rewrite (drop_app "TZID=").
  exact (span_run _ _ ":"%char value Hrun (Ascii.eqb_refl _)).
Qed.

Lemma extractTimezone_tzid (prop tz value : string) :
  prop = "DTSTART" \/ prop = "DTEND" ->
  tz <> "" -> noneIs (Ascii.eqb ":") tz = true ->
  extractTimezone (prop ++ ";TZID=" ++ tz ++ ":" ++ value) = tz.
Proof.
  intros Hp Hne Hrun. pose proof (matchTagRun_tzid tz value Hne Hrun) as Hm.
  assert (Hs := startsWith_app "TZID=" (tz ++ ":" ++ value)).
  assert (Hi := indexOf_here _ _ Hs).
  unfold extractTimezone, JS.includes.
  destruct Hp as [-> | ->].
  - change ("DTSTART" ++ ";TZID=" ++ tz ++ ":" ++ value)
      with (String "D" (String "T" (String "S" (String "T" (String "A"
             (String "R" (String "T" (String ";"
                ("TZID=" ++ tz ++ ":" ++ value))))))))).
    repeat (rewrite indexOf_skip by reflexivity).
    repeat (rewrite matchTagRun_skip by reflexivity).
    now rewrite Hi, Hm.
  - change ("DTEND" ++ ";TZID=" ++ tz ++ ":" ++ value)
      with (String "D" (String "T" (String "E" (String "N" (String "D"
             (String ";" ("TZID=" ++ tz ++ ":" ++ value))))))).
    repeat (rewrite indexOf_skip by reflexivity).
    repeat (rewrite matchTagRun_skip by reflexivity).
    now rewrite Hi, Hm.
Qed.

Lemma fromObject_zone (o : DateObject) (z : string) (dt : DateTime) :
  fromObject L o z = Normal dt -> dt = InvalidDT \/ zoneOf dt = Some z.
Proof.
  unfold fromObject.
  destruct (o_year o), (o_month o), (o_day o), (o_hour o), (o_minute o),
    (o_second o); try discriminate.
  match goal with |- context [if ?b then _ else _] => destruct b end;
    intros H; injection H as <-; [right|left]; reflexivity.
Qed.

Lemma truthy_nonempty (s : string) : s <> "" -> JS.truthy (Some s) = true.
Proof. destruct s; [intros H; now elim H|reflexivity]. Qed.

Lemma orElse_nonempty (s d : string) : s <> "" -> JS.orElse (Some s) d = s.
Proof. destruct s; [intros H; now elim H|reflexivity]. Qed.

(** For a value in one of the two literal forms [parseIcsDate] is a guarded
    call of [DateTime.fromObject] in the zone [zoneUsed], on units that do
    not depend on the zone passed. *)
Lemma parseIcsDate_literal (value : string) :
  (String.length value =? 8)%nat || JS.includes "T" value = true ->
  exists obj, forall tz,
    tz <> "" ->
    parseIcsDate L now value (Some tz)
    = tryCatch (fromObject L obj (zoneUsed value tz))
        (setZone tz (nowDT L now)).
Proof.
  intros Hform. unfold parseIcsDate, zoneUsed.
  destruct (String.length value =? 8)%nat eqn:E8; cbn [negb andb].
  - eexists. intros tz Hne.
    rewrite (truthy_nonempty _ Hne), (orElse_nonempty _ _ Hne).
    cbn [JS.show]. reflexivity.
  - cbn [orb] in Hform. rewrite Hform. eexists. intros tz Hne.
    rewrite (truthy_nonempty _ Hne), (orElse_nonempty _ _ Hne).
    cbn [JS.show]. reflexivity.
Qed.


End Timezone.


(** ** The timezone of the projected occurrences (C3) *)

Section ProjectorZone.

Variable L : Luxon.
Variable now : Z.

Lemma inZone_plusDays tz n dt : inZone tz dt -> inZone tz (plusDays L n dt).
Proof.
  intros [-> | H]; [now left|]. destruct dt; [|now left].
  right. exact H.
Qed.

Lemma inZone_startOfDay tz dt : inZone tz dt -> inZone tz (startOfDay L dt).
Proof.
  intros [-> | H]; [now left|]. destruct dt; [|now left].
  right. exact H.
Qed.

Lemma inZone_setZone tz dt : inZone tz (setZone tz dt).
Proof. destruct dt; [now right|now left]. Qed.

Lemma inZone_maxDT tz a b : inZone tz a -> inZone tz b -> inZone tz (maxDT a b).
Proof.
  intros Ha Hb. unfold maxDT.
  destruct (valueOf a), (valueOf b); auto.
  match goal with |- context [if ?c then _ else _] => destruct c end; auto.
Qed.

Lemma loopBody_zoneInv tz days offsets nowTz st :
  zoneInv tz st -> zoneInv tz (loopBody L tz days offsets nowTz st).
Proof.
  intros [Hc Hd]. unfold loopBody.
  destruct (setHas _ days); [|split; [now apply inZone_plusDays|exact Hd]].
  match goal with
  | |- context [gtDT ?s nowTz] => destruct (gtDT s nowTz) eqn:Eg
  end; (split; [now apply inZone_plusDays|]); simpl; [|exact Hd].
  apply Forall_app. split; [exact Hd|]. constructor; [|constructor].
  simpl. destruct Hc as [Hc | Hc].
  - rewrite Hc in Eg. unfold gtDT, ltDT in Eg. simpl in Eg.
    destruct (valueOf nowTz); discriminate Eg.
  - destruct (currentDate st) as [ts z|]; [|discriminate Hc].
    simpl in Hc. injection Hc as ->. repeat split.
Qed.

Lemma whileCount_zoneInv tz days offsets nowTz fuel st st' :
  zoneInv tz st ->
  whileCount L fuel tz days offsets nowTz st = Some st' ->
  zoneInv tz st'.
Proof.
  revert st. induction fuel as [|fuel IH]; intros st Hinv; simpl;
    destruct (count st <? 5); try discriminate;
    try (intros H; injection H as <-; exact Hinv).
  apply IH. now apply loopBody_zoneInv.
Qed.

(** C3, as the code has it. Given at least one event the projector raises
    nothing, whatever the timezones of the events: every occurrence it
    returns is labelled with the timezone of the first event and has its
    run date and deadline in that zone. *)
Theorem projector_uses_first_timezone :
  forall fuel first rest,
    (forall e,
        generateNext5FromEvents L now fuel (first :: rest) <> Some (Throw e)) /\
    (forall dates,
        generateNext5FromEvents L now fuel (first :: rest)
        = Some (Normal dates) ->
        Forall (fun o =>
                  Occ.timezone o = timeZone (start first) /\
                  zoneOf (Occ.runDate o) = Some (timeZone (start first)) /\
                  zoneOf (Occ.submissionDate o)
                  = Some (timeZone (start first))) dates).
Proof.
  intros fuel first rest. unfold generateNext5FromEvents, loopEntry.
  split.
  - intros e. destruct (whileCount _ _ _ _ _ _ _); discriminate.
  - intros ds.
    destruct (whileCount _ _ _ _ _ _ _) as [st|] eqn:E; [|discriminate].
    intros H. injection H as <-.
    apply whileCount_zoneInv in E; [exact (proj2 E)|].
    split; [|constructor]. cbn [currentDate].
    apply inZone_maxDT; apply inZone_startOfDay, inZone_setZone.
Qed.

End ProjectorZone.

(** C3 as stated fails: for a Monday event in New York and a Wednesday
    event in UTC the projector reports nothing and returns five occurrences,
    the Wednesday ones included, all in the zone of the first event. *)
Lemma mixed_timezones_not_reported :
  timeZone (start (sampleWeekly "MO" 1736787600000 "America/New_York"))
  <> timeZone (start (sampleWeekly "WE" 1736942400000 "UTC")) /\
  exists dates,
    generateNext5FromEvents sampleLuxon sampleNow 40
      [sampleWeekly "MO" 1736787600000 "America/New_York";
       sampleWeekly "WE" 1736942400000 "UTC"]
    = Some (Normal dates) /\
    List.length dates = 5%nat /\
    map (weekday sampleLuxon) (map Occ.runDate dates)
    = [Some 3; Some 1; Some 3; Some 1; Some 3] /\
    map Occ.timezone dates = repeat "America/New_York" 5.
Proof.
  split; [discriminate|].
  eexists. split; [vm_compute; reflexivity|].
  split; [reflexivity|]. split; vm_compute; reflexivity.
Qed.

(** ** Stale recurring starts (C2) *)

Section Advance.

Variable L : Luxon.

Ltac unfold_ms := unfold msPerDay, msPerHour, msPerMinute in *.

Lemma localOf_ofLocal (l : Z) (z : string) : localOf L (ofLocal L l z) = Some l.
Proof. unfold ofLocal, localOf, localMillis. f_equal. lia. Qed.

Lemma weekdayOfDay_range (d : Z) : 1 <= weekdayOfDay d <= 7.
Proof. unfold weekdayOfDay. pose proof (Z.mod_pos_bound (d + 3) 7). lia. Qed.

Lemma daysToAdd_range (e t : Z) :
  1 <= e <= 7 -> 1 <= t <= 7 -> 1 <= daysToAdd e t <= 7.
Proof.
  intros He Ht. unfold daysToAdd. rewrite Z.rem_mod_nonneg by lia.
  pose proof (Z.mod_pos_bound (e - t + 7) 7).
  destruct (Z.eqb_spec ((e - t + 7) mod 7) 0); lia.
Qed.

(** Today plus [daysToAdd] falls on the weekday of the event. *)
Lemma weekday_after_daysToAdd (ds d0 : Z) :
  weekdayOfDay (d0 + daysToAdd (weekdayOfDay ds) (weekdayOfDay d0))
  = weekdayOfDay ds.
Proof.
  pose proof (weekdayOfDay_range ds). pose proof (weekdayOfDay_range d0).
  unfold daysToAdd. rewrite Z.rem_mod_nonneg by lia.
  unfold weekdayOfDay in *.
  destruct (Z.eqb_spec
              (((ds + 3) mod 7 + 1 - ((d0 + 3) mod 7 + 1) + 7) mod 7) 0);
    Z.div_mod_to_equations; lia.
Qed.

(** No day strictly between today and that day falls on it. *)
Lemma no_earlier_weekday (ds d0 d : Z) :
  d0 < d < d0 + daysToAdd (weekdayOfDay ds) (weekdayOfDay d0) ->
  weekdayOfDay d <> weekdayOfDay ds.
Proof.
  pose proof (weekdayOfDay_range ds). pose proof (weekdayOfDay_range d0).
  unfold daysToAdd. rewrite Z.rem_mod_nonneg by lia.
  unfold weekdayOfDay in *.
  destruct (Z.eqb_spec
              (((ds + 3) mod 7 + 1 - ((d0 + 3) mod 7 + 1) + 7) mod 7) 0);
    Z.div_mod_to_equations; lia.
Qed.

(** The wall-clock fields written by [set] are the ones read back. *)
Lemma set_time_fields (l h m s r : Z) :
  0 <= h <= 23 -> 0 <= m <= 59 -> 0 <= s <= 59 -> 0 <= r <= 999 ->
  let l' := l / msPerDay * msPerDay + h * msPerHour + m * msPerMinute
            + s * 1000 + r in
  l' / msPerDay = l / msPerDay /\
  (l' mod msPerDay) / msPerHour = h /\
  (l' mod msPerHour) / msPerMinute = m /\
  (l' mod msPerMinute) / 1000 = s /\
  l' mod 1000 = r.
Proof.
  intros Hh Hm Hs Hr. cbv zeta. unfold_ms.
  set (D := l / 86400000).
  repeat split; Z.div_mod_to_equations; lia.
Qed.

Lemma time_fields_range (l : Z) :
  0 <= (l mod msPerDay) / msPerHour <= 23 /\
  0 <= (l mod msPerHour) / msPerMinute <= 59 /\
  0 <= (l mod msPerMinute) / 1000 <= 59 /\
  0 <= l mod 1000 <= 999.
Proof. unfold_ms. repeat split; Z.div_mod_to_equations; lia. Qed.

Lemma localMillis_ofLocal (l : Z) (z : string) :
  match ofLocal L l z with
  | DT ts z' => localMillis L ts z' = l /\ z' = z
  | InvalidDT => False
  end.
Proof. unfold ofLocal, localMillis. split; [lia|reflexivity]. Qed.

Lemma setHMS_ofLocal (h m s l : Z) (z : string) :
  setHMS L h m s (ofLocal L l z)
  = ofLocal L (l / msPerDay * msPerDay + h * msPerHour + m * msPerMinute
               + s * 1000 + l mod 1000) z.
Proof.
  unfold setHMS, ofLocal.
  replace (localMillis L (l - offsetOf L z * msPerMinute) z) with l
    by (unfold localMillis; lia).
  reflexivity.
Qed.

Lemma setHMSm_ofLocal (h m s ms l : Z) (z : string) :
  setHMSm L h m s ms (ofLocal L l z)
  = ofLocal L (l / msPerDay * msPerDay + h * msPerHour + m * msPerMinute
               + s * 1000 + ms) z.
Proof.
  unfold setHMSm, ofLocal.
  replace (localMillis L (l - offsetOf L z * msPerMinute) z) with l
    by (unfold localMillis; lia).
  reflexivity.
Qed.

(** Every valid DateTime is [ofLocal] of its wall-clock time. *)
Lemma DT_ofLocal (ts : Z) (z : string) :
  DT ts z = ofLocal L (localMillis L ts z) z.
Proof. unfold ofLocal, localMillis. f_equal. lia. Qed.

Lemma plusDays_ofLocal (n l : Z) (z : string) :
  plusDays L n (ofLocal L l z) = ofLocal L (l + n * msPerDay) z.
Proof.
  unfold plusDays, ofLocal.
  replace (localMillis L (l - offsetOf L z * msPerMinute) z) with l
    by (unfold localMillis; lia).
  reflexivity.
Qed.


End Advance.

(** ** Expansion and deduplication (C6, C7) *)

Section Dedup.

Variable L : Luxon.

Lemma append_inj_l (p x y : string) : p ++ x = p ++ y -> x = y.
Proof.
  induction p as [|a p IH]; simpl; [auto|].
  intros H. injection H as H. auto.
Qed.

(** The names [dayNames] knows, with their positions. *)
Lemma indexOfName_dayNames (d : string) (i : Z) :
  indexOfName dayNames d = Some i ->
  (d = "SU" /\ i = 0) \/ (d = "MO" /\ i = 1) \/ (d = "TU" /\ i = 2) \/
  (d = "WE" /\ i = 3) \/ (d = "TH" /\ i = 4) \/ (d = "FR" /\ i = 5) \/
  (d = "SA" /\ i = 6).
Proof.
  unfold dayNames. cbn [indexOfName].
  repeat match goal with
         | |- context [String.eqb ?n d] =>
             destruct (String.eqb_spec n d) as [<- | _];
             [cbn; intros H; injection H as <-; tauto|]
         end.
  discriminate.
Qed.

(** Two weekdays of one record have the same key only if they are the same
    weekday. *)
Lemma dayPatternKey_inj (baseUid timeKey d d' : string) (i i' : Z) :
  indexOfName dayNames d = Some i ->
  indexOfName dayNames d' = Some i' ->
  String.eqb (dayPatternKey baseUid i timeKey)
    (dayPatternKey baseUid i' timeKey)
  = String.eqb d d'.
Proof.
  intros Hd Hd'.
  destruct (String.eqb_spec d d') as [<- | Hne].
  - rewrite Hd in Hd'. injection Hd' as <-. apply String.eqb_refl.
  - apply String.eqb_neq. intros E. apply Hne. unfold dayPatternKey in E.
    apply append_inj_l in E.
    apply indexOfName_dayNames in Hd, Hd'.
    destruct Hd as [[-> ->]|[[-> ->]|[[-> ->]|[[-> ->]|[[-> ->]|[[-> ->]|[-> ->]]]]]]];
    destruct Hd' as [[-> ->]|[[-> ->]|[[-> ->]|[[-> ->]|[[-> ->]|[[-> ->]|[-> ->]]]]]]];
      try reflexivity; discriminate E.
Qed.

Lemma mapHas_appended (P : ParsedEvent -> Prop) (k : string)
  (m m' : JSMap ParsedEvent) :
  appended P m m' -> mapHas k m = true -> mapHas k m' = true.
Proof. intros (a & -> & _) H. now rewrite mapHas_app, H. Qed.

Lemma mapGet_appended (P : ParsedEvent -> Prop) (k : string) (v : ParsedEvent)
  (m m' : JSMap ParsedEvent) :
  appended P m m' -> mapGet k m = Some v -> mapGet k m' = Some v.
Proof. intros (a & -> & _) H. now apply mapGet_app_l. Qed.

Lemma mapHas_mapSet {V : Type} (k : string) (v : V) (m : JSMap V) :
  mapHas k (mapSet k v m) = true.
Proof. unfold mapHas. now rewrite mapGet_mapSet_same. Qed.

Section Days.

Variables (e : Raw.Event) (src sid tz : string) (s en : DateTime).

Let baseUid : string := baseUidOf (Raw.uid e).
Let timeKey : string := timeKeyOf L s.
Let add := addDayEvents e src sid tz s en baseUid timeKey.
Let entry (d : string) : string * ParsedEvent :=
  (dayPatternKey baseUid
     (match indexOfName dayNames d with Some i => i | None => 0 end) timeKey,
   weeklyEvent e src sid tz s en d).

(** When every key of [days] is in the map nothing is added. *)
Lemma addDayEvents_present days m :
  (forall d i, In d days -> dayIndexOf d = Some i ->
               mapHas (dayPatternKey baseUid i timeKey) m = true) ->
  add days m = m.
Proof.
  revert m. induction days as [|day rest IH]; intros m H; [reflexivity|].
  unfold add in *. cbn [addDayEvents].
  destruct (dayIndexOf day) as [i|] eqn:Ei.
  - rewrite (H day i (or_introl eq_refl) Ei). cbn [negb].
    apply IH. intros d j Hd. apply H. now right.
  - apply IH. intros d j Hd. apply H. now right.
Qed.

(** After the loop every key of [days] is in the map. *)
Lemma addDayEvents_has days m d i :
  In d days -> dayIndexOf d = Some i ->
  mapHas (dayPatternKey baseUid i timeKey) (add days m) = true.
Proof.
  revert m. induction days as [|day rest IH]; intros m Hin Hi; [elim Hin|].
  unfold add in *. cbn [addDayEvents].
  destruct Hin as [-> | Hin].
  - rewrite Hi.
    destruct (mapHas (dayPatternKey baseUid i timeKey) m) eqn:E; cbn [negb].
    + eapply mapHas_appended; [apply addDayEvents_appended|exact E].
    + eapply mapHas_appended; [apply addDayEvents_appended|].
      apply mapHas_mapSet.
  - destruct (dayIndexOf day) as [j|]; [|now apply IH].
    destruct (mapHas (dayPatternKey baseUid j timeKey) m); cbn [negb];
      now apply IH.
Qed.

(** The loop appends one event per weekday of [listedDays], provided the
    keys of the weekdays still to come are in the map exactly when the
    weekday has been seen. *)
Lemma addDayEvents_listed days seen m :
  (forall d i, In (Some d) days -> indexOfName dayNames d = Some i ->
               mapHas (dayPatternKey baseUid i timeKey) m
               = existsb (String.eqb d) seen) ->
  add days m = (m ++ map entry (listedDays seen days))%list.
Proof.
  revert seen m. induction days as [|day rest IH]; intros seen m H.
  - cbn. now rewrite app_nil_r.
  - unfold add in *. cbn [addDayEvents listedDays].
    destruct day as [d|]; cbn [dayIndexOf];
      [|apply IH; intros d i Hd; apply H; now right].
    destruct (indexOfName dayNames d) as [i|] eqn:Ei;
      [|apply IH; intros d' i' Hd'; apply H; now right].
    rewrite (H d i (or_introl eq_refl) Ei).
    destruct (existsb (String.eqb d) seen) eqn:Es; cbn [negb].
    + apply IH. intros d' i' Hd'. apply H. now right.
    + pose proof (H d i (or_introl eq_refl) Ei) as Hm. rewrite Es in Hm.
      rewrite (mapSet_absent _ _ _ Hm).
      rewrite (IH (d :: seen)).
      * cbn [map]. unfold entry at 2. rewrite Ei.
        rewrite <- app_assoc. reflexivity.
      * intros d' i' Hd' Ei'. rewrite mapHas_app, mapHas_single.
        rewrite (H d' i' (or_intror Hd') Ei'). cbn [existsb].
        rewrite (dayPatternKey_inj baseUid timeKey d' d i' i Ei' Ei).
        apply orb_comm.
Qed.

End Days.

(** [processEvent] in terms of the times it settles on. *)
Lemma processEvent_settled e rawRrule isRec today m src sid :
  processEvent L e rawRrule isRec today m src sid
  = match settledTimes L e isRec today with
    | Throw err => Throw err
    | Normal (s, en) =>
        let tz := JS.orElse (Raw.startTimezone e) defaultZone in
        if isRec then
          Normal (addDayEvents e (eventSourceOf e src) sid tz s en
                    (baseUidOf (Raw.uid e)) (timeKeyOf L s)
                    (daysInRule L rawRrule s) m)
        else if negb (mapHas (oneTimeKeyOf (Raw.uid e) s) m) then
          Normal (mapSet (oneTimeKeyOf (Raw.uid e) s)
                    (mkParsedEvent e (eventSourceOf e src) sid tz s en
                       None false) m)
        else Normal m
    end.
Proof.
  unfold processEvent, settledTimes.
  destruct (Raw.startDate e) as [s0|]; [|reflexivity].
  destruct (adjustToFuture L isRec s0 _ _) as [[s en]|err]; reflexivity.
Qed.

Lemma in_dedupKeys_recurring e rawRrule s k :
  In k (dedupKeys L e rawRrule true s) <->
  exists d i, In d (daysInRule L rawRrule s) /\ dayIndexOf d = Some i /\
              k = dayPatternKey (baseUidOf (Raw.uid e)) i (timeKeyOf L s).
Proof.
  unfold dedupKeys. rewrite in_flat_map. split.
  - intros (d & Hd & Hk). destruct (dayIndexOf d) as [i|] eqn:Ei; [|elim Hk].
    destruct Hk as [<- | []]. eauto.
  - intros (d & i & Hd & Ei & ->). exists d. rewrite Ei. split; [exact Hd|].
    now left.
Qed.

(** After a record has been processed its keys are in the map. *)
Lemma processEvent_keys_present e rawRrule isRec today m src sid m' k :
  processEvent L e rawRrule isRec today m src sid = Normal m' ->
  In k (recordKeys L e rawRrule isRec today) -> mapHas k m' = true.
Proof.
  rewrite processEvent_settled. unfold recordKeys.
  destruct (settledTimes L e isRec today) as [[s en]|err]; [|discriminate].
  cbv zeta. destruct isRec.
  - intros H Hk. injection H as <-.
    apply in_dedupKeys_recurring in Hk as (d & i & Hd & Ei & ->).
    now apply addDayEvents_has with (d := d).
  - unfold dedupKeys. intros H [<- | []].
    destruct (mapHas (oneTimeKeyOf (Raw.uid e) s) m) eqn:E; cbn [negb] in H;
      injection H as <-; [exact E|apply mapHas_mapSet].
Qed.

(** A record whose keys are all in the map leaves the map as it is. *)
Lemma processEvent_keys_dropped e rawRrule isRec today m src sid m' :
  (forall k, In k (recordKeys L e rawRrule isRec today) -> mapHas k m = true) ->
  processEvent L e rawRrule isRec today m src sid = Normal m' ->
  m' = m.
Proof.
  rewrite processEvent_settled. unfold recordKeys.
  destruct (settledTimes L e isRec today) as [[s en]|err]; [|discriminate].
  cbv zeta. destruct isRec.
  - intros Hk H. injection H as <-. apply addDayEvents_present.
    intros d i Hd Ei. apply Hk. apply in_dedupKeys_recurring. eauto.
  - unfold dedupKeys. intros Hk. rewrite (Hk _ (or_introl eq_refl)).
    cbn [negb]. intros H. now injection H as <-.
Qed.

(** Whether [processEvent] raises depends on the times it settles on
    alone. *)
Lemma processEvent_normal e rawRrule isRec today m src sid p :
  settledTimes L e isRec today = Normal p ->
  exists m2, processEvent L e rawRrule isRec today m src sid = Normal m2.
Proof.
  intros H. rewrite processEvent_settled, H. destruct p as [s en].
  cbv zeta. destruct isRec; [eexists; reflexivity|].
  match goal with |- context [negb ?b] => destruct (negb b) end;
    eexists; reflexivity.
Qed.

Lemma processEvent_settles e rawRrule isRec today m src sid m' :
  processEvent L e rawRrule isRec today m src sid = Normal m' ->
  exists p, settledTimes L e isRec today = Normal p.
Proof.
  rewrite processEvent_settled.
  destruct (settledTimes L e isRec today) as [p|err]; [eauto|discriminate].
Qed.

(** A record with a dedup key that is processed when all its keys are in
    the map is dropped: the call returns normally and the map is
    unchanged. *)
Lemma processEvent_dropped e rawRrule isRec today later src sid :
  recordKeys L e rawRrule isRec today <> [] ->
  (forall k, In k (recordKeys L e rawRrule isRec today) ->
             mapHas k later = true) ->
  processEvent L e rawRrule isRec today later src sid = Normal later.
Proof.
  intros Hne Hk.
  assert (H : exists p, settledTimes L e isRec today = Normal p).
  { unfold recordKeys in Hne.
    destruct (settledTimes L e isRec today) as [p|err]; [eauto|now elim Hne]. }
  destruct H as [p Hp].
  destruct (processEvent_normal e rawRrule isRec today later src sid p Hp)
    as [m2 H].
  rewrite H. f_equal. now apply processEvent_keys_dropped in H.
Qed.

(** A record processed once more, at any later time, changes nothing. *)
Lemma processEvent_again e rawRrule isRec today m src sid m' later src2 sid2 :
  processEvent L e rawRrule isRec today m src sid = Normal m' ->
  (forall k, mapHas k m' = true -> mapHas k later = true) ->
  processEvent L e rawRrule isRec today later src2 sid2 = Normal later.
Proof.
  intros H Hlater.
  destruct (processEvent_settles _ _ _ _ _ _ _ _ H) as [p Hp].
  destruct (processEvent_normal e rawRrule isRec today later src2 sid2 p Hp)
    as [m2 H2].
  rewrite H2. f_equal.
  eapply processEvent_keys_dropped; [|exact H2].
  intros k Hk. apply Hlater.
  eapply processEvent_keys_present; [exact H|exact Hk].
Qed.

(** First write wins, for one call of [processEvent]. *)
Lemma processEvent_first_wins e rawRrule isRec today m src sid m' :
  processEvent L e rawRrule isRec today m src sid = Normal m' ->
  (forall k v, mapGet k m = Some v -> mapGet k m' = Some v) /\
  (forall k, In k (recordKeys L e rawRrule isRec today) ->
             mapHas k m' = true) /\
  (forall later e2 rawRrule2 isRec2 src2 sid2,
      (forall k, mapHas k m' = true -> mapHas k later = true) ->
      recordKeys L e2 rawRrule2 isRec2 today <> [] ->
      incl (recordKeys L e2 rawRrule2 isRec2 today)
        (recordKeys L e rawRrule isRec today) ->
      processEvent L e2 rawRrule2 isRec2 today later src2 sid2
      = Normal later) /\
  (forall text src2 sid2,
      processEvent L (Raw.setSummary text e) rawRrule isRec today m'
        src2 sid2 = Normal m').
Proof.
  intros H.
  pose proof (processEvent_appended L _ _ _ _ _ _ _ _ H) as Happ.
  assert (Hkeys : forall k, In k (recordKeys L e rawRrule isRec today) ->
                            mapHas k m' = true).
  { intros k. now apply processEvent_keys_present with (m := m) (src := src)
                                                     (sid := sid). }
  split; [|split; [exact Hkeys|split]].
  - intros k v. now apply mapGet_appended with (P := builtFrom e).
  - intros later e2 rr2 isRec2 src2 sid2 Hlater Hne Hincl.
    apply processEvent_dropped; [exact Hne|].
    intros k Hk. apply Hlater, Hkeys, Hincl, Hk.
  - intros text src2 sid2.
    destruct (processEvent_settles _ _ _ _ _ _ _ _ H) as [p Hp].
    destruct (processEvent_normal (Raw.setSummary text e) rawRrule isRec
                today m' src2 sid2 p Hp) as [m2 H2].
    rewrite H2. f_equal.
    eapply processEvent_keys_dropped; [|exact H2]. exact Hkeys.
Qed.

Lemma indexOfName_In (names : list string) (d : string) :
  In d names <-> indexOfName names d <> None.
Proof.
  induction names as [|n names IH]; cbn [indexOfName In].
  - split; [intros []|intros H; now elim H].
  - destruct (String.eqb_spec n d) as [-> | Hne].
    + split; [discriminate|now left].
    + rewrite IH. destruct (indexOfName names d); cbn [option_map].
      * split; [discriminate|intros _; right; discriminate].
      * split; [intros [E | E]; [now elim Hne | now elim E] | intros E; now elim E].
Qed.

Lemma existsb_eqb_In (d : string) (seen : list string) :
  existsb (String.eqb d) seen = true <-> In d seen.
Proof.
  rewrite existsb_exists. split.
  - intros (x & Hx & E). apply String.eqb_eq in E. now subst.
  - intros H. exists d. split; [exact H|apply String.eqb_refl].
Qed.

(** [listedDays] holds each listed weekday that [dayNames] knows once. *)
Lemma listedDays_spec (days : list (option string)) (seen : list string) :
  NoDup (listedDays seen days) /\
  forall d, In d (listedDays seen days) <->
            In (Some d) days /\ In d dayNames /\ ~ In d seen.
Proof.
  revert seen. induction days as [|day rest IH]; intros seen.
  - split; [constructor|]. intros d. cbn. tauto.
  - cbn [listedDays]. destruct day as [x|].
    2:{ destruct (IH seen) as [Hn Hi]. split; [exact Hn|].
        intros d. rewrite Hi. cbn [In]. split; [tauto|].
        intros [[E | H] H']; [discriminate|tauto]. }
    destruct (indexOfName dayNames x) as [i|] eqn:Ei.
    + assert (Hx : In x dayNames) by (apply indexOfName_In; congruence).
      destruct (existsb (String.eqb x) seen) eqn:Es.
      * apply existsb_eqb_In in Es. destruct (IH seen) as [Hn Hi].
        split; [exact Hn|]. intros d. rewrite Hi. cbn [In]. split; [tauto|].
        intros [[E | H] H']; [|tauto]. injection E as ->. tauto.
      * assert (Hs : ~ In x seen).
        { intros H. apply existsb_eqb_In in H. congruence. }
        destruct (IH (x :: seen)) as [Hn Hi]. split.
        -- constructor; [|exact Hn]. rewrite Hi. cbn [In]. tauto.
        -- intros d. cbn [In]. rewrite Hi. cbn [In]. split.
           ++ intros [<- | (H1 & H2 & H3)]; [tauto|]. tauto.
           ++ intros ([E | H1] & H2 & H3).
              ** injection E as ->. now left.
              ** destruct (string_dec x d) as [-> | Hne]; [now left|].
                 right. tauto.
    + assert (Hx : ~ In x dayNames).
      { intros H. apply indexOfName_In in H. congruence. }
      destruct (IH seen) as [Hn Hi]. split; [exact Hn|].
      intros d. rewrite Hi. cbn [In]. split; [tauto|].
      intros [[E | H] H']; [|tauto]. injection E as ->. tauto.
Qed.

Lemma matchTagRun_includes (tag : string) (stop : ascii -> bool)
  (term : option ascii) (s r : string) :
  JS.matchTagRun tag stop term s = Some r -> JS.includes tag s = true.
Proof.
  unfold JS.includes. induction s as [|c s IH].
  - cbn [JS.matchTagRun JS.indexOf].
    destruct (JS.startsWith tag ""); [reflexivity|discriminate].
  - cbn [JS.matchTagRun JS.indexOf].
    destruct (JS.startsWith tag (String c s)); [reflexivity|].
    intros H. specialize (IH H). destruct (JS.indexOf tag s); [reflexivity|discriminate].
Qed.

Lemma splitAux_nonempty (sep : string) (skip : nat) (acc s : string) :
  JS.splitAux sep skip acc s <> [].
Proof.
  revert skip acc. induction s as [|c s IH]; intros skip acc;
    cbn [JS.splitAux]; [discriminate|].
  destruct skip; [|apply IH].
  destruct (JS.startsWith sep (String c s)); [discriminate|apply IH].
Qed.

(** The weekdays a rule with a BYDAY part governs are the items of that
    part. *)
Lemma daysInRule_byday (rule list : string) (s : DateTime) :
  JS.matchTagRun "BYDAY=" (Ascii.eqb ";") None rule = Some list ->
  daysInRule L (Some rule) s = map Some (JS.split "," list).
Proof.
  intros Hm. unfold daysInRule.
  rewrite (matchTagRun_includes _ _ _ _ _ Hm), Hm.
  assert (Ht : JS.truthy (Some rule) = true)
    by (destruct rule; [discriminate Hm|reflexivity]).
  rewrite Ht. cbn [andb].
  pose proof (splitAux_nonempty "," O "" list) as Hne. unfold JS.split.
  destruct (JS.splitAux "," 0 "" list); [now elim Hne|reflexivity].
Qed.

(** Without a BYDAY part the weekday of the start governs. *)
Lemma daysInRule_default (rawRrule : option string) (s : DateTime) (w : Z) :
  rawRrule = None \/
  (exists rule, rawRrule = Some rule /\ JS.includes "BYDAY=" rule = false) ->
  weekday L s = Some w ->
  daysInRule L rawRrule s = [Some (nth (Z.to_nat (w mod 7)) dayNames "")].
Proof.
  intros Hr Hw.
  assert (Hrange : 1 <= w <= 7).
  { unfold weekday in Hw. destruct (dayNumber L s) as [d|]; [|discriminate].
    injection Hw as <-. apply weekdayOfDay_range. }
  assert (E : daysInRule L rawRrule s
              = [nth_error dayNames (Z.to_nat (if w =? 7 then 0 else w))]).
  { unfold daysInRule. rewrite Hw.
    destruct Hr as [-> | (rule & -> & Hi)]; [reflexivity|].
    rewrite Hi, andb_false_r. reflexivity. }
  rewrite E.
  assert (Hc : w = 1 \/ w = 2 \/ w = 3 \/ w = 4 \/ w = 5 \/ w = 6 \/ w = 7)
    by lia.
  destruct Hc as [-> | [-> | [-> | [-> | [-> | [-> | ->]]]]]]; reflexivity.
Qed.

(** C6. For a recurring record none of whose keys is in the map yet,
    [processEvent] appends exactly one event per weekday its rule lists
    among the names of [dayNames] (each weekday once, in the order of the
    rule), and the event of a weekday carries the descriptor
    [RRULE:FREQ=WEEKLY;BYDAY=] followed by that weekday alone; the rule
    [FREQ=WEEKLY;BYDAY=MO,WE,FR] gives three events. When the rule has no
    BYDAY part exactly one event is appended, for the weekday of the start
    the code has settled on, which is the advanced one for a stale
    record. *)
Theorem one_event_per_listed_weekday :
  forall e rawRrule today m src sid s en,
    settledTimes L e true today = Normal (s, en) ->
    (forall k, In k (recordKeys L e rawRrule true today) ->
               mapHas k m = false) ->
    let days := listedDays [] (daysInRule L rawRrule s) in
    let stored :=
      weeklyEvent e (eventSourceOf e src) sid
        (JS.orElse (Raw.startTimezone e) defaultZone) s en in
    exists m',
      processEvent L e rawRrule true today m src sid = Normal m' /\
      mapValues m' = (mapValues m ++ map stored days)%list /\
      (forall d, recurrence (stored d)
                 = Some ["RRULE:FREQ=WEEKLY;BYDAY=" ++ d]) /\
      NoDup days /\
      (forall d, In d days <->
                 In (Some d) (daysInRule L rawRrule s) /\ In d dayNames) /\
      (forall rule list,
          rawRrule = Some rule ->
          JS.matchTagRun "BYDAY=" (Ascii.eqb ";") None rule = Some list ->
          daysInRule L rawRrule s = map Some (JS.split "," list)) /\
      (rawRrule = Some "FREQ=WEEKLY;BYDAY=MO,WE,FR" ->
       days = ["MO"; "WE"; "FR"]) /\
      (rawRrule = None \/
       (exists rule, rawRrule = Some rule /\
                     JS.includes "BYDAY=" rule = false) ->
       forall w, weekday L s = Some w ->
                 days = [nth (Z.to_nat (w mod 7)) dayNames ""]).
Proof.
  intros e rawRrule today m src sid s en Hs Hfresh days stored.
  unfold recordKeys in Hfresh. rewrite Hs in Hfresh.
  rewrite processEvent_settled, Hs. cbv zeta.
  eexists. split; [reflexivity|].
  destruct (listedDays_spec (daysInRule L rawRrule s) []) as [Hn Hi].
  split; [|split; [|split; [|split; [|split; [|split]]]]].
  - rewrite (addDayEvents_listed _ _ _ _ _ _ _ []).
    + unfold mapValues. rewrite map_app, map_map. reflexivity.
    + intros d i Hd Ei. cbn [existsb]. apply Hfresh.
      apply in_dedupKeys_recurring. exists (Some d), i. auto.
  - reflexivity.
  - exact Hn.
  - intros d. fold days in Hi. rewrite Hi. cbn [In]. tauto.
  - intros rule list -> Hm. now apply daysInRule_byday.
  - intros E. unfold days. rewrite E. reflexivity.
  - intros Hr w Hw. unfold days. rewrite (daysInRule_default _ _ _ Hr Hw).
    assert (Hrange : 1 <= w <= 7).
    { unfold weekday in Hw. destruct (dayNumber L s) as [d|]; [|discriminate].
      injection Hw as <-. apply weekdayOfDay_range. }
    assert (Hc : w = 1 \/ w = 2 \/ w = 3 \/ w = 4 \/ w = 5 \/ w = 6 \/ w = 7)
      by lia.
    destruct Hc as [-> | [-> | [-> | [-> | [-> | [-> | ->]]]]]]; reflexivity.
Qed.

End Dedup.

(** ** Scanning the same lines again (C7) *)

Section Reparse.

Variable L : Luxon.
Variable now : Z.
Variables (rruleMap : JSMap string) (today : DateTime) (src sid : string).

Let step := parseLine L now rruleMap today src sid.
Let scan := parseLines L now rruleMap today src sid.

(** The scanning loop never removes a key. *)
Lemma parseLine_keeps_keys st line st' k :
  step st line = Normal st' ->
  mapHas k (eventsByDayPattern st) = true ->
  mapHas k (eventsByDayPattern st') = true.
Proof.
  unfold step, parseLine.
  destruct (String.eqb line "BEGIN:VEVENT");
    [intros H; injection H as <-; auto|].
  destruct (String.eqb line "END:VEVENT" && inEvent st).
  - destruct (currentEvent st) as [e|];
      [|intros H; injection H as <-; auto].
    destruct (Raw.hasKeys e); [|intros H; injection H as <-; auto].
    unfold finishEvent.
    match goal with
    | |- context [if ?b then _ else _] => destruct b
    end; [intros H; injection H as <-; auto|].
    destruct (processEvent L e _ _ today (eventsByDayPattern st) src sid)
      as [m|err] eqn:E; [|discriminate].
    cbn [bind]. intros H. injection H as <-. cbn [eventsByDayPattern].
    eapply mapHas_appended. eapply processEvent_appended. exact E.
  - destruct (inEvent st && JS.includes ":" line);
      [|intros H; injection H as <-; auto].
    destruct (JS.indexOf ":" line); [|discriminate].
    destruct (currentEvent st); [|discriminate].
    intros H. injection H as <-. auto.
Qed.

Lemma parseLines_keeps_keys lines st st' k :
  scan lines st = Normal st' ->
  mapHas k (eventsByDayPattern st) = true ->
  mapHas k (eventsByDayPattern st') = true.
Proof.
  unfold scan. revert st. induction lines as [|line rest IH]; intros st;
    cbn [parseLines].
  - intros H. injection H as <-. auto.
  - destruct (parseLine L now rruleMap today src sid st line) as [st1|err]
      eqn:E; [|discriminate].
    cbn [bind]. intros H Hk. apply (IH _ H).
    eapply parseLine_keeps_keys; [exact E|exact Hk].
Qed.

(** One line read in the first and in a later scan, at the same place of
    a block: the later scan, whose map holds the keys of the first, moves
    to the same place and leaves its map as it is. *)
Lemma parseLine_again sta stb line sta1 :
  step sta line = Normal sta1 ->
  currentEvent stb = currentEvent sta -> inEvent stb = inEvent sta ->
  (forall k, mapHas k (eventsByDayPattern sta1) = true ->
             mapHas k (eventsByDayPattern stb) = true) ->
  exists stb1,
    step stb line = Normal stb1 /\
    eventsByDayPattern stb1 = eventsByDayPattern stb /\
    currentEvent stb1 = currentEvent sta1 /\
    inEvent stb1 = inEvent sta1.
Proof.
  unfold step, parseLine. intros H Hc Hi Hk. rewrite Hc, Hi.
  destruct (String.eqb line "BEGIN:VEVENT");
    [injection H as <-; eexists; repeat split|].
  destruct (String.eqb line "END:VEVENT" && inEvent sta).
  - destruct (currentEvent sta) as [e|];
      [|injection H as <-; eexists; repeat split].
    destruct (Raw.hasKeys e); [|injection H as <-; eexists; repeat split].
    unfold finishEvent in *.
    match goal with
    | |- context [if ?b then _ else _] => destruct b
    end; [injection H as <-; eexists; repeat split|].
    destruct (processEvent L e _ _ today (eventsByDayPattern sta) src sid)
      as [m|err] eqn:E; [|discriminate].
    cbn [bind] in H. injection H as <-. cbn [eventsByDayPattern] in Hk.
    rewrite (processEvent_again L _ _ _ _ _ _ _ _ _ src sid E Hk).
    cbn [bind]. eexists. repeat split.
  - destruct (inEvent sta && JS.includes ":" line);
      [|injection H as <-; eexists; repeat split; auto].
    destruct (JS.indexOf ":" line); [|discriminate].
    destruct (currentEvent sta); [|discriminate].
    injection H as <-. eexists. repeat split.
Qed.

Lemma parseLines_again lines sta stb sta' :
  scan lines sta = Normal sta' ->
  currentEvent stb = currentEvent sta -> inEvent stb = inEvent sta ->
  (forall k, mapHas k (eventsByDayPattern sta') = true ->
             mapHas k (eventsByDayPattern stb) = true) ->
  exists stb',
    scan lines stb = Normal stb' /\
    eventsByDayPattern stb' = eventsByDayPattern stb /\
    currentEvent stb' = currentEvent sta' /\
    inEvent stb' = inEvent sta'.
Proof.
  unfold scan. revert sta stb. induction lines as [|line rest IH];
    intros sta stb; cbn [parseLines].
  - intros H Hc Hi _. injection H as <-. eexists. repeat split; auto.
  - destruct (parseLine L now rruleMap today src sid sta line) as [sta1|err]
      eqn:E; [|discriminate].
    cbn [bind]. intros H Hc Hi Hk.
    destruct (parseLine_again sta stb line sta1 E Hc Hi) as
      (stb1 & E1 & Em & Ec & Ei).
    { intros k Hk1. apply Hk. eapply parseLines_keeps_keys; [exact H|exact Hk1]. }
    unfold step in E1. rewrite E1. cbn [bind].
    destruct (IH sta1 stb1 H Ec Ei) as (stb' & E' & Em' & Ec' & Ei').
    { intros k Hk1. rewrite Em. now apply Hk. }
    exists stb'. rewrite <- Em. auto.
Qed.

(** Outside a block there is no current event. *)
Lemma parseLine_outside st line st' :
  step st line = Normal st' ->
  (inEvent st = false -> currentEvent st = None) ->
  inEvent st' = false -> currentEvent st' = None.
Proof.
  unfold step, parseLine.
  destruct (String.eqb line "BEGIN:VEVENT");
    [intros H; injection H as <-; discriminate|].
  destruct (String.eqb line "END:VEVENT" && inEvent st).
  - destruct (currentEvent st) as [e|];
      [|intros H; injection H as <-; reflexivity].
    destruct (Raw.hasKeys e); [|intros H; injection H as <-; reflexivity].
    unfold finishEvent.
    match goal with
    | |- context [if ?b then _ else _] => destruct b
    end; [intros H; injection H as <-; reflexivity|].
    destruct (processEvent L e _ _ today (eventsByDayPattern st) src sid);
      [|discriminate].
    cbn [bind]. intros H. injection H as <-. reflexivity.
  - destruct (inEvent st && JS.includes ":" line) eqn:Ei.
    + destruct (JS.indexOf ":" line); [|discriminate].
      destruct (currentEvent st); [|discriminate].
      intros H. injection H as <-. cbn [inEvent].
      apply andb_true_iff in Ei as [Ei _]. intros _ E. congruence.
    + intros H. injection H as <-. auto.
Qed.

Lemma parseLines_outside lines st st' :
  scan lines st = Normal st' ->
  (inEvent st = false -> currentEvent st = None) ->
  inEvent st' = false -> currentEvent st' = None.
Proof.
  unfold scan. revert st. induction lines as [|line rest IH]; intros st;
    cbn [parseLines].
  - intros H. injection H as <-. auto.
  - destruct (parseLine L now rruleMap today src sid st line) as [st1|err]
      eqn:E; [|discriminate].
    cbn [bind]. intros H Hinv. apply (IH _ H).
    eapply parseLine_outside; [exact E|exact Hinv].
Qed.

(** Scanning lines that do not end inside a block a second time, into the
    map the first scan has built, adds nothing. *)
Lemma scan_twice lines st1 :
  scan lines initialState = Normal st1 ->
  inEvent st1 = false ->
  exists st2,
    scan lines st1 = Normal st2 /\
    eventsByDayPattern st2 = eventsByDayPattern st1.
Proof.
  intros H Hin.
  pose proof (parseLines_outside _ _ _ H (fun _ => eq_refl) Hin) as Hcur.
  destruct (parseLines_again lines initialState st1 st1 H Hcur Hin
              (fun k Hk => Hk)) as (st2 & E & Em & _ & _).
  exists st2. auto.
Qed.

End Reparse.


(** ** The walk of the projector (C5, C1) *)

Section ProjectorLoop.

Variable L : Luxon.
Variable now : Z.
Variables (tz : string) (days : list string) (offsets : JSMap Z).

Let nowTz : DateTime := DT now tz.
Let body := loopBody L tz days offsets nowTz.
Let cand := specCandidate L now tz days offsets.
Let walk := specWalk L now tz days offsets.

Lemma weekdayOfDay_abbr (d : Z) :
  exists abbr, dayAbbrOf (Some (weekdayOfDay d)) = Some abbr.
Proof.
  pose proof (weekdayOfDay_range d) as H.
  assert (Hc : weekdayOfDay d = 1 \/ weekdayOfDay d = 2 \/ weekdayOfDay d = 3 \/
               weekdayOfDay d = 4 \/ weekdayOfDay d = 5 \/ weekdayOfDay d = 6 \/
               weekdayOfDay d = 7) by lia.
  destruct Hc as [-> | [-> | [-> | [-> | [-> | [-> | ->]]]]]]; eexists;
    reflexivity.
Qed.

(** One iteration of the loop, with the cursor at the start of day [d], is
    one step of the walk of the specification. *)
Lemma loopBody_candidate (d c : Z) (ds : list Occ.t) :
  body (atDay L tz d c ds)
  = atDay L tz (d + 1) (c + Z.of_nat (List.length (toList (cand d))))
      (ds ++ toList (cand d)).
Proof.
  subst body cand nowTz. unfold loopBody, specCandidate, atDay.
  cbn [currentDate count dates].
  assert (Ew : weekday L (ofLocal L (d * msPerDay) tz)
               = Some (weekdayOfDay d)).
  { unfold weekday, dayNumber. rewrite localOf_ofLocal. cbn [option_map].
    now rewrite Z.div_mul by discriminate. }
  rewrite Ew, plusDays_ofLocal, setHMSm_ofLocal.
  replace (d * msPerDay + 1 * msPerDay) with ((d + 1) * msPerDay) by lia.
  rewrite Z.div_mul by discriminate.
  replace (d * msPerDay + 12 * msPerHour + 0 * msPerMinute + 0 * 1000 + 0)
    with (d * msPerDay + 12 * msPerHour) by lia.
  destruct (dayAbbrOf (Some (weekdayOfDay d))) as [abbr|];
    cbn [setHas JS.show toList List.length Z.of_nat];
    [|rewrite Z.add_0_r, app_nil_r; reflexivity].
  destruct (existsb (String.eqb abbr) days);
    [|cbn; rewrite Z.add_0_r, app_nil_r; reflexivity].
  unfold minusDays. rewrite plusDays_ofLocal.
  fold (offsetOr2 (mapGet abbr offsets)).
  replace (d * msPerDay + 12 * msPerHour
           + - offsetOr2 (mapGet abbr offsets) * msPerDay)
    with (d * msPerDay + 12 * msPerHour
          - offsetOr2 (mapGet abbr offsets) * msPerDay) by lia.
  match goal with
  | |- context [gtDT ?x (DT now tz)] => destruct (gtDT x (DT now tz))
  end; cbn [toList List.length Z.of_nat];
    [reflexivity|rewrite Z.add_0_r, app_nil_r; reflexivity].
Qed.

Lemma iterBody_walk (n : nat) (d c : Z) (ds : list Occ.t) :
  iterBody L tz days offsets nowTz n (atDay L tz d c ds)
  = atDay L tz (d + Z.of_nat n) (c + Z.of_nat (List.length (walk d n)))
      (ds ++ walk d n).
Proof.
  revert d c ds. induction n as [|n IH]; intros d c ds.
  - cbn [iterBody]. subst walk. cbn [specWalk List.length Z.of_nat].
    now rewrite !Z.add_0_r, app_nil_r.
  - cbn [iterBody]. fold body. rewrite loopBody_candidate, IH.
    subst walk cand. cbn [specWalk]. rewrite length_app, <- app_assoc.
    f_equal; lia.
Qed.

Lemma walk_app (a b : nat) (d : Z) :
  walk d (a + b) = (walk d a ++ walk (d + Z.of_nat a) b)%list.
Proof.
  subst walk. revert d. induction a as [|a IH]; intros d.
  - cbn [specWalk Nat.add app Z.of_nat]. now rewrite Z.add_0_r.
  - cbn [specWalk Nat.add]. rewrite IH, <- app_assoc.
    replace (d + 1 + Z.of_nat a) with (d + Z.of_nat (S a)) by lia.
    reflexivity.
Qed.

Lemma cand_length (d : Z) : (List.length (toList (cand d)) <= 1)%nat.
Proof. destruct (cand d); cbn; lia. Qed.

(** What [while (count < 5)] returns is the state after some number of
    iterations, the first after which [count] has reached 5. *)
Lemma whileCount_iter (fuel : nat) (st st' : LoopState) :
  whileCount L fuel tz days offsets nowTz st = Some st' ->
  exists n,
    st' = iterBody L tz days offsets nowTz n st /\ 5 <= count st' /\
    forall j, (j < n)%nat ->
              count (iterBody L tz days offsets nowTz j st) < 5.
Proof.
  revert st. induction fuel as [|fuel IH]; intros st; cbn [whileCount];
    destruct (Z.ltb_spec (count st) 5) as [Hc|Hc]; try discriminate.
  - intros H. injection H as <-. exists O. cbn [iterBody].
    split; [reflexivity|]. split; [lia|]. intros j Hj. lia.
  - intros H. destruct (IH _ H) as (n & -> & H5 & Hlt).
    exists (S n). cbn [iterBody]. split; [reflexivity|]. split; [exact H5|].
    intros [|j] Hj; cbn [iterBody]; [exact Hc|]. apply Hlt. lia.
  - intros H. injection H as <-. exists O. cbn [iterBody].
    split; [reflexivity|]. split; [lia|]. intros j Hj. lia.
Qed.

(** Once [count] reaches 5 within [n] iterations the loop returns with
    fuel [n]. *)
Lemma whileCount_enough (n : nat) (st : LoopState) :
  5 <= count (iterBody L tz days offsets nowTz n st) ->
  exists st', whileCount L n tz days offsets nowTz st = Some st'.
Proof.
  revert st. induction n as [|n IH]; intros st H; cbn [whileCount];
    destruct (Z.ltb_spec (count st) 5) as [Hc|Hc]; eauto.
  cbn [iterBody] in H. lia.
Qed.

(** From the start of day [d] with nothing accepted, the loop returns the
    walk of the specification over some number of days, cut right after its
    fifth accepted candidate. *)
Lemma whileCount_walk (fuel : nat) (d : Z) (st' : LoopState) :
  whileCount L fuel tz days offsets nowTz (atDay L tz d 0 []) = Some st' ->
  exists n, dates st' = walk d n /\ List.length (dates st') = 5%nat.
Proof.
  intros H. apply whileCount_iter in H as (n & -> & H5 & Hlt).
  rewrite iterBody_walk in *. cbn [atDay count dates app] in *.
  exists n. split; [reflexivity|].
  destruct n as [|n]; [cbn in H5; lia|].
  specialize (Hlt n (Nat.lt_succ_diag_r n)).
  rewrite iterBody_walk in Hlt. cbn [atDay count] in Hlt.
  replace (S n) with (n + 1)%nat in * by lia.
  rewrite walk_app, length_app in *.
  assert (Hone : (List.length (walk (d + Z.of_nat n) 1) <= 1)%nat).
  { subst walk. cbn [specWalk]. rewrite app_nil_r. apply cand_length. }
  lia.
Qed.

Lemma dayAbbrOf_dayMap (abbr : string) (w : Z) :
  In (abbr, w) dayMap -> dayAbbrOf (Some w) = Some abbr.
Proof.
  unfold dayMap. cbn [In].
  intros [H | [H | [H | [H | [H | [H | [H | []]]]]]]];
    injection H as <- <-; reflexivity.
Qed.

Lemma dayMap_range (abbr : string) (w : Z) : In (abbr, w) dayMap -> 1 <= w <= 7.
Proof.
  unfold dayMap. cbn [In].
  intros [H | [H | [H | [H | [H | [H | [H | []]]]]]]];
    injection H as <- <-; lia.
Qed.

Lemma week_has_day (d w : Z) :
  1 <= w <= 7 -> exists j, 0 <= j < 7 /\ weekdayOfDay (d + j) = w.
Proof.
  intros Hw. exists ((w - 1 - (d + 3)) mod 7). unfold weekdayOfDay.
  split; Z.div_mod_to_equations; lia.
Qed.

Section Governed.

Variables (abbr : string) (w : Z).
Hypothesis Hmap : In (abbr, w) dayMap.
Hypothesis Hgov : In abbr days.

(** The first day from which the deadline of weekday [w] is always after
    [now]. *)
Let horizon : Z :=
  (now + offsetOf L tz * msPerMinute) / msPerDay
  + offsetOr2 (mapGet abbr offsets) + 1.

Lemma cand_accept (d : Z) :
  weekdayOfDay d = w -> horizon <= d -> exists o, cand d = Some o.
Proof.
  intros Hw Hd. subst cand. unfold specCandidate.
  rewrite Hw, (dayAbbrOf_dayMap _ _ Hmap).
  apply existsb_eqb_In in Hgov. rewrite Hgov.
  cbv zeta.
  match goal with
  | |- context [gtDT ?x ?y] =>
      assert (E : gtDT x y = true); [|rewrite E; eauto]
  end.
  unfold gtDT, ltDT, ofLocal, valueOf. apply Z.ltb_lt.
  subst horizon. unfold msPerDay, msPerHour, msPerMinute in *.
  Z.div_mod_to_equations. lia.
Qed.

Lemma walk_week (d : Z) : horizon <= d -> (1 <= List.length (walk d 7))%nat.
Proof.
  intros Hd.
  destruct (week_has_day d w (dayMap_range _ _ Hmap)) as (j & Hj & Hw).
  destruct (cand_accept (d + j) Hw ltac:(lia)) as [o Ho].
  replace 7%nat with (Z.to_nat j + S (6 - Z.to_nat j))%nat by lia.
  rewrite walk_app, length_app. subst walk. cbn [specWalk].
  rewrite Z2Nat.id by lia. fold cand. rewrite Ho. cbn. lia.
Qed.

Lemma walk_weeks (m : nat) (d : Z) :
  horizon <= d -> (m <= List.length (walk d (7 * m)))%nat.
Proof.
  revert d. induction m as [|m IH]; intros d Hd; [lia|].
  replace (7 * S m)%nat with (7 + 7 * m)%nat by lia.
  rewrite walk_app, length_app.
  pose proof (walk_week d Hd). specialize (IH (d + Z.of_nat 7) ltac:(lia)).
  lia.
Qed.

(** With a governed weekday the walk from any day meets five accepted
    candidates. *)
Lemma walk_reaches_five (d : Z) :
  exists n, (5 <= List.length (walk d n))%nat.
Proof.
  exists (Z.to_nat (Z.max 0 (horizon - d)) + 7 * 5)%nat.
  rewrite walk_app, length_app.
  pose proof (walk_weeks 5 (d + Z.of_nat (Z.to_nat (Z.max 0 (horizon - d))))
                ltac:(lia)).
  lia.
Qed.

Lemma whileCount_terminates (d : Z) :
  exists fuel st',
    whileCount L fuel tz days offsets nowTz (atDay L tz d 0 []) = Some st'.
Proof.
  destruct (walk_reaches_five d) as [n Hn]. exists n.
  apply whileCount_enough. rewrite iterBody_walk. cbn [atDay count]. lia.
Qed.

End Governed.

End ProjectorLoop.

Section ProjectorRun.

Variable L : Luxon.
Variable now : Z.

Lemma startOfDay_DT (ts : Z) (z : string) :
  startOfDay L (DT ts z) = ofLocal L (localMillis L ts z / msPerDay * msPerDay) z.
Proof.
  unfold startOfDay. f_equal. unfold msPerDay.
  Z.div_mod_to_equations. lia.
Qed.

Lemma maxDT_days (a b : Z) (z : string) :
  maxDT (ofLocal L (a * msPerDay) z) (ofLocal L (b * msPerDay) z)
  = ofLocal L (Z.max a b * msPerDay) z.
Proof.
  unfold maxDT, ofLocal, valueOf, msPerDay.
  destruct (Z.leb_spec (b * 86400000 - offsetOf L z * msPerMinute)
              (a * 86400000 - offsetOf L z * msPerMinute));
    f_equal; lia.
Qed.

(** With a valid start on the first event the loop is entered at the start
    of [startDay], with nothing accepted. *)
Lemma loopEntry_atDay (first : ParsedEvent) (rest : list ParsedEvent)
  (ts0 : Z) :
  dateTime (start first) = Some ts0 ->
  exists d0,
    startDay L now first = Some d0 /\
    loopEntry L now (first :: rest)
    = Normal (timeZone (start first),
              fst (fold_left collectDay (first :: rest) ([], [])),
              snd (fold_left collectDay (first :: rest) ([], [])),
              DT now (timeZone (start first)),
              atDay L (timeZone (start first)) d0 0 []).
Proof.
  intros H. unfold startDay, loopEntry. rewrite H. eexists.
  split; [reflexivity|]. cbn [fromISO setZone nowDT].
  rewrite !startOfDay_DT, maxDT_days. reflexivity.
Qed.

Lemma specCandidate_some (tz : string) (days : list string)
  (offsets : JSMap Z) (d : Z) (o : Occ.t) :
  specCandidate L now tz days offsets d = Some o ->
  dayNumber L (Occ.runDate o) = Some d /\
  hour L (Occ.runDate o) = Some 12 /\
  minute L (Occ.runDate o) = Some 0 /\
  second L (Occ.runDate o) = Some 0 /\
  millisecond L (Occ.runDate o) = Some 0 /\
  zoneOf (Occ.runDate o) = Some tz /\
  (exists abbr,
      dayAbbrOf (Some (weekdayOfDay d)) = Some abbr /\ In abbr days /\
      Occ.deadlineOffset o = offsetOr2 (mapGet abbr offsets)) /\
  Occ.submissionDate o = minusDays L (Occ.deadlineOffset o) (Occ.runDate o) /\
  (Occ.deadlineOffset o = 0 -> Occ.submissionDate o = Occ.runDate o) /\
  gtDT (Occ.submissionDate o) (DT now tz) = true.
Proof.
  unfold specCandidate.
  destruct (dayAbbrOf (Some (weekdayOfDay d))) as [abbr|]; [|discriminate].
  destruct (existsb (String.eqb abbr) days) eqn:Eg; [|discriminate].
  apply existsb_eqb_In in Eg. cbv zeta.
  match goal with
  | |- context [gtDT ?x ?y] => destruct (gtDT x y) eqn:Egt
  end; [|discriminate].
  intros H. injection H as <-.
  cbn [Occ.runDate Occ.submissionDate Occ.deadlineOffset].
  unfold dayNumber, hour, minute, second, millisecond.
  rewrite localOf_ofLocal. cbn [option_map].
  assert (Hminus : ofLocal L (d * msPerDay + 12 * msPerHour
                              - offsetOr2 (mapGet abbr offsets) * msPerDay) tz
                   = minusDays L (offsetOr2 (mapGet abbr offsets))
                       (ofLocal L (d * msPerDay + 12 * msPerHour) tz)).
  { unfold minusDays. rewrite plusDays_ofLocal. f_equal. lia. }
  split; [|split; [|split; [|split; [|split; [|split; [|split;
    [|split; [|split]]]]]]]].
  1-5: f_equal; unfold msPerDay, msPerHour, msPerMinute;
       Z.div_mod_to_equations; lia.
  - reflexivity.
  - exists abbr. auto.
  - exact Hminus.
  - intros E. rewrite E. f_equal. lia.
  - exact Egt.
Qed.

Lemma specCandidate_none (tz : string) (days : list string)
  (offsets : JSMap Z) (d : Z) (abbr : string) :
  dayAbbrOf (Some (weekdayOfDay d)) = Some abbr -> In abbr days ->
  (specCandidate L now tz days offsets d = None <->
   gtDT (minusDays L (offsetOr2 (mapGet abbr offsets))
           (ofLocal L (d * msPerDay + 12 * msPerHour) tz))
        (DT now tz) = false).
Proof.
  intros Ha Hg. apply existsb_eqb_In in Hg.
  unfold specCandidate. rewrite Ha, Hg. cbv zeta.
  unfold minusDays. rewrite plusDays_ofLocal.
  replace (d * msPerDay + 12 * msPerHour
           + - offsetOr2 (mapGet abbr offsets) * msPerDay)
    with (d * msPerDay + 12 * msPerHour
          - offsetOr2 (mapGet abbr offsets) * msPerDay) by lia.
  match goal with
  | |- context [gtDT ?x ?y] => destruct (gtDT x y)
  end; split; congruence.
Qed.


(** Without any governed weekday an iteration leaves [count] as it is. *)
Lemma loopBody_count_no_days tz offsets nowTz st :
  count (loopBody L tz [] offsets nowTz st) = count st.
Proof.
  unfold loopBody.
  destruct (dayAbbrOf (weekday L (currentDate st))); reflexivity.
Qed.

Lemma whileCount_no_days fuel tz offsets nowTz st :
  count st < 5 -> whileCount L fuel tz [] offsets nowTz st = None.
Proof.
  revert st. induction fuel as [|fuel IH]; intros st Hc; cbn [whileCount];
    destruct (Z.ltb_spec (count st) 5); try lia; [reflexivity|].
  apply IH. now rewrite loopBody_count_no_days.
Qed.

Lemma collectDay_no_recurrence (events : list ParsedEvent)
  (acc : list string * JSMap Z) :
  Forall (fun e => recurrence e = None) events ->
  fold_left collectDay events acc = acc.
Proof.
  intros H. revert acc. induction H as [|e events He _ IH]; intros acc;
    [reflexivity|].
  cbn [fold_left]. unfold collectDay at 2. rewrite He. apply IH.
Qed.

(** C1 fails on the code. When no event carries a recurrence, as is the
    case of the one-time events the resolver stores, no weekday is
    governed and the loop of the projector never ends: whatever the number
    of iterations allowed, it is still running. There is no bound on the
    days walked. *)
Theorem projector_runs_forever_without_recurrence :
  forall first rest fuel,
    Forall (fun e => recurrence e = None) (first :: rest) ->
    generateNext5FromEvents L now fuel (first :: rest) = None.
Proof.
  intros first rest fuel H. unfold generateNext5FromEvents, loopEntry.
  rewrite (collectDay_no_recurrence _ _ H). cbn [fst snd].
  rewrite whileCount_no_days; [reflexivity|]. cbn. lia.
Qed.

End ProjectorRun.

(** ** A block without a start (C9) *)

(** A record without [startDate] makes [processEvent] raise, whatever
    else it holds. *)
Lemma processEvent_without_start :
  forall L e rawRrule isRec today m src sid,
    Raw.startDate e = None ->
    processEvent L e rawRrule isRec today m src sid
    = Throw (TypeError "Cannot read properties of undefined (reading 'hour')").
Proof. intros. unfold processEvent. now rewrite H. Qed.

(** The exception leaves the scanning loop: the lines after the block are
    not read. *)
Lemma parseLines_aborts_on_block_without_start :
  forall L now rruleMap today src sid st e rest,
    currentEvent st = Some e -> inEvent st = true ->
    Raw.hasKeys e = true -> Raw.startDate e = None ->
    parseLines L now rruleMap today src sid ("END:VEVENT" :: rest) st
    = Throw (TypeError "Cannot read properties of undefined (reading 'hour')").
Proof.
  intros L now rruleMap today src sid st e rest Hc Hin Hk Hs.
  cbn [parseLines]. unfold parseLine. cbn [String.eqb Ascii.eqb Bool.eqb].
  rewrite Hin, Hc, Hk. cbn [andb]. unfold finishEvent. rewrite Hs.
  rewrite processEvent_without_start by exact Hs. reflexivity.
Qed.

(** C9 fails on the code. A block that has a property but no DTSTART line
    aborts the whole parse: [parseIcsContent] raises a [TypeError] and
    returns no list, whatever the zone table, the clock and the source
    URL. *)
Theorem block_without_dtstart_aborts_parse :
  forall L now sessionId sourceUrl,
    parseIcsContent L now sessionId
      (text ["BEGIN:VEVENT"; "SUMMARY:x"; "END:VEVENT"]) sourceUrl
    = Throw (TypeError "Cannot read properties of undefined (reading 'hour')").
Proof. intros. reflexivity. Qed.

(** ** Concrete instances *)

(** C1, on a calendar whose only event is a one-time event in 2030: the
    resolver stores it without a recurrence, and the projector then never
    returns. *)
Lemma projector_runs_forever_on_one_time_event :
  parseIcsContent sampleLuxon sampleNow "session"
    (text ["BEGIN:VEVENT"; "UID:pub--2"; "DTSTART:20300106T120000Z";
           "END:VEVENT"]) ""
  = Normal [sampleOneTime 1893931200000 "UTC"] /\
  forall fuel,
    generateNext5FromEvents sampleLuxon sampleNow fuel
      [sampleOneTime 1893931200000 "UTC"] = None.
Proof.
  split; [vm_compute; reflexivity|].
  intros fuel.
  apply (projector_runs_forever_without_recurrence sampleLuxon sampleNow).
  repeat constructor.
Defined.





(** C6 on the rule [FREQ=WEEKLY;BYDAY=MO,WE,FR], in an empty map. *)
Lemma one_event_per_listed_weekday_witness :
  settledTimes sampleLuxon sampleRecord true sampleToday
  = Normal (DT 1737367200000 "UTC", DT 1737370800000 "UTC") /\
  exists m',
    processEvent sampleLuxon sampleRecord (Some "FREQ=WEEKLY;BYDAY=MO,WE,FR")
      true sampleToday [] "" "session" = Normal m' /\
    map recurrence (mapValues m')
    = [Some ["RRULE:FREQ=WEEKLY;BYDAY=MO"]; Some ["RRULE:FREQ=WEEKLY;BYDAY=WE"];
       Some ["RRULE:FREQ=WEEKLY;BYDAY=FR"]].
Proof.
  split; [reflexivity|].
  destruct (one_event_per_listed_weekday sampleLuxon sampleRecord
              (Some "FREQ=WEEKLY;BYDAY=MO,WE,FR") sampleToday [] "" "session"
              (DT 1737367200000 "UTC") (DT 1737370800000 "UTC") eq_refl
              (fun k _ => eq_refl))
    as (m' & H1 & H2 & _ & _ & _ & _ & H3 & _).
  exists m'. split; [exact H1|]. rewrite H2, (H3 eq_refl). reflexivity.
Defined.



(** C10 on the line [X-PUB-DEADLINE-OFFSET:soon]. *)
Lemma deadline_offset_unparsable_is_0_witness :
  JS.parseInt "soon" = None /\
  exists m',
    processEvent sampleLuxon
      (assignProperty sampleLuxon sampleNow "X-PUB-DEADLINE-OFFSET:soon"
         "X-PUB-DEADLINE-OFFSET" "soon" sampleRecord)
      None false sampleToday [] "" "session" = Normal m' /\
    appended (fun v => deadlineOffset v = Some 0 /\ deadlineOffset v <> Some 2)
      [] m'.
Proof.
  split; [reflexivity|]. eexists. split; [reflexivity|].
  exact (proj2 (deadline_offset_unparsable_is_0 sampleLuxon sampleNow
                  sampleRecord "X-PUB-DEADLINE-OFFSET:soon" "soon" None false
                  sampleToday [] "" "session" _ eq_refl eq_refl)).
Defined.

(** ** Runs of the parser on calendar text *)

(** A weekly rule for three weekdays gives three events, one per weekday,
    with the default offset. *)
Example parse_expands_weekdays :
  option_map
    (map (fun v => (summary v, recurrence v, deadlineOffset v)))
    (match parseIcsContent sampleLuxon sampleNow "session"
             (text (weeklyBlock "Run" [])) "" with
     | Normal events => Some events
     | Throw _ => None
     end)
  = Some [("Run", Some ["RRULE:FREQ=WEEKLY;BYDAY=MO"], Some 2);
          ("Run", Some ["RRULE:FREQ=WEEKLY;BYDAY=WE"], Some 2);
          ("Run", Some ["RRULE:FREQ=WEEKLY;BYDAY=FR"], Some 2)].
Proof. vm_compute. reflexivity. Qed.

(** The same block a second time, with another summary, adds nothing. *)
Example parse_keeps_first_record :
  parseIcsContent sampleLuxon sampleNow "session"
    (text (weeklyBlock "Run" [] ++ weeklyBlock "Other" [])%list) ""
  = parseIcsContent sampleLuxon sampleNow "session"
      (text (weeklyBlock "Run" [])) "".
Proof. vm_compute. reflexivity. Qed.

(** An explicit offset of 0 is stored as 0, and so is one that is not a
    number. *)
Example parse_reads_offset :
  (match parseIcsContent sampleLuxon sampleNow "session"
           (text (weeklyBlock "Run" ["X-PUB-DEADLINE-OFFSET:0"])) "" with
   | Normal events => map deadlineOffset events
   | Throw _ => []
   end = [Some 0; Some 0; Some 0]) /\
  (match parseIcsContent sampleLuxon sampleNow "session"
           (text (weeklyBlock "Run" ["X-PUB-DEADLINE-OFFSET:soon"])) "" with
   | Normal events => map deadlineOffset events
   | Throw _ => []
   end = [Some 0; Some 0; Some 0]).
Proof. split; vm_compute; reflexivity. Qed.

(** A one-time event that started before today is left out. *)
Example parse_drops_past_one_time_event :
  parseIcsContent sampleLuxon sampleNow "session"
    (text ["BEGIN:VEVENT"; "UID:pub--3"; "DTSTART:20250106T120000Z";
           "END:VEVENT"]) ""
  = Normal [].
Proof. vm_compute. reflexivity. Qed.

(** The events of a Monday and Wednesday rule with offset 2, projected on
    Monday 2025-01-13 at 10:00 UTC: the resolver has moved the start to that
    Monday, whose deadline is past; the walk goes on to Wednesday. *)
Example project_skips_closed_window :
  match parseIcsContent sampleLuxon sampleNow "session"
          (text ["BEGIN:VEVENT"; "UID:pub--1";
                 "DTSTART;TZID=America/New_York:20250106T120000";
                 "RRULE:FREQ=WEEKLY;BYDAY=MO,WE"; "END:VEVENT"]) "" with
  | Normal events =>
      option_map
        (fun r => match r with
                  | Normal dates =>
                      map (fun o => (dayNumber sampleLuxon (Occ.runDate o),
                                     dayNumber sampleLuxon
                                       (Occ.submissionDate o))) dates
                  | Throw _ => []
                  end)
        (generateNext5FromEvents sampleLuxon sampleNow 40 events)
  | Throw _ => None
  end
  = Some [(Some 20103, Some 20101); (Some 20108, Some 20106);
          (Some 20110, Some 20108); (Some 20115, Some 20113);
          (Some 20117, Some 20115)].
Proof. vm_compute. reflexivity. Qed.

(** * Further properties of the code *)

(** ** The scanning loop of [parseIcsContent] *)

Section Scan.

Variable L : Luxon.
Variable now : Z.
Variables (rruleMap : JSMap string) (today : DateTime) (src sid : string).

Let step := parseLine L now rruleMap today src sid.
Let scan := parseLines L now rruleMap today src sid.
Let finish := finishEvent L rruleMap today src sid.

(** A line either ends a block that has properties, or leaves the map and
    the counters as they are. *)
Lemma parseLine_cases st line st' :
  step st line = Normal st' ->
  (exists e, currentEvent st = Some e /\ finish e st = Normal st') \/
  (eventsByDayPattern st' = eventsByDayPattern st /\
   totalProcessed st' = totalProcessed st /\
   futureEvents st' = futureEvents st /\
   pastEvents st' = pastEvents st).
Proof.
  unfold step, parseLine.
  destruct (String.eqb line "BEGIN:VEVENT");
    [intros H; injection H as <-; right; auto|].
  destruct (String.eqb line "END:VEVENT" && inEvent st).
  - destruct (currentEvent st) as [e|];
      [|intros H; injection H as <-; right; auto].
    destruct (Raw.hasKeys e); [|intros H; injection H as <-; right; auto].
    intros H. left. exists e. auto.
  - destruct (inEvent st && JS.includes ":" line);
      [|intros H; injection H as <-; right; auto].
    destruct (JS.indexOf ":" line); [|discriminate].
    destruct (currentEvent st); [|discriminate].
    intros H. injection H as <-. right. auto.
Qed.

(** The end of a block: a one-time record that starts before today is
    counted as past and dropped; any other record is handed to
    [processEvent] and counted as future. *)
Lemma finishEvent_cases e st st' :
  finish e st = Normal st' ->
  let rawRrule := rawRruleOf rruleMap e in
  let isRec := JS.truthy rawRrule || JS.truthy (Raw.rrule e) in
  let today' :=
    setZone (JS.orElse (Raw.startTimezone e) defaultZone) today in
  totalProcessed st' = totalProcessed st + 1 /\
  ((eventsByDayPattern st' = eventsByDayPattern st /\
    futureEvents st' = futureEvents st /\
    pastEvents st' = pastEvents st + 1)
   \/
   (processEvent L e rawRrule isRec today (eventsByDayPattern st) src sid
    = Normal (eventsByDayPattern st') /\
    futureEvents st' = futureEvents st + 1 /\
    pastEvents st' = pastEvents st /\
    (isRec = false ->
     forall s, Raw.startDate e = Some s -> ltDT s today' = false))).
Proof.
  unfold finish, finishEvent. cbv zeta.
  set (isRec := JS.truthy (rawRruleOf rruleMap e) || JS.truthy (Raw.rrule e)).
  destruct (Raw.startDate e) as [s|] eqn:Es.
  - destruct (negb isRec && ltDT s _) eqn:Ep.
    + intros H. injection H as <-. cbn. split; [reflexivity|]. left. auto.
    + destruct (processEvent L e _ isRec today _ src sid) as [m|err] eqn:E;
        [|discriminate].
      cbn [bind]. intros H. injection H as <-. cbn.
      split; [reflexivity|]. right. split; [reflexivity|].
      split; [reflexivity|]. split; [reflexivity|].
      intros Hr s' Hs'. injection Hs' as <-. rewrite Hr in Ep. exact Ep.
  - destruct (processEvent L e _ isRec today _ src sid) as [m|err] eqn:E;
      [|discriminate].
    cbn [bind]. intros H. injection H as <-. cbn.
    split; [reflexivity|]. right. split; [reflexivity|].
    split; [reflexivity|]. split; [reflexivity|]. discriminate.
Qed.

(** What holds of the values a block adds holds of all the values the scan
    adds. *)
Lemma scan_values (P : ParsedEvent -> Prop) :
  (forall e st st',
      finish e st = Normal st' ->
      appended P (eventsByDayPattern st) (eventsByDayPattern st')) ->
  forall lines st st',
    scan lines st = Normal st' ->
    appended P (eventsByDayPattern st) (eventsByDayPattern st').
Proof.
  intros Hfin. unfold scan. induction lines as [|line rest IH]; intros st st';
    cbn [parseLines].
  - intros H. injection H as <-. apply appended_refl.
  - destruct (parseLine L now rruleMap today src sid st line) as [st1|err]
      eqn:E; [|discriminate].
    cbn [bind]. intros H. eapply appended_trans; [|exact (IH _ _ H)].
    destruct (parseLine_cases _ _ _ E) as [(e & _ & Hf) | (Hm & _)].
    + exact (Hfin _ _ _ Hf).
    + rewrite Hm. apply appended_refl.
Qed.

Lemma addDayEvents_values (P : ParsedEvent -> Prop) e esrc tz s en baseUid
  timeKey days m :
  (forall d, In d dayNames -> P (weeklyEvent e esrc sid tz s en d)) ->
  appended P m (addDayEvents e esrc sid tz s en baseUid timeKey days m).
Proof.
  intros HP. revert m. induction days as [|day rest IH]; intros m;
    cbn [addDayEvents]; [apply appended_refl|].
  destruct (dayIndexOf day) as [idx|] eqn:Ei; [|apply IH].
  destruct (mapHas _ m) eqn:Eh; cbn [negb]; [apply IH|].
  eapply appended_trans; [|apply IH].
  apply appended_set; [exact Eh|].
  destruct day as [d|]; [|discriminate]. cbn [dayIndexOf] in Ei.
  cbn [JS.show]. apply HP. apply indexOfName_In. congruence.
Qed.

Lemma processEvent_values (P : ParsedEvent -> Prop) e rawRrule isRec m m' :
  processEvent L e rawRrule isRec today m src sid = Normal m' ->
  (forall s en,
      settledTimes L e isRec today = Normal (s, en) ->
      let tz := JS.orElse (Raw.startTimezone e) defaultZone in
      (isRec = true ->
       forall d, In d dayNames ->
                 P (weeklyEvent e (eventSourceOf e src) sid tz s en d)) /\
      (isRec = false ->
       P (mkParsedEvent e (eventSourceOf e src) sid tz s en None false))) ->
  appended P m m'.
Proof.
  rewrite processEvent_settled.
  destruct (settledTimes L e isRec today) as [[s en]|err]; [|discriminate].
  intros H HP. destruct (HP s en eq_refl) as [Hrec Hone]. cbv zeta in H.
  destruct isRec.
  - injection H as <-. apply addDayEvents_values. now apply Hrec.
  - destruct (mapHas _ m) eqn:Eh; cbn [negb] in H; injection H as <-.
    + apply appended_refl.
    + apply appended_set; [exact Eh|]. now apply Hone.
Qed.

End Scan.

(** ** Blocks, counters and the number of events *)

Section Counts.

Variable L : Luxon.
Variable now : Z.
Variables (rruleMap : JSMap string) (today : DateTime) (src sid : string).

Let scan := parseLines L now rruleMap today src sid.

(** A recurring record adds at most one event per weekday name. *)
Lemma addDayEvents_at_most_seven e esrc tz s en days m :
  (List.length
     (addDayEvents e esrc sid tz s en (baseUidOf (Raw.uid e))
        (timeKeyOf L s) days m)
   <= List.length m + 7)%nat.
Proof.
  set (key := fun d =>
         dayPatternKey (baseUidOf (Raw.uid e))
           (match indexOfName dayNames d with Some i => i | None => 0 end)
           (timeKeyOf L s)).
  set (seen := filter (fun d => mapHas (key d) m) dayNames).
  rewrite (addDayEvents_listed L e esrc sid tz s en days seen m).
  - rewrite length_app, length_map.
    destruct (listedDays_spec days seen) as [Hnd Hin].
    assert (Hincl : incl (listedDays seen days) dayNames).
    { intros d Hd. apply Hin in Hd. tauto. }
    pose proof (NoDup_incl_length Hnd Hincl) as Hlen.
    change (List.length dayNames) with 7%nat in Hlen. lia.
  - intros d i _ Hi.
    assert (Ek : dayPatternKey (baseUidOf (Raw.uid e)) i (timeKeyOf L s)
                 = key d) by (unfold key; now rewrite Hi).
    rewrite Ek. destruct (mapHas (key d) m) eqn:Eh; symmetry.
    + apply existsb_eqb_In. apply filter_In. split; [|exact Eh].
      apply indexOfName_In. congruence.
    + apply not_true_is_false. intros H. apply existsb_eqb_In in H.
      apply filter_In in H as [_ H]. congruence.
Qed.

Lemma processEvent_at_most_seven e rawRrule isRec m m' :
  processEvent L e rawRrule isRec today m src sid = Normal m' ->
  (List.length m' <= List.length m + 7)%nat.
Proof.
  rewrite processEvent_settled.
  destruct (settledTimes L e isRec today) as [[s en]|err]; [|discriminate].
  cbv zeta. destruct isRec.
  - intros H. injection H as <-. apply addDayEvents_at_most_seven.
  - destruct (mapHas _ m) eqn:Eh; cbn [negb]; intros H; injection H as <-;
      [lia|].
    rewrite mapSet_absent by exact Eh. rewrite length_app. cbn. lia.
Qed.

(** The invariant of the counters. *)
Let counted (st : ParseState) : Prop :=
  totalProcessed st = futureEvents st + pastEvents st /\
  0 <= pastEvents st /\
  Z.of_nat (List.length (eventsByDayPattern st)) <= 7 * futureEvents st.

Lemma parseLine_counted st line st' :
  parseLine L now rruleMap today src sid st line = Normal st' ->
  counted st -> counted st'.
Proof.
  intros H (Ht & Hp & Hl).
  destruct (parseLine_cases _ _ _ _ _ _ _ _ _ H)
    as [(e & _ & Hf) | (Em & Et & Ef & Ep)].
  - destruct (finishEvent_cases _ _ _ _ _ _ _ _ Hf)
      as (Et & [(Em & Ef & Ep) | (Epr & Ef & Ep & _)]).
    + unfold counted. rewrite Em, Et, Ef, Ep. lia.
    + apply processEvent_at_most_seven in Epr.
      unfold counted. rewrite Et, Ef, Ep. lia.
  - unfold counted. rewrite Em, Et, Ef, Ep. auto.
Qed.

Lemma parseLines_counted lines st st' :
  scan lines st = Normal st' -> counted st -> counted st'.
Proof.
  unfold scan. revert st. induction lines as [|line rest IH]; intros st;
    cbn [parseLines].
  - intros H. now injection H as <-.
  - destruct (parseLine L now rruleMap today src sid st line) as [st1|err]
      eqn:E; [|discriminate].
    cbn [bind]. intros H Hc. apply (IH _ H).
    eapply parseLine_counted; [exact E|exact Hc].
Qed.

Lemma scan_counts lines st :
  scan lines initialState = Normal st ->
  totalProcessed st = futureEvents st + pastEvents st /\
  0 <= pastEvents st /\
  Z.of_nat (List.length (mapValues (eventsByDayPattern st)))
  <= 7 * futureEvents st.
Proof.
  intros H. apply parseLines_counted in H.
  - unfold mapValues. rewrite length_map. exact H.
  - unfold counted. cbn. lia.
Qed.

(** Outside a block only a line equal to BEGIN:VEVENT is acted upon. *)
Lemma parseLines_skip pre rest st :
  Forall (fun line => line <> "BEGIN:VEVENT") pre -> inEvent st = false ->
  scan (pre ++ rest)%list st = scan rest st.
Proof.
  unfold scan. intros Hpre Hin. induction Hpre as [|line pre Hline _ IH];
    [reflexivity|].
  cbn [app parseLines]. unfold parseLine.
  apply String.eqb_neq in Hline. rewrite Hline, Hin, andb_false_r.
  cbn [andb bind]. exact IH.
Qed.

End Counts.

(** The parser returns what the scanning loop has stored. *)
Lemma parseIcsContent_scan L now sid icsContent sourceUrl events :
  parseIcsContent L now sid icsContent sourceUrl = Normal events ->
  exists st,
    parseLines L now (buildRruleMap icsContent) (startOfDay L (nowDT L now))
      (sourceNameOf sourceUrl) sid
      (map JS.trim (JS.split newline icsContent)) initialState = Normal st /\
    events = mapValues (eventsByDayPattern st).
Proof.
  unfold parseIcsContent. cbv zeta. fold newline.
  destruct (parseLines _ _ _ _ _ _ _ _) as [st|err]; [|discriminate].
  cbn [bind]. intros H. injection H as <-. exists st. auto.
Qed.

(** Every finished block that has a property is counted once, as past or
    as future, and a future block contributes at most seven events: when
    [parseIcsContent] returns, the counters of its scan satisfy
    [totalProcessed = futureEvents + pastEvents] and the list returned has
    at most [7 * futureEvents] elements. *)
Theorem parse_counts_every_block_once :
  forall L now sid icsContent sourceUrl events,
    parseIcsContent L now sid icsContent sourceUrl = Normal events ->
    exists st,
      parseLines L now (buildRruleMap icsContent)
        (startOfDay L (nowDT L now)) (sourceNameOf sourceUrl) sid
        (map JS.trim (JS.split newline icsContent)) initialState
      = Normal st /\
      events = mapValues (eventsByDayPattern st) /\
      totalProcessed st = futureEvents st + pastEvents st /\
      0 <= pastEvents st /\
      Z.of_nat (List.length events) <= 7 * futureEvents st.
Proof.
  intros L now sid icsContent sourceUrl events H.
  destruct (parseIcsContent_scan _ _ _ _ _ _ H) as (st & Hst & ->).
  exists st. split; [exact Hst|]. split; [reflexivity|].
  eapply scan_counts. exact Hst.
Qed.


(** ** One-time records *)

(** A record that is not recurring (no rule of its own and none in the side
    table) and has a start is dropped, and counted as past, exactly when
    its start is before today; otherwise it is stored once, under the key
    of its UID and start instant, with the start and end it was given: a
    one-time event is never moved. *)
Theorem one_time_record_dropped_or_kept_unmoved :
  forall L rruleMap today src sid e s st,
    Raw.startDate e = Some s ->
    JS.truthy (rawRruleOf rruleMap e) = false ->
    JS.truthy (Raw.rrule e) = false ->
    let tz := JS.orElse (Raw.startTimezone e) defaultZone in
    let key := oneTimeKeyOf (Raw.uid e) s in
    let en := match Raw.endDate e with Some d => d | None => s end in
    let stored := mkParsedEvent e (eventSourceOf e src) sid tz s en None false in
    finishEvent L rruleMap today src sid e st
    = Normal
        (if ltDT s (setZone tz today) then
           {| currentEvent := None; inEvent := false;
              eventsByDayPattern := eventsByDayPattern st;
              totalProcessed := totalProcessed st + 1;
              futureEvents := futureEvents st;
              pastEvents := pastEvents st + 1 |}
         else
           {| currentEvent := None; inEvent := false;
              eventsByDayPattern :=
                if mapHas key (eventsByDayPattern st)
                then eventsByDayPattern st
                else (eventsByDayPattern st ++ [(key, stored)])%list;
              totalProcessed := totalProcessed st + 1;
              futureEvents := futureEvents st + 1;
              pastEvents := pastEvents st |}) /\
    dateTime (start stored) = toISO s /\
    dateTime (end_ stored) = toISO en /\
    recurrence stored = None.
Proof.
  intros L rruleMap today src sid e s st Hs Hraw Hrule tz key en stored.
  split; [|repeat split].
  unfold finishEvent. rewrite Hs, Hraw, Hrule. cbn [orb negb andb].
  fold tz. destruct (ltDT s (setZone tz today)) eqn:El; [reflexivity|].
  rewrite processEvent_settled. unfold settledTimes. rewrite Hs.
  unfold adjustToFuture. cbn [andb]. cbv zeta. fold tz en key stored.
  destruct (mapHas key (eventsByDayPattern st)) eqn:Eh; cbn [negb bind];
    [reflexivity|].
  now rewrite mapSet_absent by exact Eh.
Qed.

(** ** What the parser returns *)

Section Stored.

Variable L : Luxon.
Variable now : Z.

Lemma orElse_default_nonempty (x : option string) (d : string) :
  d <> "" -> JS.orElse x d <> "".
Proof. intros Hd. destruct x as [[|c s]|]; cbn; auto; discriminate. Qed.

Lemma weekly_shaped e esrc sid tz s en d :
  In d dayNames -> resolverShaped (weeklyEvent e esrc sid tz s en d).
Proof. intros Hd. left. split; [reflexivity|]. exists d. auto. Qed.

(** What holds of every value [processEvent] can build holds of every
    event the parser returns. *)
Lemma parseIcsContent_values (P : ParsedEvent -> Prop) sid icsContent
  sourceUrl events :
  (forall e esrc tz s en,
      tz <> "" ->
      (forall d, In d dayNames -> P (weeklyEvent e esrc sid tz s en d)) /\
      P (mkParsedEvent e esrc sid tz s en None false)) ->
  parseIcsContent L now sid icsContent sourceUrl = Normal events ->
  Forall P events.
Proof.
  intros HP H.
  destruct (parseIcsContent_scan _ _ _ _ _ _ H) as (st & Hst & ->).
  apply (scan_values L now _ _ _ _ P) in Hst.
  - destruct Hst as (added & -> & Hall). cbn [initialState eventsByDayPattern
      app]. unfold mapValues. apply Forall_map. exact Hall.
  - intros e st0 st1 Hf.
    destruct (finishEvent_cases _ _ _ _ _ _ _ _ Hf)
      as (_ & [(Em & _) | (Epr & _)]).
    + rewrite Em. apply appended_refl.
    + eapply processEvent_values; [exact Epr|].
      intros s en _ tz.
      destruct (HP e (eventSourceOf e (sourceNameOf sourceUrl)) tz s en)
        as [Hweekly Hone];
        [apply orElse_default_nonempty; discriminate|]. auto.
Qed.

Lemma parseIcsContent_shaped sid icsContent sourceUrl events :
  parseIcsContent L now sid icsContent sourceUrl = Normal events ->
  Forall resolverShaped events.
Proof.
  apply parseIcsContent_values. intros e esrc tz s en _. split.
  - intros d Hd. now apply weekly_shaped.
  - right. auto.
Qed.

Lemma parseIcsContent_session sid icsContent sourceUrl events :
  parseIcsContent L now sid icsContent sourceUrl = Normal events ->
  Forall (fun v => sessionId v = sid) events.
Proof.
  apply parseIcsContent_values. intros e esrc tz s en _. split; auto.
Qed.

(** Every event of the list [parseIcsContent] returns is a weekly event on
    one weekday that [dayNames] knows or a one-time event without a
    recurrence; its summary and the zone of its start are not empty, it
    carries a deadline offset and the session label of the call. *)
Theorem parsed_events_are_weekly_or_one_time :
  forall sid icsContent sourceUrl events,
    parseIcsContent L now sid icsContent sourceUrl = Normal events ->
    Forall (fun v =>
              resolverShaped v /\ summary v <> "" /\
              timeZone (start v) <> "" /\
              (exists n, deadlineOffset v = Some n) /\
              dateTime (start v) = startDate v /\
              sessionId v = sid) events.
Proof.
  intros sid icsContent sourceUrl events.
  apply parseIcsContent_values. intros e esrc tz s en Htz.
  assert (Hsum : JS.orElse (Raw.summary e) "Untitled Event" <> "")
    by (apply orElse_default_nonempty; discriminate).
  split.
  - intros d Hd. split; [now apply weekly_shaped|].
    split; [exact Hsum|]. split; [exact Htz|].
    split; [eexists; reflexivity|]. auto.
  - split; [right; auto|].
    split; [exact Hsum|]. split; [exact Htz|].
    split; [eexists; reflexivity|]. auto.
Qed.

Lemma ltDT_valueOf (a a' b b' : DateTime) :
  valueOf a = valueOf a' -> valueOf b = valueOf b' -> ltDT a b = ltDT a' b'.
Proof. unfold ltDT. now intros -> ->. Qed.

Lemma valueOf_setZone (z : string) (dt : DateTime) :
  valueOf (setZone z dt) = valueOf dt.
Proof. now destruct dt. Qed.

Lemma valueOf_fromISO (dt : DateTime) :
  valueOf (fromISO L (toISO dt)) = valueOf dt.
Proof. now destruct dt. Qed.

(** The start a stale recurring record is moved to is after today. *)
Lemma nextOccurrence_after (s today : DateTime) :
  ltDT (nextOccurrence L s today) today = false.
Proof.
  unfold nextOccurrence.
  destruct s as [ts zs|]; [|reflexivity].
  destruct today as [t0 z|]; [|reflexivity].
  cbn [weekday dayNumber hour minute second localOf option_map].
  pose proof (daysToAdd_range
                (weekdayOfDay (localMillis L ts zs / msPerDay))
                (weekdayOfDay (localMillis L t0 z / msPerDay))
                (weekdayOfDay_range _) (weekdayOfDay_range _)) as Hk.
  pose proof (time_fields_range (localMillis L ts zs)) as (Hh & Hm & Hs & _).
  set (k := daysToAdd _ _) in *.
  set (h := localMillis L ts zs mod msPerDay / msPerHour) in *.
  set (mi := localMillis L ts zs mod msPerHour / msPerMinute) in *.
  set (se := localMillis L ts zs mod msPerMinute / 1000) in *.
  rewrite (DT_ofLocal L t0 z) at 1.
  rewrite plusDays_ofLocal, setHMS_ofLocal.
  unfold ltDT, ofLocal, valueOf. apply Z.ltb_ge.
  unfold localMillis, msPerDay, msPerHour, msPerMinute in *.
  Z.div_mod_to_equations. lia.
Qed.

(** A one-time record that starts before today is dropped, a recurring
    one is moved forward. *)
Lemma parseIcsContent_not_before sid icsContent sourceUrl events :
  parseIcsContent L now sid icsContent sourceUrl = Normal events ->
  Forall (fun v =>
            ltDT (fromISO L (dateTime (start v)))
              (startOfDay L (nowDT L now)) = false) events.
Proof.
  intros H.
  destruct (parseIcsContent_scan _ _ _ _ _ _ H) as (st & Hst & ->).
  set (today := startOfDay L (nowDT L now)) in *.
  match goal with |- Forall ?Q _ => set (P := Q) end.
  apply (scan_values L now _ _ _ _ P) in Hst.
  - destruct Hst as (added & -> & Hall). cbn [initialState eventsByDayPattern
      app]. unfold mapValues. apply Forall_map. exact Hall.
  - intros e st0 st1 Hf. subst P.
    destruct (finishEvent_cases _ _ _ _ _ _ _ _ Hf)
      as (_ & [(Em & _) | (Epr & _ & _ & Hone)]).
    + rewrite Em. apply appended_refl.
    + eapply processEvent_values; [exact Epr|].
      intros s en Hset tz. unfold settledTimes in Hset.
      destruct (Raw.startDate e) as [s0|] eqn:Es; [|discriminate].
      fold tz in Hset, Hone. unfold adjustToFuture in Hset.
      assert (Hkeep : ltDT s0 (setZone tz today) = false ->
                      ltDT (fromISO L (toISO s0)) today = false).
      { intros E. rewrite <- E. apply ltDT_valueOf;
          [apply valueOf_fromISO|symmetry; apply valueOf_setZone]. }
      split.
      * intros Hr d _. rewrite Hr in Hset. cbn [andb] in Hset.
        cbn [weeklyEvent mkParsedEvent start dateTime].
        destruct (ltDT s0 (setZone tz today)) eqn:El.
        -- destruct (plusDuration _ _) as [en'|err]; [|discriminate].
           cbn [bind] in Hset. injection Hset as <- _.
           rewrite (ltDT_valueOf _ (nextOccurrence L s0 (setZone tz today))
                      _ (setZone tz today));
             [apply nextOccurrence_after|apply valueOf_fromISO
             |symmetry; apply valueOf_setZone].
        -- injection Hset as <- _. now apply Hkeep.
      * intros Hr. rewrite Hr in Hset. cbn [andb] in Hset.
        injection Hset as <- _. cbn [mkParsedEvent start dateTime].
        apply Hkeep. now apply Hone.
Qed.

Lemma parseIcsContent_startDate sid icsContent sourceUrl events :
  parseIcsContent L now sid icsContent sourceUrl = Normal events ->
  Forall (fun v => startDate v = dateTime (start v)) events.
Proof.
  apply parseIcsContent_values. intros e esrc tz s en _. split; auto.
Qed.


End Stored.

(** ** The projector on the events of a publication *)

Section Projection.

Variable L : Luxon.
Variable now : Z.

Lemma collectDay_governed acc event :
  collectDay acc event
  = match governedDay event with
    | Some d =>
        (setAdd d (fst acc),
         mapSet d (offsetOr2 (deadlineOffset event)) (snd acc))
    | None => acc
    end.
Proof.
  unfold collectDay, governedDay, offsetOr2.
  destruct (recurrence event) as [[|r rest]|]; try reflexivity.
  destruct (JS.truthy (Some r)); [|reflexivity].
  destruct (JS.matchTagRun _ _ _ r); reflexivity.
Qed.

Lemma setAdd_In (d x : string) (s : list string) :
  In x (setAdd d s) <-> x = d \/ In x s.
Proof.
  unfold setAdd. destruct (existsb (String.eqb d) s) eqn:E.
  - apply existsb_eqb_In in E. split; [auto|]. intros [-> | H]; auto.
  - rewrite in_app_iff. cbn. intuition congruence.
Qed.

Lemma collect_keeps (x : string) events acc :
  In x (fst acc) -> In x (fst (fold_left collectDay events acc)).
Proof.
  revert acc. induction events as [|ev events IH]; intros acc H; [exact H|].
  cbn [fold_left]. apply IH. rewrite collectDay_governed.
  destruct (governedDay ev); [|exact H]. cbn [fst]. apply setAdd_In. auto.
Qed.

(** A weekday is governed exactly when some event names it. *)
Lemma collect_governed events acc (d : string) :
  In d (fst (fold_left collectDay events acc)) <->
  In d (fst acc) \/ exists ev, In ev events /\ governedDay ev = Some d.
Proof.
  revert acc. induction events as [|ev events IH]; intros acc.
  - cbn. split; [auto|]. intros [H | (ev & [] & _)]. exact H.
  - cbn [fold_left]. rewrite IH, collectDay_governed. split.
    + intros [H | (ev' & Hin & Hg)].
      * destruct (governedDay ev) as [d'|] eqn:Eg; [|auto].
        cbn [fst] in H. apply setAdd_In in H as [-> | H]; [|auto].
        right. exists ev. split; [now left|exact Eg].
      * right. exists ev'. split; [now right|exact Hg].
    + intros [H | (ev' & [<- | Hin] & Hg)].
      * left. destruct (governedDay ev); [|exact H]. cbn [fst].
        apply setAdd_In. auto.
      * left. rewrite Hg. cbn [fst]. apply setAdd_In. auto.
      * right. exists ev'. auto.
Qed.

Lemma mapGet_mapSet_other {V : Type} (k k' : string) (v : V) (m : JSMap V) :
  k <> k' -> mapGet k (mapSet k' v m) = mapGet k m.
Proof.
  intros Hk. apply String.eqb_neq in Hk.
  induction m as [|[k0 v0] m IH]; cbn [mapSet mapGet].
  - now rewrite Hk.
  - destruct (String.eqb k' k0) eqn:E; cbn [mapGet].
    + apply String.eqb_eq in E. subst k0. now rewrite Hk.
    + now rewrite IH.
Qed.

(** The offset recorded for a weekday is that of the last event naming
    it. *)
Lemma collect_offset_last before ev after acc (d : string) :
  governedDay ev = Some d ->
  Forall (fun e => governedDay e <> Some d) after ->
  mapGet d (snd (fold_left collectDay (before ++ ev :: after) acc))
  = Some (offsetOr2 (deadlineOffset ev)).
Proof.
  intros Hev Hafter. rewrite fold_left_app. cbn [fold_left].
  set (acc1 := fold_left collectDay before acc).
  assert (H1 : mapGet d (snd (collectDay acc1 ev))
               = Some (offsetOr2 (deadlineOffset ev))).
  { rewrite collectDay_governed, Hev. cbn [snd]. apply mapGet_mapSet_same. }
  revert H1. generalize (collectDay acc1 ev). clear acc1.
  induction Hafter as [|e after He _ IH]; intros acc2 H2; [exact H2|].
  cbn [fold_left]. apply IH. rewrite collectDay_governed.
  destruct (governedDay e) as [d'|]; [|exact H2]. cbn [snd].
  rewrite mapGet_mapSet_other; [exact H2|congruence].
Qed.

(** With a valid start on the first event the list returned is the walk
    from [startDay], cut after its fifth accepted candidate. *)
Lemma projected_walk first rest ts0 fuel ds :
  dateTime (start first) = Some ts0 ->
  generateNext5FromEvents L now fuel (first :: rest) = Some (Normal ds) ->
  exists d0 n,
    ds = specWalk L now (timeZone (start first))
           (fst (fold_left collectDay (first :: rest) ([], [])))
           (snd (fold_left collectDay (first :: rest) ([], []))) d0 n /\
    List.length ds = 5%nat.
Proof.
  intros Hts. destruct (loopEntry_atDay L now first rest ts0 Hts)
    as (d0 & _ & Hentry).
  unfold generateNext5FromEvents. rewrite Hentry.
  destruct (whileCount _ _ _ _ _ _ _) as [st|] eqn:E; [|discriminate].
  intros H. injection H as <-.
  destruct (whileCount_walk _ _ _ _ _ _ _ _ E) as (n & Hn & Hlen).
  exists d0, n. auto.
Qed.

Lemma In_specWalk tz days offsets o (n : nat) (d : Z) :
  In o (specWalk L now tz days offsets d n) ->
  exists d', d <= d' /\ specCandidate L now tz days offsets d' = Some o.
Proof.
  revert d. induction n as [|n IH]; intros d; cbn [specWalk]; [intros []|].
  rewrite in_app_iff. intros [H | H].
  - destruct (specCandidate L now tz days offsets d) as [o'|] eqn:E;
      cbn in H; [|contradiction].
    destruct H as [<- | []]. exists d. split; [lia|exact E].
  - destruct (IH _ H) as (d' & Hd & E). exists d'. split; [lia|exact E].
Qed.

Lemma specWalk_ordered tz days offsets (n : nat) (d : Z) :
  ForallOrdPairs (laterDay L) (specWalk L now tz days offsets d n).
Proof.
  revert d. induction n as [|n IH]; intros d; cbn [specWalk];
    [constructor|].
  destruct (specCandidate L now tz days offsets d) as [o|] eqn:E;
    cbn [toList app]; [|apply IH].
  constructor; [|apply IH].
  apply Forall_forall. intros o' Ho'.
  destruct (In_specWalk _ _ _ _ _ _ Ho') as (d' & Hd & E').
  apply specCandidate_some in E as (Eo & _).
  apply specCandidate_some in E' as (Eo' & _).
  unfold laterDay. rewrite Eo, Eo'. lia.
Qed.

(** The run dates the projector returns fall on later and later calendar
    days of the zone, so there is at most one per day, and each falls on a
    weekday that one of the events names in its recurrence. *)
Theorem projected_dates_are_on_later_governed_days :
  forall first rest ts0 fuel ds,
    dateTime (start first) = Some ts0 ->
    generateNext5FromEvents L now fuel (first :: rest) = Some (Normal ds) ->
    ForallOrdPairs (laterDay L) ds /\
    Forall (fun o =>
              exists ev,
                In ev (first :: rest) /\
                governedDay ev <> None /\
                governedDay ev = dayAbbrOf (weekday L (Occ.runDate o))) ds.
Proof.
  intros first rest ts0 fuel ds Hts H.
  destruct (projected_walk _ _ _ _ _ Hts H) as (d0 & n & -> & _).
  split; [apply specWalk_ordered|].
  apply Forall_forall. intros o Ho.
  destruct (In_specWalk _ _ _ _ _ _ Ho) as (d & _ & E).
  apply specCandidate_some in E as (Ed & _ & _ & _ & _ & _ & Hab & _).
  destruct Hab as (abbr & Ha & Hg & _).
  apply collect_governed in Hg as [[] | (ev & Hin & Hev)].
  exists ev. split; [exact Hin|]. split; [congruence|].
  unfold weekday. rewrite Ed. cbn [option_map]. congruence.
Qed.

(** When several events name the same weekday, the deadline offset of the
    last of them, the default 2 if it carries none, is the one applied to
    every occurrence projected on that weekday. *)
Theorem last_event_of_a_weekday_sets_its_offset :
  forall first rest ts0 fuel ds before ev after d,
    dateTime (start first) = Some ts0 ->
    generateNext5FromEvents L now fuel (first :: rest) = Some (Normal ds) ->
    first :: rest = (before ++ ev :: after)%list ->
    governedDay ev = Some d ->
    Forall (fun e => governedDay e <> Some d) after ->
    Forall (fun o =>
              dayAbbrOf (weekday L (Occ.runDate o)) = Some d ->
              Occ.deadlineOffset o = offsetOr2 (deadlineOffset ev) /\
              Occ.submissionDate o
              = minusDays L (offsetOr2 (deadlineOffset ev)) (Occ.runDate o))
      ds.
Proof.
  intros first rest ts0 fuel ds before ev after d Hts H Hsplit Hev Hafter.
  destruct (projected_walk _ _ _ _ _ Hts H) as (d0 & n & -> & _).
  apply Forall_forall. intros o Ho Hday.
  destruct (In_specWalk _ _ _ _ _ _ Ho) as (d1 & _ & E).
  apply specCandidate_some in E
    as (Ed & _ & _ & _ & _ & _ & Hab & Hsub & _).
  destruct Hab as (abbr & Ha & _ & Hoff).
  unfold weekday in Hday. rewrite Ed in Hday. cbn [option_map] in Hday.
  assert (abbr = d) by congruence. subst abbr.
  rewrite Hsplit, (collect_offset_last _ _ _ _ _ Hev Hafter) in Hoff.
  cbn [offsetOr2] in Hoff. rewrite Hsub, Hoff. auto.
Qed.

Lemma shaped_governed v :
  resolverShaped v ->
  (isRecurring v = true ->
   exists d w, governedDay v = Some d /\ In (d, w) dayMap) /\
  (isRecurring v = false -> governedDay v = None).
Proof.
  intros [(Hr & d & Hd & Hrec) | (Hr & Hrec)]; split; try congruence.
  - intros _. unfold governedDay. rewrite Hrec. unfold dayNames in Hd.
    cbn [In] in Hd.
    destruct Hd as [<- | [<- | [<- | [<- | [<- | [<- | [<- | []]]]]]]];
      eexists; eexists; (split; [reflexivity|]); cbn; auto 10.
  - intros _. unfold governedDay. now rewrite Hrec.
Qed.

(** On events shaped as the resolver stores them, the first with a valid
    start, the projector returns as soon as one event is recurring and
    runs forever when none is. *)
Lemma shaped_projection first rest ts0 :
  Forall resolverShaped (first :: rest) ->
  dateTime (start first) = Some ts0 ->
  ((exists v, In v (first :: rest) /\ isRecurring v = true) ->
   exists fuel ds,
     generateNext5FromEvents L now fuel (first :: rest) = Some (Normal ds) /\
     List.length ds = 5%nat) /\
  ((forall v, In v (first :: rest) -> isRecurring v = false) ->
   forall fuel, generateNext5FromEvents L now fuel (first :: rest) = None).
Proof.
  intros Hshape Hts. split.
  - intros (v & Hin & Hr).
    pose proof (proj1 (Forall_forall _ _) Hshape v Hin) as Hv.
    destruct (proj1 (shaped_governed v Hv) Hr) as (d & w & Hg & Hmap).
    assert (Hgov : In d (fst (fold_left collectDay (first :: rest) ([], [])))).
    { apply collect_governed. right. exists v. auto. }
    destruct (loopEntry_atDay L now first rest ts0 Hts)
      as (d0 & _ & Hentry).
    destruct (whileCount_terminates L now (timeZone (start first)) _
                (snd (fold_left collectDay (first :: rest) ([], [])))
                d w Hmap Hgov d0) as (fuel & st & Hst).
    exists fuel, (dates st).
    assert (Hgen : generateNext5FromEvents L now fuel (first :: rest)
                   = Some (Normal (dates st))).
    { unfold generateNext5FromEvents. rewrite Hentry, Hst. reflexivity. }
    split; [exact Hgen|].
    destruct (projected_walk _ _ _ _ _ Hts Hgen) as (_ & _ & _ & Hlen).
    exact Hlen.
  - intros Hnone fuel. unfold generateNext5FromEvents, loopEntry.
    rewrite collectDay_no_recurrence.
    + cbn [fst snd]. rewrite whileCount_no_days; [reflexivity|]. cbn. lia.
    + apply Forall_forall. intros v Hin.
      pose proof (proj1 (Forall_forall _ _) Hshape v Hin)
        as [(Hr & _) | (_ & Hrec)]; [|exact Hrec].
      rewrite (Hnone v Hin) in Hr. discriminate.
Qed.

End Projection.

(** ** From the calendar text to the dates shown *)

Lemma In_limitedEvents selectedUuid calendarEvents v :
  In v (limitedEvents selectedUuid calendarEvents) ->
  In v calendarEvents /\ matchesPublication selectedUuid v = true.
Proof.
  unfold limitedEvents, filteredEvents. intros H. apply filter_In.
  rewrite <- (firstn_skipn 50 (filter _ calendarEvents)).
  apply in_or_app. now left.
Qed.


Section Shown.

Variable L : Luxon.
Variable now : Z.
Variable toFormat : DateTime -> string -> string.

Lemma sameText_later (a b : Occ.t) :
  laterDay L a b ->
  sameText (isoText L (Occ.runDate b)) (isoText L (Occ.runDate a)) = false.
Proof.
  unfold laterDay, dayNumber, localOf, localMillis.
  destruct (Occ.runDate a) as [ta za|], (Occ.runDate b) as [tb zb|];
    cbn [option_map isoText sameText]; try contradiction.
  intros H.
  destruct (Z.eqb_spec tb ta) as [-> |]; [|reflexivity].
  destruct (Z.eqb_spec (offsetOf L zb) (offsetOf L za)) as [E|];
    [|reflexivity].
  rewrite E in H. lia.
Qed.

(** On run dates of later and later days the test on [processedDates]
    never finds the key, and every occurrence gets its two components. *)
Lemma pushDate_all ds keys comps :
  ForallOrdPairs (laterDay L) ds ->
  (forall o, In o ds ->
             existsb (sameText (isoText L (Occ.runDate o))) keys = false) ->
  snd (fold_left (pushDate L toFormat) ds (keys, comps))
  = (comps ++ flat_map (dateComponents toFormat) ds)%list.
Proof.
  intros Hord. revert keys comps.
  induction Hord as [|o ds Ho _ IH]; intros keys comps Hkeys;
    cbn [fold_left flat_map]; [now rewrite app_nil_r|].
  unfold pushDate at 2. cbn [fst snd].
  rewrite (Hkeys o (or_introl eq_refl)). cbn [negb].
  rewrite IH, <- app_assoc; [reflexivity|].
  intros o' Ho'. rewrite existsb_app, (Hkeys o' (or_intror Ho')).
  cbn [existsb orb].
  rewrite (sameText_later o o'); [reflexivity|].
  exact (proj1 (Forall_forall _ _) Ho o' Ho').
Qed.

(** Every occurrence the projector returns is shown: the duplicate test of
    the route never discards one, so the canvas holds the four components
    of the paper details, two components for each of the five occurrences,
    in order, and the two of the back button. *)
Theorem every_projected_date_is_shown :
  forall first rest ts0 fuel publicationName ds,
    dateTime (start first) = Some ts0 ->
    generateNext5FromEvents L now fuel (first :: rest) = Some (Normal ds) ->
    detailComponents L now toFormat fuel publicationName (first :: rest)
    = Some (Normal
              (paperDetails publicationName
               ++ flat_map (dateComponents toFormat) ds
               ++ backButton)%list) /\
    List.length
      (paperDetails publicationName
       ++ flat_map (dateComponents toFormat) ds ++ backButton)%list
    = 16%nat.
Proof.
  intros first rest ts0 fuel publicationName ds Hts H.
  destruct (projected_walk L now _ _ _ _ _ Hts H) as (d0 & n & Hds & Hlen).
  split.
  - unfold detailComponents. rewrite H. rewrite pushDate_all.
    + now rewrite <- app_assoc.
    + rewrite Hds. apply specWalk_ordered.
    + reflexivity.
  - rewrite !length_app.
    assert (Hflat : forall l : list Occ.t,
               List.length (flat_map (dateComponents toFormat) l)
               = (2 * List.length l)%nat).
    { induction l as [|o l IH]; [reflexivity|].
      cbn [flat_map dateComponents app List.length]. rewrite IH. lia. }
    rewrite Hflat, Hlen. reflexivity.
Qed.

End Shown.

(** ** Strings cut at a separator *)

Lemma append_nil_r (s : string) : s ++ "" = s.
Proof. induction s as [|c s IH]; cbn; congruence. Qed.

Lemma append_assoc (a b c : string) : (a ++ b) ++ c = a ++ (b ++ c).
Proof. induction a as [|x a IH]; cbn; congruence. Qed.

Lemma includes_cons_false (p : string) (c : ascii) (s : string) :
  JS.includes p (String c s) = false ->
  JS.startsWith p (String c s) = false /\ JS.includes p s = false.
Proof.
  unfold JS.includes. cbn [JS.indexOf].
  destruct (JS.startsWith p (String c s)); [discriminate|].
  destruct (JS.indexOf p s); [discriminate|]. auto.
Qed.

Lemma includes_cons_intro (p : string) (c : ascii) (s : string) :
  JS.startsWith p (String c s) = false -> JS.includes p s = false ->
  JS.includes p (String c s) = false.
Proof.
  unfold JS.includes. cbn [JS.indexOf]. intros ->.
  destruct (JS.indexOf p s); [discriminate|]. reflexivity.
Qed.

(** A string that does not contain the separator is a single piece. *)
Lemma splitAux_none (sep acc s : string) :
  JS.includes sep s = false -> JS.splitAux sep O acc s = [acc ++ s].
Proof.
  revert acc. induction s as [|c s IH]; intros acc H; cbn [JS.splitAux].
  - now rewrite append_nil_r.
  - apply includes_cons_false in H as [Hs Hi]. rewrite Hs, IH by exact Hi.
    now rewrite append_assoc.
Qed.

Lemma split_none (sep s : string) :
  JS.includes sep s = false -> JS.split sep s = [s].
Proof. intros H. unfold JS.split. now rewrite splitAux_none. Qed.

(** A separator of one character. *)
Lemma startsWith_char (q c : ascii) (s : string) :
  JS.startsWith (String q "") (String c s) = Ascii.eqb q c.
Proof.
  unfold JS.startsWith. cbn [String.prefix].
  destruct (ascii_dec q c) as [-> | Hn].
  - rewrite Ascii.eqb_refl. now destruct s.
  - symmetry. now apply Ascii.eqb_neq.
Qed.

Lemma includes_char (q : ascii) (s : string) :
  JS.includes (String q "") s = negb (noneIs (Ascii.eqb q) s).
Proof.
  induction s as [|c s IH]; [reflexivity|].
  unfold JS.includes in *. cbn [JS.indexOf noneIs].
  rewrite startsWith_char. destruct (Ascii.eqb q c); [reflexivity|].
  cbn [negb andb]. rewrite <- IH. now destruct (JS.indexOf _ s).
Qed.

Lemma noneIs_app (stop : ascii -> bool) (a b : string) :
  noneIs stop (a ++ b) = noneIs stop a && noneIs stop b.
Proof.
  induction a as [|c a IH]; [reflexivity|]. cbn [append noneIs].
  now rewrite IH, andb_assoc.
Qed.

Lemma splitAux_char (q : ascii) (acc pre rest : string) :
  noneIs (Ascii.eqb q) pre = true ->
  JS.splitAux (String q "") O acc (pre ++ String q rest)
  = (acc ++ pre) :: JS.splitAux (String q "") O "" rest.
Proof.
  revert acc. induction pre as [|c pre IH]; intros acc H.
  - cbn [append JS.splitAux]. rewrite startsWith_char, Ascii.eqb_refl.
    now rewrite append_nil_r.
  - cbn [noneIs] in H. apply andb_true_iff in H as [Hc Hpre].
    apply negb_true_iff in Hc.
    cbn [append JS.splitAux]. rewrite startsWith_char, Hc, IH by exact Hpre.
    now rewrite append_assoc.
Qed.

(** The pieces cut at a character do not hold it. *)
Lemma splitAux_char_pieces (q : ascii) (acc s : string) :
  noneIs (Ascii.eqb q) acc = true ->
  Forall (fun piece => noneIs (Ascii.eqb q) piece = true)
    (JS.splitAux (String q "") O acc s).
Proof.
  revert acc. induction s as [|c s IH]; intros acc Hacc; cbn [JS.splitAux].
  - constructor; [exact Hacc|constructor].
  - rewrite startsWith_char. destruct (Ascii.eqb q c) eqn:E.
    + constructor; [exact Hacc|]. cbn [String.length Nat.sub]. now apply IH.
    + apply IH. rewrite noneIs_app, Hacc. cbn [noneIs]. now rewrite E.
Qed.

(** ** The identifier of a listed publication *)

Lemma slug_chars (name : string) :
  noneIs (fun c => negb (isSlugChar c)) (slug name) = true.
Proof.
  induction name as [|c name IH]; [reflexivity|]. cbn [slug noneIs].
  rewrite IH, andb_true_r.
  destruct c as [[] [] [] [] [] [] [] []]; reflexivity.
Qed.

Lemma noneIs_weaken (stop stop' : ascii -> bool) (s : string) :
  (forall c, stop' c = true -> stop c = true) ->
  noneIs stop s = true -> noneIs stop' s = true.
Proof.
  intros Hw. induction s as [|c s IH]; [reflexivity|]. cbn [noneIs].
  intros H. apply andb_true_iff in H as [Hc Hs]. rewrite IH by exact Hs.
  rewrite andb_true_r. apply negb_true_iff in Hc. apply negb_true_iff.
  destruct (stop' c) eqn:E; [|reflexivity]. rewrite (Hw c E) in Hc.
  discriminate.
Qed.

Lemma slug_without (q : ascii) (name : string) :
  isSlugChar q = false -> noneIs (Ascii.eqb q) (slug name) = true.
Proof.
  intros Hq. apply (noneIs_weaken (fun c => negb (isSlugChar c)));
    [|apply slug_chars].
  intros c Hc. apply Ascii.eqb_eq in Hc. subst c. now rewrite Hq.
Qed.

(** No double underscore appears when a string without one is followed by
    a bar and by text without underscores. *)
Lemma no_double_underscore (uuid tail : string) :
  JS.includes "__" uuid = false ->
  noneIs (Ascii.eqb "_") tail = true ->
  JS.includes "__" (uuid ++ String "|" tail) = false.
Proof.
  intros Hu Ht. induction uuid as [|c uuid IH].
  - cbn [append]. apply includes_cons_intro; [reflexivity|].
    clear Hu. induction tail as [|t tail IHt]; [reflexivity|].
    cbn [noneIs] in Ht. apply andb_true_iff in Ht as [Hc Htail].
    apply negb_true_iff, Ascii.eqb_neq in Hc.
    apply includes_cons_intro; [|now apply IHt].
    unfold JS.startsWith. cbn [String.prefix].
    destruct (ascii_dec "_" t); [contradiction|reflexivity].
  - apply includes_cons_false in Hu as [Hs Hi].
    cbn [append]. apply includes_cons_intro; [|now apply IH].
    unfold JS.startsWith in *. cbn [String.prefix] in *.
    destruct (ascii_dec "_" c); [|reflexivity].
    destruct uuid as [|c2 uuid]; cbn [append String.prefix] in *.
    + destruct (ascii_dec "_" "|"); [discriminate|reflexivity].
    + destruct (ascii_dec "_" c2); [|reflexivity].
      now destruct uuid.
Qed.

Lemma split_after_prefix (rest : string) :
  JS.split "__" ("uuid__" ++ rest) = "uuid" :: JS.splitAux "__" O "" rest.
Proof. destruct rest; reflexivity. Qed.

(** The identifier the route gives a listed publication is read back
    as it was written: for a UUID holding no bar and no double underscore,
    the selection recovers the UUID and the publisher name reduced to
    lower-case letters, digits and dashes, the calendar requested is the
    file of that name, and the identifier passes the [uuid_] test of the
    route. *)
Theorem selection_recovers_the_listed_publication :
  forall uuid publisher_name,
    JS.includes "__" uuid = false ->
    JS.includes "|" uuid = false ->
    selectionOf (listItemId uuid publisher_name)
    = Normal (uuid, Some (slug publisher_name)) /\
    JS.startsWith "uuid_" (listItemId uuid publisher_name) = true /\
    noneIs (fun c => negb (isSlugChar c)) (slug publisher_name) = true /\
    icsUrlOf (Some (slug publisher_name))
    = "https://s3.amazonaws.com/obituary.datastore/prod/static/calendar/"
      ++ slug publisher_name ++ ".ics".
Proof.
  intros uuid publisher_name Hdu Hbar.
  split; [|split; [reflexivity|split; [apply slug_chars|reflexivity]]].
  unfold selectionOf, listItemId.
  assert (Hcut : JS.split "__" ("uuid__" ++ uuid ++ "|" ++ slug publisher_name)
                 = ["uuid"; uuid ++ "|" ++ slug publisher_name]).
  { rewrite split_after_prefix. rewrite splitAux_none; [reflexivity|].
    apply no_double_underscore; [exact Hdu|].
    now apply slug_without. }
  rewrite Hcut. cbn [nth_error].
  assert (Hbar' : noneIs (Ascii.eqb "|") uuid = true).
  { rewrite includes_char in Hbar. now apply negb_false_iff in Hbar. }
  unfold JS.split. change (uuid ++ "|" ++ slug publisher_name)
    with (uuid ++ String "|" (slug publisher_name)).
  rewrite splitAux_char by exact Hbar'.
  rewrite splitAux_none.
  - reflexivity.
  - rewrite includes_char. apply negb_false_iff. now apply slug_without.
Qed.

(** An identifier without a double underscore, such as the [uuid_...]
    identifiers of the pricing route, which pass the same [uuid_] test,
    makes the selection raise a [TypeError]: the route reads [split] of
    [undefined]. *)
Theorem selection_without_double_underscore_raises :
  forall component_id,
    JS.includes "__" component_id = false ->
    selectionOf component_id
    = Throw (TypeError
               "Cannot read properties of undefined (reading 'split')").
Proof.
  intros component_id H. unfold selectionOf. now rewrite split_none.
Qed.

(** ** Dates for the pricing API *)

Lemma padStart2_without (q : ascii) (s : string) :
  Ascii.eqb q "0" = false ->
  noneIs (Ascii.eqb q) s = true -> noneIs (Ascii.eqb q) (JS.padStart2 s) = true.
Proof.
  intros Hq Hs. unfold JS.padStart2.
  destruct (String.length s) as [|[|n]]; [cbn; now rewrite Hq| |exact Hs].
  cbn [append noneIs]. now rewrite Hq, Hs.
Qed.

Lemma formatDateForApi_without_slash (inputDate : string) :
  noneIs (Ascii.eqb "/") (formatDateForApi inputDate) = true.
Proof.
  unfold formatDateForApi.
  destruct (JS.includes "/" inputDate) eqn:E.
  - pose proof (splitAux_char_pieces "/" "" inputDate eq_refl) as Hp.
    fold (JS.split "/" inputDate) in Hp. cbv zeta.
    assert (Hnth : forall i, noneIs (Ascii.eqb "/")
                               (nth i (JS.split "/" inputDate) "") = true).
    { intros i. destruct (nth_in_or_default i (JS.split "/" inputDate) "")
        as [Hin | ->]; [|reflexivity].
      exact (proj1 (Forall_forall _ _) Hp _ Hin). }
    assert (Hyear : noneIs (Ascii.eqb "/")
                      (JS.show (nth_error (JS.split "/" inputDate) 2)) = true).
    { destruct (nth_error (JS.split "/" inputDate) 2) as [y|] eqn:Ey;
        [|reflexivity].
      apply nth_error_In in Ey. exact (proj1 (Forall_forall _ _) Hp _ Ey). }
    rewrite !noneIs_app, Hyear.
    rewrite (padStart2_without "/" _ eq_refl (Hnth 1%nat)).
    replace (hd "" (JS.split "/" inputDate))
      with (nth 0 (JS.split "/" inputDate) "")
      by (now destruct (JS.split "/" inputDate)).
    rewrite (padStart2_without "/" _ eq_refl (Hnth 0%nat)). reflexivity.
  - rewrite includes_char in E. now apply negb_false_iff in E.
Qed.

(** [formatDateForApi] turns month/day/year into year-month-day with the
    month and the day padded to two characters, leaves a date without a
    slash as it is, never returns a slash, and so changes nothing when
    applied to its own result. *)
Theorem format_date_for_api_is_idempotent :
  (forall month day year,
      JS.includes "/" month = false -> JS.includes "/" day = false ->
      JS.includes "/" year = false ->
      formatDateForApi (month ++ "/" ++ day ++ "/" ++ year)
      = year ++ "-" ++ JS.padStart2 month ++ "-" ++ JS.padStart2 day) /\
  (forall inputDate,
      JS.includes "/" (formatDateForApi inputDate) = false /\
      formatDateForApi (formatDateForApi inputDate)
      = formatDateForApi inputDate).
Proof.
  split.
  - intros month day year Hm Hd Hy.
    rewrite includes_char in Hm, Hd. apply negb_false_iff in Hm, Hd.
    unfold formatDateForApi.
    change (month ++ "/" ++ day ++ "/" ++ year)
      with (month ++ String "/" (day ++ String "/" year)).
    assert (Hin : JS.includes "/"
                    (month ++ String "/" (day ++ String "/" year)) = true).
    { rewrite includes_char, noneIs_app. cbn [noneIs Ascii.eqb Bool.eqb].
      cbn. now rewrite andb_false_r. }
    rewrite Hin. unfold JS.split.
    rewrite splitAux_char by exact Hm. rewrite splitAux_char by exact Hd.
    rewrite splitAux_none by exact Hy. reflexivity.
  - intros inputDate.
    assert (H : JS.includes "/" (formatDateForApi inputDate) = false).
    { rewrite includes_char. apply negb_false_iff.
      apply formatDateForApi_without_slash. }
    split; [exact H|]. unfold formatDateForApi at 1. now rewrite H.
Qed.

(** ** The cache *)

Section CacheFacts.

Variable V : Type.

Lemma mapGet_remove_same (key : string) (data : NodeCache.Data V) :
  mapGet key (NodeCache.remove key data) = None.
Proof.
  induction data as [|[k e] data IH]; [reflexivity|].
  cbn [NodeCache.remove filter fst]. destruct (String.eqb key k) eqn:E;
    cbn [negb]; [exact IH|].
  cbn [mapGet]. rewrite E. exact IH.
Qed.

Lemma mapGet_remove_other (k key : string) (data : NodeCache.Data V) :
  k <> key -> mapGet k (NodeCache.remove key data) = mapGet k data.
Proof.
  intros Hk. induction data as [|[k0 e] data IH]; [reflexivity|].
  cbn [NodeCache.remove filter fst]. destruct (String.eqb key k0) eqn:E;
    cbn [negb mapGet].
  - apply String.eqb_eq in E. subst k0. apply String.eqb_neq in Hk.
    rewrite Hk. exact IH.
  - destruct (String.eqb k k0); [reflexivity|exact IH].
Qed.

Lemma get_fresh (now : Z) (key : string) (data : NodeCache.Data V)
  (e : NodeCache.Entry V) :
  mapGet key data = Some e -> NodeCache.expired now e = false ->
  NodeCache.get now key data = (Some (NodeCache.v e), data).
Proof. intros Hg He. unfold NodeCache.get. now rewrite Hg, He. Qed.

Lemma get_expired (now : Z) (key : string) (data : NodeCache.Data V)
  (e : NodeCache.Entry V) :
  mapGet key data = Some e -> NodeCache.expired now e = true ->
  NodeCache.get now key data = (None, NodeCache.remove key data).
Proof. intros Hg He. unfold NodeCache.get. now rewrite Hg, He. Qed.

(** After a miss the key is not in the cache. *)
Lemma get_miss (now : Z) (key : string) (data : NodeCache.Data V) :
  fst (NodeCache.get now key data) = None ->
  mapGet key (snd (NodeCache.get now key data)) = None /\
  forall k, k <> key ->
            mapGet k (snd (NodeCache.get now key data)) = mapGet k data.
Proof.
  unfold NodeCache.get. destruct (mapGet key data) as [e|] eqn:Eg.
  - destruct (NodeCache.expired now e); [|discriminate]. intros _.
    cbn [snd]. split; [apply mapGet_remove_same|].
    intros k Hk. now apply mapGet_remove_other.
  - intros _. cbn [snd]. auto.
Qed.

Lemma del_lookup (ks : list string) (data : NodeCache.Data V) (k : string) :
  mapGet k (snd (NodeCache.del ks data))
  = if existsb (String.eqb k) ks then None else mapGet k data.
Proof.
  revert data. induction ks as [|key ks IH]; intros data; [reflexivity|].
  cbn [NodeCache.del existsb].
  destruct (mapHas key data) eqn:Eh.
  - specialize (IH (NodeCache.remove key data)).
    destruct (NodeCache.del ks (NodeCache.remove key data)) as [n d].
    cbn [snd] in *. rewrite IH.
    destruct (String.eqb k key) eqn:E; cbn [orb].
    + apply String.eqb_eq in E. subst k. rewrite mapGet_remove_same.
      now destruct (existsb _ ks).
    + apply String.eqb_neq in E. now rewrite mapGet_remove_other.
  - rewrite IH. destruct (String.eqb k key) eqn:E; cbn [orb]; [|reflexivity].
    apply String.eqb_eq in E. subst k.
    rewrite (mapHas_false_get _ _ Eh). now destruct (existsb _ ks).
Qed.

End CacheFacts.

Section CachedCalendars.

Variable L : Luxon.
Variable urlPathname : string -> option string.

Let Cache := NodeCache.Data Calendar.Data.

Lemma filter_partition {A : Type} (f : A -> bool) (l : list A) :
  (List.length (filter f l) + List.length (filter (fun a => negb (f a)) l)
   = List.length l)%nat.
Proof.
  induction l as [|a l IH]; [reflexivity|]. cbn [filter].
  destruct (f a); cbn [negb List.length]; lia.
Qed.

(** The summary [fetchAndParseIcs] builds agrees with the events it
    holds: every event is counted once, as recurring or as one-time, the
    session label is that of the parse when there is an event and [null]
    otherwise, and the events are those [parseIcsContent] returns for the
    body of the response. *)
Theorem fetched_summary_counts_every_event_once :
  forall axiosGet sid now icsUrl data,
    fetchAndParseIcs L urlPathname axiosGet sid now icsUrl = Fulfilled data ->
    Calendar.recurringEvents data + Calendar.oneTimeEvents data
    = Calendar.eventCount data /\
    Calendar.eventCount data = Z.of_nat (List.length (Calendar.events data)) /\
    Calendar.sessionId data
    = (match Calendar.events data with [] => None | _ => Some sid end) /\
    axiosGet icsUrl = Fulfilled (Calendar.rawContent data) /\
    parseIcsContent L now sid (Calendar.rawContent data) icsUrl
    = Normal (Calendar.events data) /\
    Calendar.name data = extractIcsName urlPathname icsUrl /\
    Calendar.url data = icsUrl.
Proof.
  intros axiosGet sid now icsUrl data. unfold fetchAndParseIcs.
  destruct (axiosGet icsUrl) as [body|err]; [|discriminate].
  destruct (parseIcsContent L now sid body icsUrl) as [events|err] eqn:Ep;
    [|discriminate].
  intros H. injection H as <-. cbn.
  split; [|split; [reflexivity|split; [|auto]]].
  - pose proof (filter_partition isRecurring events). lia.
  - apply parseIcsContent_session in Ep.
    destruct events as [|first rest]; [reflexivity|].
    apply Forall_inv in Ep. now f_equal.
Qed.

Lemma fetchAndParseIcs_url axiosGet sid now icsUrl data :
  fetchAndParseIcs L urlPathname axiosGet sid now icsUrl = Fulfilled data ->
  Calendar.url data = icsUrl.
Proof.
  unfold fetchAndParseIcs.
  destruct (axiosGet icsUrl) as [body|err]; [|discriminate].
  destruct (parseIcsContent L now sid body icsUrl); [|discriminate].
  intros H. now injection H as <-.
Qed.

(** A miss followed by a successful download stores the calendar under
    the key, to expire a day after the response. *)
Lemma getCalendar_stores axiosGet sid now fetched icsUrl (cache : Cache)
  data cache' :
  fst (NodeCache.get now (cacheKeyOf urlPathname icsUrl) cache) = None ->
  getCalendar L urlPathname axiosGet sid now fetched icsUrl cache
  = (Fulfilled data, cache') ->
  mapGet (cacheKeyOf urlPathname icsUrl) cache'
  = Some {| NodeCache.v := data; NodeCache.t := fetched + 86400000 |} /\
  fetchAndParseIcs L urlPathname axiosGet sid fetched icsUrl
  = Fulfilled data.
Proof.
  unfold getCalendar. cbv zeta.
  destruct (NodeCache.get now _ cache) as [cached cache1]. cbn [fst].
  intros ->.
  destruct (fetchAndParseIcs L urlPathname axiosGet sid fetched icsUrl)
    as [d|err]; [|discriminate].
  intros H. injection H as <- <-. split; [|reflexivity].
  unfold NodeCache.set. rewrite mapGet_mapSet_same. reflexivity.
Qed.

(** An entry that has not expired is returned without a download. *)
Lemma getCalendar_hit axiosGet sid now fetched icsUrl (cache : Cache) e :
  mapGet (cacheKeyOf urlPathname icsUrl) cache = Some e ->
  NodeCache.expired now e = false ->
  getCalendar L urlPathname axiosGet sid now fetched icsUrl cache
  = (Fulfilled (NodeCache.v e), cache).
Proof.
  intros Hg He. unfold getCalendar. cbv zeta.
  now rewrite (get_fresh _ _ _ _ _ Hg He).
Qed.

(** An expired entry is deleted and the calendar downloaded again. *)
Lemma getCalendar_expired axiosGet sid now fetched icsUrl (cache : Cache) e :
  mapGet (cacheKeyOf urlPathname icsUrl) cache = Some e ->
  NodeCache.expired now e = true ->
  getCalendar L urlPathname axiosGet sid now fetched icsUrl cache
  = match fetchAndParseIcs L urlPathname axiosGet sid fetched icsUrl with
    | Fulfilled data =>
        (Fulfilled data,
         NodeCache.set calendarTTL fetched (cacheKeyOf urlPathname icsUrl)
           data (NodeCache.remove (cacheKeyOf urlPathname icsUrl) cache))
    | Rejected error =>
        (Rejected error,
         NodeCache.remove (cacheKeyOf urlPathname icsUrl) cache)
    end.
Proof.
  intros Hg He. unfold getCalendar. cbv zeta.
  now rewrite (get_expired _ _ _ _ _ Hg He).
Qed.

Lemma retrieve_getCalendar axiosGet sid now fetched icsUrl (cache : Cache) :
  icsUrl <> "" ->
  retrieveAndParseIcs L urlPathname axiosGet sid now fetched (Some icsUrl)
    cache
  = match getCalendar L urlPathname axiosGet sid now fetched icsUrl cache with
    | (Fulfilled data, cache1) => (Fulfilled (Calendar.events data), cache1)
    | (Rejected error, cache1) => (Rejected error, cache1)
    end.
Proof.
  intros Hu. unfold retrieveAndParseIcs.
  now rewrite (truthy_nonempty _ Hu).
Qed.

(** The events retrieved by a download are served from the cache for a
    day: a later call for a URL with the same cache key, made no more than
    86400000 ms after the response, returns the same events whatever the
    network would answer and leaves the cache as it is; a call made after
    that deletes the entry and downloads again. *)
Theorem retrieved_events_are_served_for_a_day :
  forall axiosGet sid now fetched icsUrl (cache : Cache) events cache',
    icsUrl <> "" -> 0 <= fetched ->
    fst (NodeCache.get now (cacheKeyOf urlPathname icsUrl) cache) = None ->
    retrieveAndParseIcs L urlPathname axiosGet sid now fetched (Some icsUrl)
      cache = (Fulfilled events, cache') ->
    forall axiosGet' sid' now' fetched' icsUrl' (cache'' : Cache),
      icsUrl' <> "" ->
      cacheKeyOf urlPathname icsUrl' = cacheKeyOf urlPathname icsUrl ->
      mapGet (cacheKeyOf urlPathname icsUrl) cache''
      = mapGet (cacheKeyOf urlPathname icsUrl) cache' ->
      (now' <= fetched + 86400000 ->
       retrieveAndParseIcs L urlPathname axiosGet' sid' now' fetched'
         (Some icsUrl') cache'' = (Fulfilled events, cache'')) /\
      (fetched + 86400000 < now' ->
       retrieveAndParseIcs L urlPathname axiosGet' sid' now' fetched'
         (Some icsUrl') cache''
       = match fetchAndParseIcs L urlPathname axiosGet' sid' fetched'
                 icsUrl' with
         | Fulfilled data =>
             (Fulfilled (Calendar.events data),
              NodeCache.set calendarTTL fetched'
                (cacheKeyOf urlPathname icsUrl) data
                (NodeCache.remove (cacheKeyOf urlPathname icsUrl) cache''))
         | Rejected error =>
             (Rejected error,
              NodeCache.remove (cacheKeyOf urlPathname icsUrl) cache'')
         end).
Proof.
  intros axiosGet sid now fetched icsUrl cache events cache' Hu Hf Hmiss H
    axiosGet' sid' now' fetched' icsUrl' cache'' Hu' Hkey Hsame.
  rewrite retrieve_getCalendar in H by exact Hu.
  destruct (getCalendar L urlPathname axiosGet sid now fetched icsUrl cache)
    as [[data|err] c1] eqn:Eg; [|discriminate].
  injection H as <- <-.
  destruct (getCalendar_stores _ _ _ _ _ _ _ _ Hmiss Eg) as [Hstored _].
  rewrite <- Hsame, <- Hkey in Hstored.
  rewrite !retrieve_getCalendar by exact Hu'. split; intros Ht.
  - rewrite (getCalendar_hit _ _ _ _ _ _ _ Hstored); [reflexivity|].
    unfold NodeCache.expired. cbn [NodeCache.t].
    apply andb_false_iff. right. apply Z.ltb_ge. lia.
  - rewrite (getCalendar_expired _ _ _ _ _ _ _ Hstored).
    + rewrite Hkey.
      now destruct (fetchAndParseIcs L urlPathname axiosGet' sid' fetched'
                      icsUrl').
    + unfold NodeCache.expired. cbn [NodeCache.t].
      apply andb_true_iff. split.
      * apply negb_true_iff. apply Z.eqb_neq. lia.
      * apply Z.ltb_lt. lia.
Qed.

(** A retrieval that is rejected caches nothing. Without a URL the call is
    rejected with "ICS URL is required" before the cache or the network is
    touched. When the download or the parse fails, the error is passed on,
    no entry is left under the key of the URL, and the entries of the other
    keys are as they were. *)
Theorem rejected_retrieval_caches_nothing :
  forall axiosGet sid now fetched (cache : Cache),
    (forall icsUrl,
        JS.truthy icsUrl = false ->
        retrieveAndParseIcs L urlPathname axiosGet sid now fetched icsUrl
          cache = (Rejected (Error "ICS URL is required"), cache)) /\
    (forall icsUrl error cache',
        icsUrl <> "" ->
        retrieveAndParseIcs L urlPathname axiosGet sid now fetched
          (Some icsUrl) cache = (Rejected error, cache') ->
        fetchAndParseIcs L urlPathname axiosGet sid fetched icsUrl
        = Rejected error /\
        mapGet (cacheKeyOf urlPathname icsUrl) cache' = None /\
        forall k, k <> cacheKeyOf urlPathname icsUrl ->
                  mapGet k cache' = mapGet k cache).
Proof.
  intros axiosGet sid now fetched cache. split.
  - intros icsUrl H. unfold retrieveAndParseIcs. now rewrite H.
  - intros icsUrl error cache' Hu H.
    rewrite retrieve_getCalendar in H by exact Hu.
    unfold getCalendar in H. cbv zeta in H.
    pose proof (get_miss _ now (cacheKeyOf urlPathname icsUrl) cache) as Hm.
    destruct (NodeCache.get now (cacheKeyOf urlPathname icsUrl) cache)
      as [[d|] c1]; [discriminate|].
    cbn [fst snd] in Hm. specialize (Hm eq_refl).
    destruct (fetchAndParseIcs L urlPathname axiosGet sid fetched icsUrl)
      as [d|err]; [discriminate|].
    injection H as <- <-. split; [reflexivity|exact Hm].
Qed.

(** [clearCalendarCache] answers whether the key was in the cache, an
    expired entry included; afterwards the calendar is not cached, and the
    other entries are as they were. *)
Theorem cleared_calendar_is_no_longer_cached :
  forall icsUrl (cache : Cache),
    let key := cacheKeyOf urlPathname icsUrl in
    let cleared := clearCalendarCache urlPathname icsUrl cache in
    fst cleared = mapHas key cache /\
    (forall now,
        getCachedCalendar urlPathname now icsUrl (snd cleared)
        = (None, snd cleared)) /\
    (forall k, k <> key -> mapGet k (snd cleared) = mapGet k cache).
Proof.
  intros icsUrl cache key cleared. subst cleared.
  unfold clearCalendarCache. fold key. cbn [NodeCache.del].
  destruct (mapHas key cache) eqn:Eh; cbn [fst snd].
  - split; [reflexivity|]. split.
    + intros now. unfold getCachedCalendar, NodeCache.get. fold key.
      now rewrite mapGet_remove_same.
    + intros k Hk. now apply mapGet_remove_other.
  - split; [reflexivity|]. split; [|reflexivity].
    intros now. unfold getCachedCalendar, NodeCache.get. fold key.
    now rewrite (mapHas_false_get _ _ Eh).
Qed.

Lemma existsb_eqb_filter (k : string) (f : string -> bool) (l : list string) :
  existsb (String.eqb k) (filter f l) = f k && existsb (String.eqb k) l.
Proof.
  induction l as [|x l IH]; [now rewrite andb_false_r|]. cbn [filter existsb].
  destruct (String.eqb k x) eqn:E.
  - apply String.eqb_eq in E. subst x. destruct (f k); cbn [existsb andb orb].
    + now rewrite String.eqb_refl.
    + exact IH.
  - destruct (f x); cbn [existsb orb]; rewrite ?E; exact IH.
Qed.

Lemma mapGet_not_key {V : Type} (k : string) (m : JSMap V) :
  existsb (String.eqb k) (map fst m) = false -> mapGet k m = None.
Proof.
  induction m as [|[k0 v0] m IH]; [reflexivity|]. cbn [map fst existsb mapGet].
  destruct (String.eqb k k0); [discriminate|exact IH].
Qed.

(** [clearAllCalendars] returns the keys of the cache that start with
    [calendar_], in the order of the cache; afterwards no such key has an
    entry, and the entries of the other keys are as they were. *)
Theorem clearing_all_calendars_leaves_the_other_keys :
  forall cache : Cache,
    let cleared := clearAllCalendars cache in
    fst cleared = filter (JS.startsWith "calendar_") (NodeCache.keys cache) /\
    (forall k, JS.startsWith "calendar_" k = true ->
               mapGet k (snd cleared) = None) /\
    (forall k, JS.startsWith "calendar_" k = false ->
               mapGet k (snd cleared) = mapGet k cache).
Proof.
  intros cache cleared. subst cleared. unfold clearAllCalendars. cbv zeta.
  cbn [fst snd]. split; [reflexivity|]. split; intros k Hk;
    rewrite del_lookup, existsb_eqb_filter, Hk; cbn [andb]; [|reflexivity].
  destruct (existsb (String.eqb k) (NodeCache.keys cache)) eqn:E;
    [reflexivity|]. now apply mapGet_not_key.
Qed.

End CachedCalendars.

(** ** The name of a calendar *)

Lemma rev_app (a b : string) : JS.rev (a ++ b) = JS.rev b ++ JS.rev a.
Proof.
  induction a as [|c a IH]; cbn [append JS.rev].
  - now rewrite append_nil_r.
  - now rewrite IH, append_assoc.
Qed.

Lemma rev_involutive (s : string) : JS.rev (JS.rev s) = s.
Proof.
  induction s as [|c s IH]; [reflexivity|]. cbn [JS.rev].
  rewrite rev_app, IH. reflexivity.
Qed.

Lemma noneIs_rev (stop : ascii -> bool) (s : string) :
  noneIs stop (JS.rev s) = noneIs stop s.
Proof.
  induction s as [|c s IH]; [reflexivity|]. cbn [JS.rev noneIs].
  rewrite noneIs_app, IH. cbn [noneIs]. rewrite andb_true_r.
  apply andb_comm.
Qed.

(** The base name of a path that ends with a file name. *)
Lemma basename_file (dir file : string) :
  file <> "" -> JS.includes "/" file = false ->
  basename (dir ++ "/" ++ file) = file.
Proof.
  intros Hne Hf. rewrite includes_char in Hf. apply negb_false_iff in Hf.
  unfold basename. rewrite rev_app.
  change ("/" ++ file) with (String "/" file). cbn [JS.rev].
  rewrite append_assoc. cbn [append].
  rewrite <- (noneIs_rev _ file) in Hf.
  assert (Hr : JS.rev file <> "").
  { intros E. apply Hne. rewrite <- (rev_involutive file), E. reflexivity. }
  rewrite <- (rev_involutive file) at 2.
  destruct (JS.rev file) as [|c r]; [congruence|].
  assert (Hc : Ascii.eqb c "/" = false).
  { cbn [noneIs] in Hf. apply andb_true_iff in Hf as [Hc _].
    apply negb_true_iff in Hc. now rewrite Ascii.eqb_sym. }
  cbn [append dropSlashes]. rewrite Hc.
  change (String c (r ++ String "/" (JS.rev dir)))
    with (String c r ++ String "/" (JS.rev dir)).
  rewrite span_run; [reflexivity|exact Hf|reflexivity].
Qed.

Lemma stripIcs_ext (file ext : string) :
  isIcsExt ext = true -> stripIcs (file ++ ext) = file.
Proof.
  unfold isIcsExt.
  destruct ext as [|dot [|i [|c [|s [|x ext]]]]]; try discriminate.
  intros H. apply andb_true_iff in H as [H Hs].
  apply andb_true_iff in H as [H Hc]. apply andb_true_iff in H as [Hd Hi].
  unfold stripIcs. rewrite rev_app. cbn [JS.rev append].
  rewrite Hs, Hc, Hi, Hd. cbn [andb]. apply rev_involutive.
Qed.

Section Names.

Variable L : Luxon.
Variable urlPathname : string -> option string.

Lemma extractIcsName_file url dir file ext :
  urlPathname url = Some (dir ++ "/" ++ file ++ ext) ->
  JS.includes "/" file = false -> isIcsExt ext = true ->
  extractIcsName urlPathname url = file.
Proof.
  intros Hp Hf He. unfold extractIcsName. rewrite Hp.
  rewrite basename_file.
  - now apply stripIcs_ext.
  - destruct file; [|discriminate].
    destruct ext; [discriminate He|discriminate].
  - rewrite includes_char in *. apply negb_false_iff in Hf.
    apply negb_false_iff. rewrite noneIs_app, Hf. cbn [andb].
    unfold isIcsExt in He.
    destruct ext as [|dot [|i [|c [|s [|x ext]]]]]; try discriminate.
    apply andb_true_iff in He as [He Hs].
    apply andb_true_iff in He as [He Hc].
    apply andb_true_iff in He as [Hd Hi].
    apply Ascii.eqb_eq in Hd. subst dot. cbn [noneIs].
    destruct (Ascii.eqb "/" i) eqn:E1;
      [apply Ascii.eqb_eq in E1; subst i; discriminate|].
    destruct (Ascii.eqb "/" c) eqn:E2;
      [apply Ascii.eqb_eq in E2; subst c; discriminate|].
    destruct (Ascii.eqb "/" s) eqn:E3;
      [apply Ascii.eqb_eq in E3; subst s; discriminate|].
    reflexivity.
Qed.

(** The name of a calendar, and with it its cache key, is the file name of
    the URL path without its [.ics] extension, in whatever case the
    extension is written; the directory and the host play no part. A URL
    that cannot be parsed is named [unknown]. *)
Theorem calendar_name_is_the_file_name :
  forall url,
    (urlPathname url = None ->
     extractIcsName urlPathname url = "unknown" /\
     cacheKeyOf urlPathname url = "calendar_unknown") /\
    (forall dir file ext,
        urlPathname url = Some (dir ++ "/" ++ file ++ ext) ->
        JS.includes "/" file = false -> isIcsExt ext = true ->
        extractIcsName urlPathname url = file /\
        cacheKeyOf urlPathname url = "calendar_" ++ file).
Proof.
  intros url. split.
  - intros H. unfold cacheKeyOf, extractIcsName. now rewrite H.
  - intros dir file ext Hp Hf He. unfold cacheKeyOf.
    now rewrite (extractIcsName_file _ _ _ _ Hp Hf He).
Qed.

(** Two URLs whose paths end in the same file name share a cache entry:
    the calendar downloaded from the first is what [getCalendar] returns
    for the second during the following day, without a download, although
    its [url] is the first. *)
Theorem calendar_of_one_url_is_served_for_another :
  forall axiosGet sid now fetched url1 url2 dir1 dir2 file ext1 ext2
         (cache cache' : NodeCache.Data Calendar.Data) data,
    urlPathname url1 = Some (dir1 ++ "/" ++ file ++ ext1) ->
    urlPathname url2 = Some (dir2 ++ "/" ++ file ++ ext2) ->
    JS.includes "/" file = false ->
    isIcsExt ext1 = true -> isIcsExt ext2 = true ->
    fst (NodeCache.get now (cacheKeyOf urlPathname url1) cache) = None ->
    getCalendar L urlPathname axiosGet sid now fetched url1 cache
    = (Fulfilled data, cache') ->
    Calendar.url data = url1 /\
    forall axiosGet' sid' now' fetched',
      now' <= fetched + 86400000 ->
      getCalendar L urlPathname axiosGet' sid' now' fetched' url2 cache'
      = (Fulfilled data, cache').
Proof.
  intros axiosGet sid now fetched url1 url2 dir1 dir2 file ext1 ext2 cache
    cache' data Hp1 Hp2 Hf He1 He2 Hmiss H.
  destruct (getCalendar_stores _ _ _ _ _ _ _ _ _ _ Hmiss H)
    as [Hstored Hfetch].
  split.
  - exact (fetchAndParseIcs_url _ _ _ _ _ _ _ Hfetch).
  - intros axiosGet' sid' now' fetched' Ht.
    assert (Hkey : cacheKeyOf urlPathname url2 = cacheKeyOf urlPathname url1).
    { unfold cacheKeyOf.
      now rewrite (extractIcsName_file _ _ _ _ Hp1 Hf He1),
                  (extractIcsName_file _ _ _ _ Hp2 Hf He2). }
    rewrite <- Hkey in Hstored.
    rewrite (getCalendar_hit _ _ _ _ _ _ _ _ _ Hstored); [reflexivity|].
    unfold NodeCache.expired. cbn [NodeCache.t].
    apply andb_false_iff. right. apply Z.ltb_ge. lia.
Qed.

End Names.

(** ** Properties that are parsed and never read *)

Section Unread.

Variable L : Luxon.
Variables (rruleMap : JSMap string) (today : DateTime) (src sid : string).

Lemma mkParsedEvent_readAlike e e' :
  readAlike e e' ->
  forall esrc tz s en rec r,
    mkParsedEvent e esrc sid tz s en rec r
    = mkParsedEvent e' esrc sid tz s en rec r.
Proof.
  intros (_ & _ & _ & Hez & Hsum & Hdesc & Huid & _ & Hoff & _) esrc tz s en
    rec r.
  unfold mkParsedEvent. now rewrite Hez, Hsum, Hdesc, Huid, Hoff.
Qed.

Lemma addDayEvents_readAlike e e' esrc tz s en baseUid timeKey days m :
  readAlike e e' ->
  addDayEvents e esrc sid tz s en baseUid timeKey days m
  = addDayEvents e' esrc sid tz s en baseUid timeKey days m.
Proof.
  intros H. revert m. induction days as [|day days IH]; intros m;
    cbn [addDayEvents]; [reflexivity|].
  destruct (dayIndexOf day); [|apply IH].
  destruct (negb (mapHas _ m)); [|apply IH].
  rewrite (mkParsedEvent_readAlike _ _ H). apply IH.
Qed.

Lemma processEvent_readAlike e e' rawRrule isRec m :
  readAlike e e' ->
  processEvent L e rawRrule isRec today m src sid
  = processEvent L e' rawRrule isRec today m src sid.
Proof.
  intros H. pose proof H as (Hs & Hsz & Hen & _ & _ & _ & Huid & Hcat & _).
  unfold processEvent, eventSourceOf. cbv zeta.
  rewrite Hs, Hsz, Hen, Huid, Hcat.
  destruct (Raw.startDate e') as [s0|]; [|reflexivity].
  destruct (adjustToFuture L isRec s0 _ _) as [[s en]|err]; [|reflexivity].
  cbn [bind fst snd]. destruct isRec.
  - now rewrite (addDayEvents_readAlike _ _ _ _ _ _ _ _ _ _ H).
  - now rewrite (mkParsedEvent_readAlike _ _ H).
Qed.

Lemma finishEvent_readAlike e e' st :
  readAlike e e' ->
  finishEvent L rruleMap today src sid e st
  = finishEvent L rruleMap today src sid e' st.
Proof.
  intros H. pose proof H as (Hs & Hsz & _ & _ & _ & _ & Huid & _ & _ & Hr).
  unfold finishEvent, rawRruleOf. cbv zeta.
  rewrite Hs, Hsz, Huid, Hr.
  now rewrite (processEvent_readAlike _ _ _ _ _ H).
Qed.


End Unread.

(** ** The publications and their cache *)

(** The list [fetchPublications] returns is the list of the API followed
    by the static Bradenton entry, so it is never empty; it is cached, and
    for the next eight hours [getPublicationsWithFallback] returns it
    without calling the API, whatever the API would answer. *)
Theorem fetched_publications_end_with_the_static_entry :
  forall api now (cache cache' : NodeCache.Data (list Publication.t))
         publications,
    fetchPublications api now cache = (Fulfilled publications, cache') ->
    (exists listed,
        api = Fulfilled listed /\
        publications = (listed ++ [static_one])%list) /\
    publications <> [] /\
    (forall api' now' fetched' (cache'' : NodeCache.Data (list Publication.t)),
        mapGet publicationsKey cache'' = mapGet publicationsKey cache' ->
        now' <= now + 28800000 ->
        getPublicationsWithFallback api' now' fetched' cache''
        = (Fulfilled publications, cache'')).
Proof.
  intros api now cache cache' publications. unfold fetchPublications.
  destruct api as [listed|err]; [|discriminate].
  intros H. injection H as <- <-. split; [|split].
  - exists listed. auto.
  - destruct listed; discriminate.
  - intros api' now' fetched' cache'' Hsame Ht.
    unfold getPublicationsWithFallback, getPublications.
    unfold NodeCache.set in Hsame. rewrite mapGet_mapSet_same in Hsame.
    rewrite (get_fresh _ _ _ _ _ Hsame); [reflexivity|].
    unfold NodeCache.expired. cbn [NodeCache.t].
    apply andb_false_iff. right. apply Z.ltb_ge.
    unfold NodeCache.livetime, publicationsTTL. cbn. lia.
Qed.

(** A failed call of the API is passed on and leaves the cache as it
    is. *)
Lemma fetchPublications_rejected api now
  (cache cache' : NodeCache.Data (list Publication.t)) error :
  fetchPublications api now cache = (Rejected error, cache') ->
  api = Rejected error /\ cache' = cache.
Proof.
  unfold fetchPublications. destruct api as [listed|err]; [discriminate|].
  intros H. now injection H as <- <-.
Qed.

(** ** The package of a publication *)

Lemma find_first {A : Type} (f : A -> bool) (pre : list A) (p : A)
  (post : list A) :
  Forall (fun q => f q = false) pre -> f p = true ->
  find f (pre ++ p :: post) = Some p.
Proof.
  intros Hpre Hp. induction Hpre as [|q pre Hq _ IH]; cbn [app find].
  - now rewrite Hp.
  - now rewrite Hq.
Qed.

(** [fetchPackagesByPublication] is rejected before any request when the
    domain or the API key is not configured. Otherwise, of the packages
    the API lists, it returns the first of type OBITUARY when there is one,
    the first package when there is none, and is rejected with "No packages
    found for publication" exactly when the list is empty. *)
Theorem obituary_package_is_preferred :
  forall domain apiKey axiosPackages publicationUuid,
    (configMissing domain apiKey = true ->
     fetchPackagesByPublication domain apiKey axiosPackages publicationUuid
     = Rejected
         (Error "DOMAIN and API_KEY must be set in environment variables")) /\
    (forall data,
        configMissing domain apiKey = false ->
        axiosPackages (JS.show domain ++ "/api/packages/by-publication/"
                       ++ publicationUuid) = Fulfilled data ->
        (forall pre p post,
            data = (pre ++ p :: post)%list ->
            Forall (fun q => Package.type q <> "OBITUARY") pre ->
            Package.type p = "OBITUARY" ->
            fetchPackagesByPublication domain apiKey axiosPackages
              publicationUuid = Fulfilled p) /\
        (forall p rest,
            data = p :: rest ->
            Forall (fun q => Package.type q <> "OBITUARY") data ->
            fetchPackagesByPublication domain apiKey axiosPackages
              publicationUuid = Fulfilled p) /\
        (fetchPackagesByPublication domain apiKey axiosPackages
           publicationUuid
         = Rejected (Error "No packages found for publication")
         <-> data = [])).
Proof.
  intros domain apiKey axiosPackages publicationUuid. split.
  - intros H. unfold fetchPackagesByPublication. now rewrite H.
  - intros data Hc Hd. unfold fetchPackagesByPublication. rewrite Hc, Hd.
    cbv zeta. split; [|split].
    + intros pre p post -> Hpre Hp. rewrite (find_first _ pre p post).
      * reflexivity.
      * eapply Forall_impl; [|exact Hpre]. intros q Hq. cbv beta.
        now apply String.eqb_neq.
      * now apply String.eqb_eq.
    + intros p rest -> Hall.
      destruct (find _ (p :: rest)) as [q|] eqn:Ef; [|reflexivity].
      apply find_some in Ef as [Hin Hq]. apply String.eqb_eq in Hq.
      exfalso. exact (proj1 (Forall_forall _ _) Hall q Hin Hq).
    + split.
      * intros H. destruct data as [|p rest]; [reflexivity|].
        cbn [nth_error] in H.
        destruct (find _ (p :: rest)); discriminate.
      * intros ->. reflexivity.
Qed.

(** ** The identifier of the pricing route *)

(** The pricing route reads back the UUID it wrote into the identifier of
    a list item, whatever the UUID holds, and the identifier passes the
    [uuid_] test of the route. *)
Theorem pricing_selection_recovers_the_uuid :
  forall uuid,
    pricingSelection (pricingItemId uuid) = uuid /\
    JS.startsWith "uuid_" (pricingItemId uuid) = true.
Proof.
  intros uuid. unfold pricingSelection, pricingItemId, JS.replace.
  rewrite (indexOf_here _ _ (startsWith_app "uuid_" uuid)).
  split; [|apply startsWith_app].
  change (0 + String.length "uuid_")%nat with (String.length "uuid_").
  rewrite drop_app. now destruct uuid.
Qed.

(** ** A block that is not closed *)

Section Unterminated.

Variable L : Luxon.
Variable now : Z.
Variables (rruleMap : JSMap string) (today : DateTime) (src sid : string).

Let scan := parseLines L now rruleMap today src sid.

(** Inside a block, lines other than END:VEVENT only change the record
    being filled; none of them raises. *)
Lemma parseLines_inside body st :
  inEvent st = true -> currentEvent st <> None ->
  Forall (fun line => line <> "END:VEVENT") body ->
  exists e,
    scan body st
    = Normal {| currentEvent := Some e; inEvent := true;
                eventsByDayPattern := eventsByDayPattern st;
                totalProcessed := totalProcessed st;
                futureEvents := futureEvents st;
                pastEvents := pastEvents st |}.
Proof.
  unfold scan. intros Hin Hcur Hbody. revert st Hin Hcur.
  induction Hbody as [|line body Hline _ IH]; intros st Hin Hcur.
  - destruct (currentEvent st) as [e|] eqn:Ec; [|congruence].
    exists e. cbn [parseLines]. destruct st. cbn in *. now subst.
  - cbn [parseLines]. unfold parseLine.
    apply String.eqb_neq in Hline. rewrite Hline, Hin. cbn [andb].
    destruct (String.eqb line "BEGIN:VEVENT").
    + cbn [bind].
      match goal with
      | |- context [parseLines _ _ _ _ _ _ body ?s] =>
          destruct (IH s eq_refl ltac:(discriminate)) as [e He]
      end.
      exists e. exact He.
    + destruct (JS.includes ":" line) eqn:Ei.
      * unfold JS.includes in Ei.
        destruct (JS.indexOf ":" line) as [i|]; [|discriminate].
        destruct (currentEvent st) as [e0|]; [|congruence].
        cbn [bind].
        match goal with
        | |- context [parseLines _ _ _ _ _ _ body ?s] =>
            destruct (IH s ltac:(first [exact Hin|reflexivity])
                        ltac:(discriminate)) as [e He]
        end.
        exists e. exact He.
      * cbn [bind]. apply IH; assumption.
Qed.


End Unterminated.

(** ** A first event without a valid start *)

Section InvalidStart.

Variable L : Luxon.
Variable now : Z.

Lemma loopBody_invalid tz days offsets nowTz st :
  currentDate st = InvalidDT ->
  loopBody L tz days offsets nowTz st
  = {| currentDate := InvalidDT; count := count st; dates := dates st |}.
Proof. intros H. unfold loopBody. rewrite H. reflexivity. Qed.

Lemma whileCount_invalid fuel tz days offsets nowTz st :
  currentDate st = InvalidDT -> count st < 5 ->
  whileCount L fuel tz days offsets nowTz st = None.
Proof.
  revert st. induction fuel as [|fuel IH]; intros st Hd Hc;
    cbn [whileCount]; destruct (Z.ltb_spec (count st) 5); try lia;
    [reflexivity|].
  rewrite loopBody_invalid by exact Hd. apply IH; [reflexivity|exact Hc].
Qed.

(** When the start of the first event is null, as it is for a record whose
    DTSTART holds a month or a day out of range, the projector never
    returns, whatever the other events are: the cursor of its walk is an
    invalid date, which has no weekday, and no day is ever accepted. *)
Theorem first_event_without_start_never_projects :
  forall first rest fuel,
    dateTime (start first) = None ->
    generateNext5FromEvents L now fuel (first :: rest) = None.
Proof.
  intros first rest fuel H. unfold generateNext5FromEvents, loopEntry.
  rewrite H. cbn [fromISO setZone startOfDay nowDT].
  rewrite whileCount_invalid; [reflexivity| |cbn; lia].
  cbn [currentDate]. unfold maxDT. cbn [valueOf].
  now destruct (valueOf _).
Qed.

End InvalidStart.

(** ** Dates that cannot be read *)

Section Fallback.

Variable L : Luxon.
Variable now : Z.

Lemma fromObject_NaN (o : DateObject) (zone : string) :
  o_year o = None \/ o_month o = None \/ o_day o = None \/
  o_hour o = None \/ o_minute o = None \/ o_second o = None ->
  fromObject L o zone = Throw (InvalidArgumentError "Invalid unit value NaN").
Proof.
  unfold fromObject.
  destruct (o_year o), (o_month o), (o_day o), (o_hour o), (o_minute o),
    (o_second o); try reflexivity.
  intros [H | [H | [H | [H | [H | H]]]]]; discriminate.
Qed.


End Fallback.

(** ** The search by date range *)

Section DateRangeFacts.

Variable L : Luxon.
Variable urlPathname : string -> option string.

Lemma filter_none {A : Type} (f : A -> bool) (l : list A) :
  Forall (fun x => f x = false) l -> filter f l = [].
Proof.
  induction 1 as [|x l Hx _ IH]; [reflexivity|].
  cbn [filter]. now rewrite Hx.
Qed.

Lemma inDateRange_invalid rangeStartDate rangeEndDate v :
  rangeStartDate = None \/ rangeEndDate = None ->
  inDateRange L rangeStartDate rangeEndDate v = false.
Proof.
  unfold inDateRange, geDT, leDT, geDT, fromJSDate, fromISO.
  destruct (startDate v) as [ts|]; [|reflexivity].
  cbn [valueOf].
  intros [-> | ->]; cbn [valueOf]; [reflexivity|apply andb_false_r].
Qed.

Lemma inDateRange_before today rangeStartDate rangeEndDate v :
  ltDT (fromJSDate L rangeEndDate) today = true ->
  ltDT (fromISO L (startDate v)) today = false ->
  inDateRange L rangeStartDate rangeEndDate v = false.
Proof.
  unfold inDateRange, geDT, leDT, geDT, ltDT, fromJSDate, fromISO.
  destruct (startDate v) as [ts|]; [|reflexivity].
  destruct rangeEndDate as [e|]; cbn [valueOf]; [|discriminate].
  destruct (valueOf today) as [t|]; [|discriminate].
  intros He Hv. apply Z.ltb_lt in He. apply Z.ltb_ge in Hv.
  apply andb_false_iff. right.
  destruct rangeStartDate; apply Z.leb_gt; lia.
Qed.


End DateRangeFacts.

(** ** Further concrete instances *)

Lemma sampleCalendar_parsed :
  parseIcsContent sampleLuxon sampleNow "session" sampleCalendar ""
  = Normal sampleCalendarEvents.
Proof. vm_compute. reflexivity. Qed.

(** The counters on a calendar of one weekly block for three weekdays. *)
Lemma parse_counts_every_block_once_witness :
  parseIcsContent sampleLuxon sampleNow "session" sampleCalendar ""
  = Normal sampleCalendarEvents /\
  exists st,
    sampleCalendarEvents = mapValues (eventsByDayPattern st) /\
    totalProcessed st = futureEvents st + pastEvents st /\
    Z.of_nat (List.length sampleCalendarEvents) <= 7 * futureEvents st.
Proof.
  split; [exact sampleCalendar_parsed|].
  destruct (parse_counts_every_block_once sampleLuxon sampleNow "session"
              sampleCalendar "" sampleCalendarEvents sampleCalendar_parsed)
    as (st & _ & H2 & H3 & _ & H5).
  exists st. split; [exact H2|]. split; [exact H3|exact H5].
Defined.


(** A one-time record of 2030, met on 2025-01-13 with an empty map. *)
Lemma one_time_record_dropped_or_kept_unmoved_witness :
  (Raw.startDate sampleOneTimeRecord = Some (DT 1893931200000 "UTC") /\
   JS.truthy (rawRruleOf [] sampleOneTimeRecord) = false /\
   JS.truthy (Raw.rrule sampleOneTimeRecord) = false) /\
  exists st,
    finishEvent sampleLuxon [] sampleToday "" "session" sampleOneTimeRecord
      initialState = Normal st /\
    map fst (eventsByDayPattern st) = ["pub--2_1893931200000"] /\
    map (fun kv => dateTime (start (snd kv))) (eventsByDayPattern st)
    = [Some 1893931200000] /\
    futureEvents st = 1.
Proof.
  split; [repeat split|].
  destruct (one_time_record_dropped_or_kept_unmoved sampleLuxon [] sampleToday
              "" "session" sampleOneTimeRecord (DT 1893931200000 "UTC")
              initialState eq_refl eq_refl eq_refl) as [H _].
  eexists. split; [exact H|]. repeat split.
Defined.

(** The events of a weekly block for three weekdays. *)
Lemma parsed_events_are_weekly_or_one_time_witness :
  parseIcsContent sampleLuxon sampleNow "session" sampleCalendar ""
  = Normal sampleCalendarEvents /\
  List.length sampleCalendarEvents = 3%nat /\
  Forall (fun v => resolverShaped v /\ summary v <> "") sampleCalendarEvents.
Proof.
  split; [exact sampleCalendar_parsed|]. split; [reflexivity|].
  eapply Forall_impl;
    [|exact (parsed_events_are_weekly_or_one_time sampleLuxon sampleNow
               "session" sampleCalendar "" sampleCalendarEvents
               sampleCalendar_parsed)].
  cbv beta. tauto.
Defined.


(** A Monday and a Wednesday event projected on 2025-01-13. *)
Lemma projected_dates_are_on_later_governed_days_witness :
  exists ds,
    dateTime (start (sampleWeekly "MO" 1736787600000 "America/New_York"))
    = Some 1736787600000 /\
    generateNext5FromEvents sampleLuxon sampleNow 40
      [sampleWeekly "MO" 1736787600000 "America/New_York";
       sampleWeekly "WE" 1736942400000 "America/New_York"]
    = Some (Normal ds) /\
    ForallOrdPairs (laterDay sampleLuxon) ds.
Proof.
  eexists. split; [reflexivity|]. split; [vm_compute; reflexivity|].
  refine (proj1 (projected_dates_are_on_later_governed_days sampleLuxon
                   sampleNow
                   (sampleWeekly "MO" 1736787600000 "America/New_York")
                   [sampleWeekly "WE" 1736942400000 "America/New_York"]
                   1736787600000 40 _ eq_refl _)).
  vm_compute. reflexivity.
Defined.

(** Two Monday events, the first with the default offset and the second
    with offset 0: every Monday occurrence has offset 0. *)
Lemma last_event_of_a_weekday_sets_its_offset_witness :
  exists ds,
    generateNext5FromEvents sampleLuxon sampleNow 40
      [sampleWeekly "MO" 1736787600000 "America/New_York";
       sampleWeeklyOffset "MO" 1736787600000 "America/New_York" 0]
    = Some (Normal ds) /\
    governedDay (sampleWeeklyOffset "MO" 1736787600000 "America/New_York" 0)
    = Some "MO" /\
    List.length ds = 5%nat /\
    Forall (fun o =>
              dayAbbrOf (weekday sampleLuxon (Occ.runDate o)) = Some "MO" ->
              Occ.deadlineOffset o = 0 /\
              Occ.submissionDate o
              = minusDays sampleLuxon 0 (Occ.runDate o)) ds.
Proof.
  eexists. split; [vm_compute; reflexivity|]. split; [reflexivity|].
  split; [reflexivity|].
  refine (last_event_of_a_weekday_sets_its_offset sampleLuxon sampleNow
            (sampleWeekly "MO" 1736787600000 "America/New_York")
            [sampleWeeklyOffset "MO" 1736787600000 "America/New_York" 0]
            1736787600000 40 _
            [sampleWeekly "MO" 1736787600000 "America/New_York"]
            (sampleWeeklyOffset "MO" 1736787600000 "America/New_York" 0)
            [] "MO" eq_refl _ eq_refl eq_refl (Forall_nil _)).
  vm_compute. reflexivity.
Defined.


(** The canvas for a Monday and a Wednesday event. *)
Lemma every_projected_date_is_shown_witness :
  exists ds,
    generateNext5FromEvents sampleLuxon sampleNow 40
      [sampleWeekly "MO" 1736787600000 "America/New_York";
       sampleWeekly "WE" 1736942400000 "America/New_York"]
    = Some (Normal ds) /\
    detailComponents sampleLuxon sampleNow sampleFormat 40 "Paper"
      [sampleWeekly "MO" 1736787600000 "America/New_York";
       sampleWeekly "WE" 1736942400000 "America/New_York"]
    = Some (Normal
              (paperDetails "Paper"
               ++ flat_map (dateComponents sampleFormat) ds
               ++ backButton)%list).
Proof.
  eexists. split; [vm_compute; reflexivity|].
  refine (proj1 (every_projected_date_is_shown sampleLuxon sampleNow
                   sampleFormat
                   (sampleWeekly "MO" 1736787600000 "America/New_York")
                   [sampleWeekly "WE" 1736942400000 "America/New_York"]
                   1736787600000 40 "Paper" _ eq_refl _)).
  vm_compute. reflexivity.
Defined.

(** The static entry of the publications. *)
Lemma selection_recovers_the_listed_publication_witness :
  (JS.includes "__" "BRD-Bradenton Herald" = false /\
   JS.includes "|" "BRD-Bradenton Herald" = false) /\
  selectionOf (listItemId "BRD-Bradenton Herald" "Spokesman-Review")
  = Normal ("BRD-Bradenton Herald", Some "spokesman-review").
Proof.
  split; [split; reflexivity|].
  exact (proj1 (selection_recovers_the_listed_publication
                  "BRD-Bradenton Herald" "Spokesman-Review"
                  eq_refl eq_refl)).
Defined.

(** An identifier of the pricing route. *)
Lemma selection_without_double_underscore_raises_witness :
  JS.includes "__" (pricingItemId "BRD-Bradenton Herald") = false /\
  JS.startsWith "uuid_" (pricingItemId "BRD-Bradenton Herald") = true /\
  selectionOf (pricingItemId "BRD-Bradenton Herald")
  = Throw (TypeError
             "Cannot read properties of undefined (reading 'split')").
Proof.
  split; [reflexivity|]. split; [reflexivity|].
  exact (selection_without_double_underscore_raises
           (pricingItemId "BRD-Bradenton Herald") eq_refl).
Defined.

(** The summary of a calendar of one weekly block for three weekdays. *)
Lemma fetched_summary_counts_every_event_once_witness :
  exists data,
    fetchAndParseIcs sampleLuxon samplePathname sampleAxios "session"
      sampleNow "https://a.example/x/paper.ics" = Fulfilled data /\
    Calendar.name data = "paper" /\
    Calendar.eventCount data = 3 /\
    Calendar.recurringEvents data + Calendar.oneTimeEvents data
    = Calendar.eventCount data /\
    Calendar.sessionId data = Some "session".
Proof.
  eexists. split; [vm_compute; reflexivity|]. split; [reflexivity|].
  split; [reflexivity|].
  refine (let H := fetched_summary_counts_every_event_once sampleLuxon
                     samplePathname sampleAxios "session" sampleNow
                     "https://a.example/x/paper.ics" _ _ in
          conj (proj1 H) (proj1 (proj2 (proj2 H)))).
  vm_compute. reflexivity.
Defined.

(** A calendar retrieved at 10:00 into an empty cache, asked for again an
    hour later when the network is down. *)
Lemma retrieved_events_are_served_for_a_day_witness :
  exists events cache',
    ("https://a.example/x/paper.ics" <> "" /\ 0 <= sampleNow + 500 /\
     fst (NodeCache.get sampleNow
            (cacheKeyOf samplePathname "https://a.example/x/paper.ics")
            ([] : NodeCache.Data Calendar.Data)) = None) /\
    retrieveAndParseIcs sampleLuxon samplePathname sampleAxios "session"
      sampleNow (sampleNow + 500) (Some "https://a.example/x/paper.ics") []
    = (Fulfilled events, cache') /\
    List.length events = 3%nat /\
    retrieveAndParseIcs sampleLuxon samplePathname sampleAxiosDown "later"
      (sampleNow + 3600000) (sampleNow + 3600500)
      (Some "https://a.example/x/paper.ics") cache'
    = (Fulfilled events, cache').
Proof.
  eexists. eexists.
  split; [split; [discriminate|split; [unfold sampleNow; lia|reflexivity]]|].
  split; [vm_compute; reflexivity|]. split; [reflexivity|].
  refine (proj1 (retrieved_events_are_served_for_a_day sampleLuxon
                   samplePathname sampleAxios "session" sampleNow
                   (sampleNow + 500) "https://a.example/x/paper.ics" [] _ _
                   _ _ eq_refl _
                   sampleAxiosDown "later" (sampleNow + 3600000)
                   (sampleNow + 3600500) "https://a.example/x/paper.ics" _
                   _ eq_refl eq_refl) _).
  - discriminate.
  - unfold sampleNow. lia.
  - vm_compute. reflexivity.
  - discriminate.
  - unfold sampleNow. lia.
Defined.

(** The calendar downloaded from one host, asked for from another. *)
Lemma calendar_of_one_url_is_served_for_another_witness :
  exists data cache',
    (samplePathname "https://a.example/x/paper.ics"
     = Some ("/x" ++ "/" ++ "paper" ++ ".ics") /\
     samplePathname "https://b.example/y/paper.ICS"
     = Some ("/y" ++ "/" ++ "paper" ++ ".ICS")) /\
    getCalendar sampleLuxon samplePathname sampleAxios "session" sampleNow
      (sampleNow + 500) "https://a.example/x/paper.ics" []
    = (Fulfilled data, cache') /\
    Calendar.url data = "https://a.example/x/paper.ics" /\
    getCalendar sampleLuxon samplePathname sampleAxiosDown "later"
      (sampleNow + 3600000) (sampleNow + 3600500)
      "https://b.example/y/paper.ICS" cache'
    = (Fulfilled data, cache').
Proof.
  eexists. eexists. split; [split; reflexivity|].
  split; [vm_compute; reflexivity|].
  match goal with
  | |- Calendar.url ?d = _ /\ getCalendar _ _ _ _ _ _ _ ?c = _ =>
      assert (Hg : getCalendar sampleLuxon samplePathname sampleAxios
                     "session" sampleNow (sampleNow + 500)
                     "https://a.example/x/paper.ics" []
                   = (Fulfilled d, c)) by (vm_compute; reflexivity);
      destruct (calendar_of_one_url_is_served_for_another sampleLuxon
                  samplePathname sampleAxios "session" sampleNow
                  (sampleNow + 500) "https://a.example/x/paper.ics"
                  "https://b.example/y/paper.ICS" "/x" "/y" "paper" ".ics"
                  ".ICS" [] c d eq_refl eq_refl eq_refl eq_refl eq_refl
                  eq_refl Hg) as [H1 H2]
  end.
  split; [exact H1|]. apply H2. unfold sampleNow. lia.
Defined.

(** An API that lists no publication. *)
Lemma fetched_publications_end_with_the_static_entry_witness :
  exists cache',
    fetchPublications (Fulfilled []) sampleNow []
    = (Fulfilled [static_one], cache') /\
    getPublicationsWithFallback (Rejected (Error "Network Error"))
      (sampleNow + 3600000) (sampleNow + 3600500) cache'
    = (Fulfilled [static_one], cache').
Proof.
  eexists. split; [reflexivity|].
  refine (proj2 (proj2 (fetched_publications_end_with_the_static_entry
                          (Fulfilled []) sampleNow [] _ _ eq_refl))
            _ _ _ _ eq_refl _).
  unfold sampleNow. lia.
Defined.


(** A weekly record whose DTSTART names the month 13 is stored with a null
    start, and the projector never returns on it. *)
Lemma first_event_without_start_never_projects_witness :
  parseIcsContent sampleLuxon sampleNow "session" sampleBrokenCalendar ""
  = Normal sampleBrokenEvents /\
  map (fun v => (dateTime (start v), recurrence v)) sampleBrokenEvents
  = [(None, Some ["RRULE:FREQ=WEEKLY;BYDAY=MO"])] /\
  forall fuel,
    generateNext5FromEvents sampleLuxon sampleNow fuel sampleBrokenEvents
    = None.
Proof.
  split; [vm_compute; reflexivity|]. split; [reflexivity|].
  intros fuel.
  exact (first_event_without_start_never_projects sampleLuxon sampleNow
           (hd (sampleOneTime 0 "UTC") sampleBrokenEvents)
           (tl sampleBrokenEvents) fuel eq_refl).
Defined.


